(** * NeuroFi ML service: signal fusion and recommendation engine

    A shallow embedding of the Python services under
    [backend/ml-service/services]: the technical analyzer, the price
    predictor (forecast cache, volatility dampening, smoothing), the
    sentiment aggregator and the recommendation engine, followed by the
    properties of the specification that concern them.

    Numbers.  Python floats are embedded as exact rationals ([Q]); the
    comparisons, [min], [max] and [abs] follow Python on finite values.
    Rounding of binary64 arithmetic, infinities and NaN are not part of
    this model, and the properties proved over it are those that do not
    turn on the rounding.  Numeric equalities are stated with [==].
    Where the rounding decides, at the threshold of the technical score
    and at the endpoints of the smoothing step, the computation is
    embedded once more over binary64 floats, in the module [Binary64].
    The functions the code takes from numpy ([tanh], the square root
    inside [std]) and the rendering of a float in an f-string are operations
    of the class [NumPy]; the only law is that [tanh] gives equal results
    on equal numbers.

    Dictionaries with a fixed set of keys are records; dictionaries whose
    keys vary at run time (signals, indicators, the prediction cache, the
    risk configurations) are [gmap]s keyed by strings.

    Further parts of the services are embedded after these: the signal
    and trend rules of the technical analyzer and the number of bars it
    requests, the scoring of one text, the rankings, the market summary
    and the bulk histories of the data fetcher, and the training sequences
    of the price model. *)

From Stdlib Require Import QArith Qabs Qminmax Lqa.
From Stdlib Require PrimFloat.
From stdpp Require Import gmap strings list sorting.

Local Open Scope Q_scope.

(** ** Python values and builtins *)

Module Py.

(** The exceptions the services raise or let through. *)
Inductive exn : Type :=
| ValueError (msg : string)
| KeyError (key : string)
| Exception (msg : string).

(** Outcome of a call that may raise. *)
Inductive result (A : Type) : Type :=
| Ok (a : A)
| Raise (e : exn).
Arguments Ok {A} a.
Arguments Raise {A} e.

Definition is_ok {A} (r : result A) : bool :=
  match r with Ok _ => true | Raise _ => false end.

(** [x < y], [x <= y] on floats, as booleans. *)
Definition ltb (x y : Q) : bool :=
  match x ?= y with Lt => true | _ => false end.
Definition leb (x y : Q) : bool :=
  match x ?= y with Gt => false | _ => true end.
Definition eqb (x y : Q) : bool :=
  match x ?= y with Eq => true | _ => false end.

(** [min(a, b)] and [max(a, b)]: the first argument wins ties. *)
Definition min (a b : Q) : Q := if ltb b a then b else a.
Definition max (a b : Q) : Q := if ltb a b then b else a.

(** Truth value of a float: [0.0] is false. *)
Definition truthy (x : Q) : bool := negb (eqb x 0).

(** [d.get(k, dflt)]. *)
Definition dict_get {V} (d : gmap string V) (k : string) (dflt : V) : V :=
  default dflt (d !! k).

(** [s in [a, b, ...]] for strings. *)
Definition str_in (s : string) (l : list string) : bool :=
  existsb (String.eqb s) l.

(** [sep.join(parts)]. *)
Fixpoint join (sep : string) (parts : list string) : string :=
  match parts with
  | [] => ""
  | [p] => p
  | p :: rest => p +:+ sep +:+ join sep rest
  end.

(** [sum(xs)] and [len(xs)] as a float. *)
Definition sum (xs : list Q) : Q := foldl Qplus 0 xs.
Definition len (xs : list Q) : Q := inject_Z (Z.of_nat (length xs)).

(** [list(set(xs))]: one element per numeric value.  The order in which
    Python iterates a set is not specified; every use below sorts the
    result. *)
Fixpoint set_list (xs : list Q) : list Q :=
  match xs with
  | [] => []
  | x :: rest => if existsb (eqb x) rest then set_list rest else x :: set_list rest
  end.

(** [sorted(xs, reverse=...)]. *)
Definition before (reverse : bool) (x y : Q) : bool :=
  if reverse then leb y x else leb x y.

Fixpoint insert_sorted (reverse : bool) (x : Q) (l : list Q) : list Q :=
  match l with
  | [] => [x]
  | y :: l' => if before reverse x y then x :: l else y :: insert_sorted reverse x l'
  end.

Definition sorted (reverse : bool) (xs : list Q) : list Q :=
  foldr (insert_sorted reverse) [] xs.

End Py.

(** What the code takes from numpy and from float formatting. *)
Class NumPy : Type := {
  np_tanh : Q -> Q;
  np_sqrt : Q -> Q;
  format_float : nat -> Q -> string;
  np_tanh_proper : Proper (Qeq ==> Qeq) np_tanh
}.

(** ** data_fetcher.py: the records the fetcher returns *)

Module DataFetcher.

Record PriceData : Type := {
  symbol : string;
  price : Q;
  timestamp : Q
}.

Record Ticker : Type := {
  t_symbol : string;
  t_price : Q;
  t_change : Q;
  t_changePercent : Q;
  t_volume : Q;
  t_quoteVolume : Q;
  t_high : Q;
  t_low : Q;
  t_openPrice : Q;
  t_count : Z;
  t_openTime : Z;
  t_closeTime : Z
}.

(** One kline as [get_klines] returns it. *)
Record Bar : Type := {
  openTime : Z;
  open : Q;
  high : Q;
  low : Q;
  close : Q;
  volume : Q;
  closeTime : Z
}.

End DataFetcher.

(** ** technical_analyzer.py *)

(** The indicator library [ta] and the three helpers built on it.  Each
    method is the body of the helper's [try] block; [Raise] stands for any
    exception inside it. *)
Class TaLib : Type := {
  ta_indicators : list DataFetcher.Bar -> Py.result (gmap string (option Q));
  ta_signals : list DataFetcher.Bar -> gmap string (option Q) -> Py.result (gmap string string);
  ta_trend : list DataFetcher.Bar -> gmap string (option Q) -> Py.result (string * Q)
}.

Module TechnicalAnalyzer.
Import DataFetcher.

Record TechnicalResult : Type := {
  indicators : gmap string (option Q);
  signals : gmap string string;
  support_levels : list Q;
  resistance_levels : list Q;
  trend : string;
  strength : Q
}.

(** [_calculate_indicators]: [{}] when the computation raises. *)
Definition _calculate_indicators `{TaLib} (df : list Bar) : gmap string (option Q) :=
  match ta_indicators df with
  | Py.Ok ind => ind
  | Py.Raise _ => ∅
  end.

(** [_generate_signals]: [{}] when the derivation raises. *)
Definition _generate_signals `{TaLib} (df : list Bar)
    (ind : gmap string (option Q)) : gmap string string :=
  match ta_signals df ind with
  | Py.Ok sig => sig
  | Py.Raise _ => ∅
  end.

(** [_determine_trend]: [("unknown", 0.0)] when the scoring raises. *)
Definition _determine_trend `{TaLib} (df : list Bar)
    (ind : gmap string (option Q)) : string * Q :=
  match ta_trend df ind with
  | Py.Ok r => r
  | Py.Raise _ => ("unknown", 0.0)
  end.

(** [s.rolling(window=window, center=True)] followed by [.max()] or
    [.min()], read at position [i].  pandas labels the window that ends
    [offset = (window - 1) // 2] rows after [i]; the value is NaN ([None])
    unless the window holds [window] rows. *)
Definition rolling_center (agg : Q -> Q -> Q) (window : nat) (s : list Q)
    (i : nat) : option Q :=
  let offset := ((window - 1) / 2)%nat in
  let stop := (i + 1 + offset)%nat in
  if ((stop <? window) || (length s <? stop))%nat then None
  else match take window (drop (stop - window) s) with
       | [] => None
       | x :: xs => Some (foldl agg x xs)
       end.

(** One turn of the loop over [range(window, len(df) - window)]. *)
Definition sr_step (df : list Bar) (highs lows : nat -> option Q)
    (acc : list Q * list Q) (i : nat) : list Q * list Q :=
  let '(resistance_levels, support_levels) := acc in
  let resistance_levels :=
    match high <$> df !! i, highs i with
    | Some h, Some m => if Py.eqb h m then resistance_levels ++ [h] else resistance_levels
    | _, _ => resistance_levels
    end in
  let support_levels :=
    match low <$> df !! i, lows i with
    | Some l, Some m => if Py.eqb l m then support_levels ++ [l] else support_levels
    | _, _ => support_levels
    end in
  (resistance_levels, support_levels).

(** [_find_support_resistance]; returns [(support_levels, resistance_levels)]. *)
Definition _find_support_resistance (df : list Bar) (window : nat) : list Q * list Q :=
  let highs := rolling_center Py.max window (high <$> df) in
  let lows := rolling_center Py.min window (low <$> df) in
  let '(resistance_levels, support_levels) :=
    foldl (sr_step df highs lows) ([], [])
          (seq window (length df - window - window)) in
  let resistance_levels := take 5 (Py.sorted true (Py.set_list resistance_levels)) in
  let support_levels := take 5 (Py.sorted false (Py.set_list support_levels)) in
  (support_levels, resistance_levels).

(** [analyze].  [fetched] is the outcome of [_get_historical_data], the
    call to the market data provider. *)
Definition analyze `{TaLib} (symbol : string) (fetched : Py.result (list Bar))
    : Py.result TechnicalResult :=
  match fetched with
  | Py.Raise e => Py.Raise e
  | Py.Ok data =>
      if (length data <? 50)%nat then
        Py.Raise (Py.ValueError ("Insufficient data for technical analysis of " +:+ symbol))
      else
        let indicators := _calculate_indicators data in
        let signals := _generate_signals data indicators in
        let '(support_levels, resistance_levels) := _find_support_resistance data 20 in
        let '(trend, strength) := _determine_trend data indicators in
        Py.Ok {| indicators := indicators;
                 signals := signals;
                 support_levels := support_levels;
                 resistance_levels := resistance_levels;
                 trend := trend;
                 strength := strength |}
  end.

End TechnicalAnalyzer.

(** ** price_predictor.py *)

(** The trained model, its scaler and the feature frame.  [Features] is the
    frame [_prepare_features] returns. *)
Class Predictor : Type := {
  Features : Type;
  (** [_prepare_features(historical_data)] *)
  prepare_features : list DataFetcher.Bar -> Py.result Features;
  (** [model_key in self.models], else the outcome of [_create_model] *)
  ensure_model : string -> list DataFetcher.Bar -> Py.result unit;
  (** [len(features)] *)
  n_rows : Features -> nat;
  (** [features['close'].iloc[-1]] *)
  close_last : Features -> Q;
  (** the feature columns present in the frame *)
  available_columns : Features -> list string;
  (** [self.models[model_key]], [scaler.transform], [model.predict] and
      [scaler.inverse_transform]: the predicted close as a price *)
  run_model : string -> Features -> Py.result Q;
  (** std / mean of the last 20 closes *)
  recent_volatility : Features -> Q;
  (** absolute correlation of the last 10 closes with their index *)
  trend_consistency : Features -> Q
}.

Module PricePredictor.
Import DataFetcher.

Record TimeframeConfig : Type := {
  periods : Z;
  interval : string;
  prediction_hours : Z;
  volatility_factor : Q
}.

Definition timeframe_configs : gmap string TimeframeConfig :=
  <["1h" := {| periods := 24; interval := "1h"; prediction_hours := 1; volatility_factor := 1.0 |}]>
  (<["4h" := {| periods := 24; interval := "4h"; prediction_hours := 4; volatility_factor := 0.6 |}]>
  (<["1d" := {| periods := 30; interval := "1d"; prediction_hours := 24; volatility_factor := 0.4 |}]>
  (<["7d" := {| periods := 12; interval := "1w"; prediction_hours := 168; volatility_factor := 0.3 |}]>
   ∅))).

(** Validity of a cached prediction, in seconds. *)
Definition cache_duration : gmap string Q :=
  <["1h" := 2 * 60]> (<["4h" := 10 * 60]> (<["1d" := 30 * 60]> (<["7d" := 60 * 60]> ∅))).

Definition sequence_length : nat := 60.

Record ForecastRecord : Type := {
  current_price : Q;
  predicted_price : Q;
  prediction_change : Q;
  prediction_change_percent : Q;
  confidence : Q;
  model_used : string;
  features_used : list string;
  timeframe : string;
  volatility_dampening : Q
}.

(** [_calculate_prediction_confidence] *)
Definition _calculate_prediction_confidence `{Predictor} (symbol timeframe : string)
    (features : Features) : Q :=
  let confidence := 0.7 in
  let confidence :=
    if (200 <=? n_rows features)%nat then confidence + 0.1
    else if (n_rows features <? 100)%nat then confidence - 0.2
    else confidence in
  let confidence :=
    if Py.ltb (recent_volatility features) 0.02 then confidence + 0.1
    else if Py.ltb 0.1 (recent_volatility features) then confidence - 0.2
    else confidence in
  let confidence := confidence + (trend_consistency features - 0.5) * 0.2 in
  Py.max 0.1 (Py.min 0.95 confidence).

(** The candidate price after volatility dampening. *)
Definition dampen (timeframe : string) (current_price prediction_actual : Q) : Q :=
  let volatility_factor :=
    match timeframe_configs !! timeframe with
    | Some config => volatility_factor config
    | None => 1.0
    end in
  let raw_change := prediction_actual - current_price in
  let dampened_change := raw_change * volatility_factor in
  current_price + dampened_change.

(** The smoothing step against a previously cached price. *)
Definition smooth (timeframe : string) (prediction_actual cached_price : Q) : Q :=
  let smoothing_factor :=
    if String.eqb timeframe "1h" then 0.3
    else if String.eqb timeframe "4h" then 0.6
    else 0.8 in
  (prediction_actual * (1 - smoothing_factor)) + (cached_price * smoothing_factor).

(** [_make_prediction].  [self.prediction_cache] is threaded through; the
    clock reading [datetime.utcnow().timestamp()] is the argument
    [current_time]. *)
Definition _make_prediction `{Predictor}
    (prediction_cache : gmap string (ForecastRecord * Q)) (current_time : Q)
    (symbol timeframe : string) (features : Features)
    : Py.result ForecastRecord * gmap string (ForecastRecord * Q) :=
  let cache_key := symbol +:+ "_" +:+ timeframe in
  let fresh :=
    match run_model cache_key features with
    | Py.Raise e => (Py.Raise e, prediction_cache)
    | Py.Ok prediction_actual =>
        let current_price := close_last features in
        let volatility_factor :=
          match timeframe_configs !! timeframe with
          | Some config => volatility_factor config
          | None => 1.0
          end in
        let prediction_actual := dampen timeframe current_price prediction_actual in
        let prediction_actual :=
          match prediction_cache !! cache_key with
          | Some (cached_prediction, _) =>
              smooth timeframe prediction_actual (predicted_price cached_prediction)
          | None => prediction_actual
          end in
        let prediction_change := prediction_actual - current_price in
        let prediction_change_percent := (prediction_change / current_price) * 100 in
        let confidence := _calculate_prediction_confidence symbol timeframe features in
        let confidence :=
          if Py.str_in timeframe ["4h"; "1d"; "7d"] then Py.min 0.95 (confidence * 1.1)
          else confidence in
        let result :=
          {| current_price := current_price;
             predicted_price := prediction_actual;
             prediction_change := prediction_change;
             prediction_change_percent := prediction_change_percent;
             confidence := confidence;
             model_used := "LSTM";
             features_used := available_columns features;
             timeframe := timeframe;
             volatility_dampening := volatility_factor |} in
        (Py.Ok result, <[cache_key := (result, current_time)]> prediction_cache)
    end in
  match prediction_cache !! cache_key with
  | Some (cached_prediction, cache_time) =>
      let cache_age := current_time - cache_time in
      if Py.ltb cache_age (Py.dict_get cache_duration timeframe 300) then
        (Py.Ok cached_prediction, prediction_cache)
      else fresh
  | None => fresh
  end.

(** [predict_price].  [historical] is the outcome of
    [_get_historical_data]. *)
Definition predict_price `{Predictor}
    (prediction_cache : gmap string (ForecastRecord * Q)) (current_time : Q)
    (symbol timeframe : string) (historical : Py.result (list Bar))
    : Py.result ForecastRecord * gmap string (ForecastRecord * Q) :=
  match timeframe_configs !! timeframe with
  | None => (Py.Raise (Py.ValueError ("Unsupported timeframe: " +:+ timeframe)), prediction_cache)
  | Some config =>
      match historical with
      | Py.Raise e => (Py.Raise e, prediction_cache)
      | Py.Ok historical_data =>
          if (length historical_data <? sequence_length)%nat then
            (Py.Raise (Py.ValueError ("Insufficient data for " +:+ symbol
                                      +:+ ". Need at least 60 periods.")),
             prediction_cache)
          else
            match prepare_features historical_data with
            | Py.Raise e => (Py.Raise e, prediction_cache)
            | Py.Ok features =>
                match ensure_model (symbol +:+ "_" +:+ timeframe) historical_data with
                | Py.Raise e => (Py.Raise e, prediction_cache)
                | Py.Ok _ =>
                    _make_prediction prediction_cache current_time symbol timeframe features
                end
            end
      end
  end.

End PricePredictor.

(** ** sentiment_analyzer.py *)

Module SentimentAnalyzer.

(** The per-text scores of [_analyze_text_sentiment] (VADER and TextBlob). *)
Record TextSentiment : Type := {
  compound : Q;
  positive : Q;
  negative : Q;
  neutral : Q
}.

Record AnalysisDetails : Type := {
  positive_count : Z;
  negative_count : Z;
  neutral_count : Z;
  total_analyzed : option Z;
  average_score : option Q;
  score_std : option Q
}.

(** [sources_analyzed] and [source_breakdown] are set by
    [analyze_sentiment], not by the aggregation. *)
Record SentimentRecord : Type := {
  sentiment_score : Q;
  sentiment_label : string;
  confidence : Q;
  sources_analyzed : option Z;
  source_breakdown : option (Z * Z);
  analysis_details : AnalysisDetails
}.

Definition no_details : AnalysisDetails :=
  {| positive_count := 0; negative_count := 0; neutral_count := 0;
     total_analyzed := None; average_score := None; score_std := None |}.

(** [np.mean] and [np.std] (population standard deviation). *)
Definition mean (xs : list Q) : Q := Py.sum xs / Py.len xs.

Definition std `{NumPy} (xs : list Q) : Q :=
  np_sqrt (mean ((fun x => (x - mean xs) * (x - mean xs)) <$> xs)).

(** [sum(1 for score in scores if p(score))] *)
Definition count (p : Q -> bool) (scores : list Q) : Z :=
  Z.of_nat (length (filter (fun s => Is_true (p s)) scores)).

(** [_aggregate_sentiment_results] *)
Definition _aggregate_sentiment_results `{NumPy}
    (sentiment_results : list TextSentiment) : SentimentRecord :=
  match sentiment_results with
  | [] =>
      {| sentiment_score := 0.0;
         sentiment_label := "neutral";
         confidence := 0.0;
         sources_analyzed := None;
         source_breakdown := None;
         analysis_details := no_details |}
  | _ =>
      let compound_scores := compound <$> sentiment_results in
      let avg_sentiment := mean compound_scores in
      let std_sentiment := std compound_scores in
      let confidence := Py.max 0.0 (1.0 - (std_sentiment / 2.0)) in
      let sentiment_label :=
        if Py.leb 0.05 avg_sentiment then "positive"
        else if Py.leb avg_sentiment (-0.05) then "negative"
        else "neutral" in
      let positive_count := count (fun score => Py.leb 0.05 score) compound_scores in
      let negative_count := count (fun score => Py.leb score (-0.05)) compound_scores in
      let neutral_count :=
        (Z.of_nat (length compound_scores) - positive_count - negative_count)%Z in
      {| sentiment_score := avg_sentiment;
         sentiment_label := sentiment_label;
         confidence := confidence;
         sources_analyzed := None;
         source_breakdown := None;
         analysis_details :=
           {| positive_count := positive_count;
              negative_count := negative_count;
              neutral_count := neutral_count;
              total_analyzed := Some (Z.of_nat (length sentiment_results));
              average_score := Some avg_sentiment;
              score_std := Some std_sentiment |} |}
  end.

(** [analyze_sentiment].  [news_texts] and [social_texts] are what
    [_fetch_news_data] and [_fetch_social_data] return (both catch their
    own failures and return the texts found so far); [score_text] is
    [_analyze_text_sentiment]. *)
Definition analyze_sentiment `{NumPy} (score_text : string -> TextSentiment)
    (sources : option (list string)) (news_texts social_texts : list string)
    : SentimentRecord :=
  let sources := default ["news"; "social"] sources in
  let news := if Py.str_in "news" sources then news_texts else [] in
  let social := if Py.str_in "social" sources then social_texts else [] in
  let all_texts := news ++ social in
  let source_counts := (Z.of_nat (length news), Z.of_nat (length social)) in
  match all_texts with
  | [] =>
      {| sentiment_score := 0.0;
         sentiment_label := "neutral";
         confidence := 0.0;
         sources_analyzed := Some 0%Z;
         source_breakdown := Some source_counts;
         analysis_details := no_details |}
  | _ =>
      let sentiment_results := score_text <$> all_texts in
      let aggregated_sentiment := _aggregate_sentiment_results sentiment_results in
      {| sentiment_score := sentiment_score aggregated_sentiment;
         sentiment_label := sentiment_label aggregated_sentiment;
         confidence := confidence aggregated_sentiment;
         sources_analyzed := Some (Z.of_nat (length all_texts));
         source_breakdown := Some source_counts;
         analysis_details := analysis_details aggregated_sentiment |}
  end.

End SentimentAnalyzer.

(** ** recommendation_engine.py *)

Module RecommendationEngine.
Import Py.
Import TechnicalAnalyzer.

Record RiskConfig : Type := {
  min_confidence : Q;
  max_position_size : Q;
  stop_loss_percent : Q;
  take_profit_percent : Q;
  sentiment_weight : Q;
  technical_weight : Q;
  prediction_weight : Q
}.

Definition risk_low : RiskConfig :=
  {| min_confidence := 0.8; max_position_size := 0.1;
     stop_loss_percent := 0.05; take_profit_percent := 0.1;
     sentiment_weight := 0.2; technical_weight := 0.5; prediction_weight := 0.3 |}.

Definition risk_medium : RiskConfig :=
  {| min_confidence := 0.6; max_position_size := 0.2;
     stop_loss_percent := 0.08; take_profit_percent := 0.15;
     sentiment_weight := 0.3; technical_weight := 0.4; prediction_weight := 0.3 |}.

Definition risk_high : RiskConfig :=
  {| min_confidence := 0.4; max_position_size := 0.3;
     stop_loss_percent := 0.12; take_profit_percent := 0.25;
     sentiment_weight := 0.4; technical_weight := 0.3; prediction_weight := 0.3 |}.

Definition risk_configs : gmap string RiskConfig :=
  <["low" := risk_low]> (<["medium" := risk_medium]> (<["high" := risk_high]> ∅)).

(** The dictionary [_gather_analysis_data] returns; [None] is Python's
    [None]. *)
Record AnalysisData : Type := {
  sentiment : option SentimentAnalyzer.SentimentRecord;
  prediction : option PricePredictor.ForecastRecord;
  technical : option TechnicalResult;
  price : option DataFetcher.PriceData;
  ticker : option DataFetcher.Ticker
}.

Record Scores : Type := {
  sentiment_score : Q;
  technical_score : Q;
  prediction_score : Q;
  overall_score : Q
}.

Inductive Action : Type := buy | sell | hold.

Definition action_eqb (a b : Action) : bool :=
  match a, b with
  | buy, buy | sell, sell | hold, hold => true
  | _, _ => false
  end.

Record Recommendation : Type := {
  action : Action;
  confidence : Q;
  target_price : option Q;
  stop_loss : option Q;
  reasoning : string;
  time_horizon : string;
  scores : Scores;
  risk_reward_ratio : option Q
}.

(** [results[k] if not isinstance(results[k], Exception) else None] *)
Definition or_none {A} (r : result A) : option A :=
  match r with
  | Ok a => Some a
  | Raise _ => None
  end.

(** [_gather_analysis_data].  The arguments are the outcomes of the five
    tasks handed to [asyncio.gather(..., return_exceptions=True)]. *)
Definition _gather_analysis_data
    (r_sentiment : result SentimentAnalyzer.SentimentRecord)
    (r_prediction : result PricePredictor.ForecastRecord)
    (r_technical : result TechnicalResult)
    (r_price : result DataFetcher.PriceData)
    (r_ticker : result (list DataFetcher.Ticker)) : AnalysisData :=
  let sentiment_data := or_none r_sentiment in
  let prediction_data := or_none r_prediction in
  let technical_data := or_none r_technical in
  let price_data := or_none r_price in
  let ticker_data := or_none r_ticker in
  {| sentiment := sentiment_data;
     prediction := prediction_data;
     technical := technical_data;
     price := price_data;
     ticker := match ticker_data with
               | Some (t :: _) => Some t
               | _ => None
               end |}.

(** [_calculate_technical_score] *)
Definition _calculate_technical_score (technical_data : TechnicalResult) : Q :=
  let signals := signals technical_data in
  let score := 0.0 in
  let factors := 0%nat in
  (* RSI signal *)
  let rsi_signal := dict_get signals "rsi" "neutral" in
  let score :=
    if String.eqb rsi_signal "oversold" then score + 0.3
    else if String.eqb rsi_signal "overbought" then score - 0.3
    else score in
  let factors := (factors + 1)%nat in
  (* MACD signal *)
  let macd_signal := dict_get signals "macd" "neutral" in
  let score :=
    if String.eqb macd_signal "bullish" then score + 0.2
    else if String.eqb macd_signal "bearish" then score - 0.2
    else score in
  let factors := (factors + 1)%nat in
  (* Moving average trend *)
  let ma_trend := dict_get signals "ma_trend" "neutral" in
  let score :=
    if String.eqb ma_trend "strong_bullish" then score + 0.4
    else if String.eqb ma_trend "weak_bullish" then score + 0.2
    else if String.eqb ma_trend "weak_bearish" then score - 0.2
    else if String.eqb ma_trend "strong_bearish" then score - 0.4
    else score in
  let factors := (factors + 1)%nat in
  (* Bollinger Bands *)
  let bb_signal := dict_get signals "bollinger" "neutral" in
  let score :=
    if String.eqb bb_signal "oversold" then score + 0.2
    else if String.eqb bb_signal "overbought" then score - 0.2
    else score in
  let factors := (factors + 1)%nat in
  (* Trend strength *)
  let trend_strength := dict_get signals "trend_strength" "weak" in
  let trend := trend technical_data in
  let score :=
    if String.eqb trend "bullish" && str_in trend_strength ["strong"; "very_strong"]
    then score + 0.3
    else if String.eqb trend "bearish" && str_in trend_strength ["strong"; "very_strong"]
    then score - 0.3
    else score in
  let factors := (factors + 1)%nat in
  (* Volume confirmation *)
  let volume_signal := dict_get signals "volume" "normal" in
  let score :=
    if String.eqb volume_signal "high" && ltb 0 score then score + 0.1
    else if String.eqb volume_signal "low" && ltb 0 score then score - 0.1
    else score in
  if (0 <? factors)%nat then score / inject_Z (Z.of_nat factors) else 0.0.

(** [_calculate_prediction_score] *)
Definition _calculate_prediction_score `{NumPy}
    (prediction_data : PricePredictor.ForecastRecord) : Q :=
  let change_percent := PricePredictor.prediction_change_percent prediction_data in
  let confidence := PricePredictor.confidence prediction_data in
  let normalized_change := np_tanh (change_percent / 10.0) in
  normalized_change * confidence.

(** [_calculate_recommendation_scores] *)
Definition _calculate_recommendation_scores `{NumPy}
    (analysis_data : AnalysisData) (config : RiskConfig) : Scores :=
  let sentiment_score :=
    match sentiment analysis_data with
    | Some sentiment_data =>
        SentimentAnalyzer.sentiment_score sentiment_data
        * SentimentAnalyzer.confidence sentiment_data
    | None => 0.0
    end in
  let technical_score :=
    match technical analysis_data with
    | Some technical_data => _calculate_technical_score technical_data
    | None => 0.0
    end in
  let prediction_score :=
    match prediction analysis_data with
    | Some prediction_data => _calculate_prediction_score prediction_data
    | None => 0.0
    end in
  {| sentiment_score := sentiment_score;
     technical_score := technical_score;
     prediction_score := prediction_score;
     overall_score :=
       sentiment_score * sentiment_weight config
       + technical_score * technical_weight config
       + prediction_score * prediction_weight config |}.

(** [_generate_reasoning] *)
Definition _generate_reasoning `{NumPy} (analysis_data : AnalysisData)
    (scores : Scores) (action : Action) : string :=
  let reasoning_parts := [] in
  (* Sentiment reasoning *)
  let reasoning_parts :=
    match sentiment analysis_data with
    | Some sentiment_data =>
        let sentiment_label := SentimentAnalyzer.sentiment_label sentiment_data in
        let sentiment_score := SentimentAnalyzer.sentiment_score sentiment_data in
        if String.eqb sentiment_label "positive" then
          reasoning_parts
          ++ ["Market sentiment is positive (" +:+ format_float 2 sentiment_score +:+ ")"]
        else if String.eqb sentiment_label "negative" then
          reasoning_parts
          ++ ["Market sentiment is negative (" +:+ format_float 2 sentiment_score +:+ ")"]
        else reasoning_parts ++ ["Market sentiment is neutral"]
    | None => reasoning_parts
    end in
  (* Technical reasoning *)
  let reasoning_parts :=
    match technical analysis_data with
    | Some technical_data =>
        let trend := trend technical_data in
        let signals := signals technical_data in
        let reasoning_parts := reasoning_parts ++ ["Technical trend is " +:+ trend] in
        let reasoning_parts :=
          if bool_decide (signals !! "rsi" = Some "oversold") then
            reasoning_parts ++ ["RSI indicates oversold conditions"]
          else if bool_decide (signals !! "rsi" = Some "overbought") then
            reasoning_parts ++ ["RSI indicates overbought conditions"]
          else reasoning_parts in
        if bool_decide (signals !! "macd" = Some "bullish") then
          reasoning_parts ++ ["MACD shows bullish momentum"]
        else if bool_decide (signals !! "macd" = Some "bearish") then
          reasoning_parts ++ ["MACD shows bearish momentum"]
        else reasoning_parts
    | None => reasoning_parts
    end in
  (* Prediction reasoning *)
  let reasoning_parts :=
    match prediction analysis_data with
    | Some prediction_data =>
        let change_percent := PricePredictor.prediction_change_percent prediction_data in
        if ltb 2 (Qabs change_percent) then
          let direction := if ltb 0 change_percent then "upward" else "downward" in
          reasoning_parts
          ++ ["Price prediction suggests " +:+ direction +:+ " movement ("
              +:+ format_float 1 change_percent +:+ "%)"]
        else reasoning_parts
    | None => reasoning_parts
    end in
  (* Overall reasoning *)
  let overall_score := overall_score scores in
  let reasoning_parts :=
    match action with
    | buy =>
        reasoning_parts
        ++ ["Overall analysis suggests buying opportunity (score: "
            +:+ format_float 2 overall_score +:+ ")"]
    | sell =>
        reasoning_parts
        ++ ["Overall analysis suggests selling opportunity (score: "
            +:+ format_float 2 overall_score +:+ ")"]
    | hold =>
        reasoning_parts
        ++ ["Analysis suggests holding position (score: "
            +:+ format_float 2 overall_score +:+ ")"]
    end in
  join ". " reasoning_parts +:+ ".".

(** [_determine_time_horizon] *)
Definition _determine_time_horizon (analysis_data : AnalysisData) (action : Action)
    : string :=
  let time_horizon := "short-term" in
  let time_horizon :=
    match technical analysis_data with
    | Some technical_data =>
        let trend_strength := dict_get (signals technical_data) "trend_strength" "weak" in
        let trend := trend technical_data in
        let time_horizon :=
          if str_in trend_strength ["strong"; "very_strong"]
             && negb (String.eqb trend "sideways")
          then "medium-term" else time_horizon in
        let strong_signals :=
          length (filter (fun kv => Is_true (str_in (snd kv)
                                     ["strong_bullish"; "strong_bearish"; "very_strong"]))
                         (map_to_list (signals technical_data))) in
        if (2 <=? strong_signals)%nat then "medium-term" else time_horizon
    | None => time_horizon
    end in
  match sentiment analysis_data with
  | Some sentiment_data =>
      if ltb 0.8 (SentimentAnalyzer.confidence sentiment_data) then "medium-term"
      else time_horizon
  | None => time_horizon
  end.

(** [_calculate_risk_reward_ratio] *)
Definition _calculate_risk_reward_ratio (current_price target_price stop_loss : Q)
    : option Q :=
  if negb (truthy current_price && truthy target_price && truthy stop_loss) then None
  else
    let potential_reward := Qabs (target_price - current_price) in
    let potential_risk := Qabs (current_price - stop_loss) in
    if eqb potential_risk 0 then None
    else Some (potential_reward / potential_risk).

(** Truth value of an optional float: [None] and [0.0] are false. *)
Definition opt_truthy (x : option Q) : bool :=
  match x with
  | Some v => truthy v
  | None => false
  end.

(** [_generate_final_recommendation] *)
Definition _generate_final_recommendation `{NumPy} (symbol : string)
    (analysis_data : AnalysisData) (scores : Scores) (config : RiskConfig)
    : Recommendation :=
  let overall_score := overall_score scores in
  (* Determine action *)
  let action :=
    if ltb 0.3 overall_score then buy
    else if ltb overall_score (-0.3) then sell
    else hold in
  (* Calculate confidence *)
  let confidence := min 0.95 (Qabs overall_score + 0.1) in
  (* Check minimum confidence threshold *)
  let '(action, confidence) :=
    if ltb confidence (min_confidence config) then (hold, 0.5)
    else (action, confidence) in
  (* Get current price *)
  let current_price :=
    match price analysis_data with
    | Some price_data => Some (DataFetcher.price price_data)
    | None => None
    end in
  (* Calculate target price and stop loss *)
  let '(target_price, stop_loss) :=
    match current_price with
    | Some p =>
        if action_eqb action buy && truthy p then
          (Some (p * (1 + take_profit_percent config)),
           Some (p * (1 - stop_loss_percent config)))
        else if action_eqb action sell && truthy p then
          (Some (p * (1 - take_profit_percent config)),
           Some (p * (1 + stop_loss_percent config)))
        else (None, None)
    | None => (None, None)
    end in
  let reasoning := _generate_reasoning analysis_data scores action in
  let time_horizon := _determine_time_horizon analysis_data action in
  {| action := action;
     confidence := confidence;
     target_price := target_price;
     stop_loss := stop_loss;
     reasoning := reasoning;
     time_horizon := time_horizon;
     scores := scores;
     risk_reward_ratio :=
       match current_price, target_price, stop_loss with
       | Some c, Some t, Some s =>
           if truthy c && truthy t && truthy s
           then _calculate_risk_reward_ratio c t s
           else None
       | _, _, _ => None
       end |}.

(** [generate_recommendation].  The five outcomes are those of the tasks
    started by [_gather_analysis_data]. *)
Definition generate_recommendation `{NumPy} (symbol risk_level : string)
    (r_sentiment : result SentimentAnalyzer.SentimentRecord)
    (r_prediction : result PricePredictor.ForecastRecord)
    (r_technical : result TechnicalResult)
    (r_price : result DataFetcher.PriceData)
    (r_ticker : result (list DataFetcher.Ticker)) : result Recommendation :=
  match risk_configs !! risk_level with
  | None => Raise (ValueError ("Invalid risk level: " +:+ risk_level))
  | Some config =>
      let analysis_data :=
        _gather_analysis_data r_sentiment r_prediction r_technical r_price r_ticker in
      let scores := _calculate_recommendation_scores analysis_data config in
      Ok (_generate_final_recommendation symbol analysis_data scores config)
  end.

End RecommendationEngine.

(** ** The technical score as the specification describes it

    The fixed contribution of each bucket, the volume adjustment on a
    running score and the average over the evaluated factors.  These follow
    the wording of the specification and are compared below with
    [RecommendationEngine._calculate_technical_score]. *)

Module ScoreTable.
Import Py.

Definition rsi_points (rsi_signal : string) : Q :=
  if String.eqb rsi_signal "oversold" then 0.3
  else if String.eqb rsi_signal "overbought" then -0.3
  else 0.

Definition macd_points (macd_signal : string) : Q :=
  if String.eqb macd_signal "bullish" then 0.2
  else if String.eqb macd_signal "bearish" then -0.2
  else 0.

Definition ma_trend_points (ma_trend : string) : Q :=
  if String.eqb ma_trend "strong_bullish" then 0.4
  else if String.eqb ma_trend "weak_bullish" then 0.2
  else if String.eqb ma_trend "weak_bearish" then -0.2
  else if String.eqb ma_trend "strong_bearish" then -0.4
  else 0.

Definition bollinger_points (bb_signal : string) : Q :=
  if String.eqb bb_signal "oversold" then 0.2
  else if String.eqb bb_signal "overbought" then -0.2
  else 0.

(** A strong or very strong trend strength aligned with the trend. *)
Definition trend_points (trend trend_strength : string) : Q :=
  if String.eqb trend "bullish" && str_in trend_strength ["strong"; "very_strong"]
  then 0.3
  else if String.eqb trend "bearish" && str_in trend_strength ["strong"; "very_strong"]
  then -0.3
  else 0.

(** Volume confirmation on a running score that is already positive. *)
Definition volume_adjustment (volume_signal : string) (running : Q) : Q :=
  if String.eqb volume_signal "high" && ltb 0 running then 0.1
  else if String.eqb volume_signal "low" && ltb 0 running then -0.1
  else 0.

(** RSI, MACD, moving-average trend, Bollinger, trend strength. *)
Definition evaluated_factors : nat := 5.

Definition running_score (technical_data : TechnicalAnalyzer.TechnicalResult) : Q :=
  let signals := TechnicalAnalyzer.signals technical_data in
  rsi_points (dict_get signals "rsi" "neutral")
  + macd_points (dict_get signals "macd" "neutral")
  + ma_trend_points (dict_get signals "ma_trend" "neutral")
  + bollinger_points (dict_get signals "bollinger" "neutral")
  + trend_points (TechnicalAnalyzer.trend technical_data)
                 (dict_get signals "trend_strength" "weak").

Definition total_points (technical_data : TechnicalAnalyzer.TechnicalResult) : Q :=
  running_score technical_data
  + volume_adjustment
      (dict_get (TechnicalAnalyzer.signals technical_data) "volume" "normal")
      (running_score technical_data).

Definition technical_score (technical_data : TechnicalAnalyzer.TechnicalResult) : Q :=
  total_points technical_data / inject_Z (Z.of_nat evaluated_factors).

End ScoreTable.

(** ** Notions used to state the properties *)

Module Stated.
Import DataFetcher.

(** Scores strictly between the two label thresholds of the sentiment
    aggregation. *)
Definition in_neutral_band (score : Q) : bool :=
  Py.ltb (-0.05) score && Py.ltb score 0.05.

(** The strict order a sorted, duplicate-free list follows: ascending, or
    descending when [reverse]. *)
Definition strictly (reverse : bool) (x y : Q) : Prop :=
  if reverse then y < x else x < y.

(** Bar [i] is a local extreme: its value equals the rolling aggregate of
    the centred window around it. *)
Definition local_extreme (agg : Q -> Q -> Q) (field : Bar -> Q) (window : nat)
    (df : list Bar) (i : nat) (level : Q) : Prop :=
  exists (b : Bar) (m : Q),
    df !! i = Some b /\ field b = level /\
    TechnicalAnalyzer.rolling_center agg window (field <$> df) i = Some m /\
    level == m.

End Stated.

(** ** Sample collaborators and inputs

    Concrete instances of the three interfaces and a few inputs, used to
    run the definitions. *)

Module Samples.
Import DataFetcher.

(** A rational stand-in for numpy: [x / (1 + |x|)] for [tanh], the
    identity for the square root. *)
Program Definition numpy_rational : NumPy :=
  {| np_tanh := fun x => x / (1 + Qabs x);
     np_sqrt := fun x => x;
     format_float := fun _ _ => "0.00" |}.
Next Obligation.
  intros x y Hxy. now rewrite Hxy.
Qed.

(** An indicator library whose indicator computation fails. *)
Definition ta_failing : TaLib :=
  {| ta_indicators := fun _ => Py.Raise (Py.Exception "ta");
     ta_signals := fun _ _ => Py.Ok (<["rsi" := "neutral"]> ∅);
     ta_trend := fun _ _ => Py.Raise (Py.Exception "ta") |}.

(** A model that always predicts the price 110 for a last close of 100. *)
Definition predictor_fixed : Predictor :=
  {| Features := list Bar;
     prepare_features := fun bars => Py.Ok bars;
     ensure_model := fun _ _ => Py.Ok tt;
     n_rows := fun f => length f;
     close_last := fun _ => 100;
     available_columns := fun _ => ["open"; "high"; "low"; "close"; "volume"];
     run_model := fun _ _ => Py.Ok 110;
     recent_volatility := fun _ => 0.05;
     trend_consistency := fun _ => 0.5 |}.

Definition bar (h l : Q) : Bar :=
  {| openTime := 0; open := l; high := h; low := l; close := h;
     volume := 1; closeTime := 0 |}.

(** Forty bars trading between 1 and 2, then forty between 10 and 20. *)
Definition step_series : list Bar :=
  replicate 40 (bar 2 1) ++ replicate 40 (bar 20 10).

(** Ten bars: too short a history. *)
Definition short_series : list Bar := replicate 10 (bar 2 1).

(** Only the current price is known. *)
Definition price_only : RecommendationEngine.AnalysisData :=
  {| RecommendationEngine.sentiment := None;
     RecommendationEngine.prediction := None;
     RecommendationEngine.technical := None;
     RecommendationEngine.price :=
       Some {| symbol := "BTCUSDT"; price := 100; timestamp := 0 |};
     RecommendationEngine.ticker := None |}.

Definition scores_overall (overall : Q) : RecommendationEngine.Scores :=
  {| RecommendationEngine.sentiment_score := 0;
     RecommendationEngine.technical_score := 0;
     RecommendationEngine.prediction_score := 0;
     RecommendationEngine.overall_score := overall |}.

(** A forecast of +5% with confidence 0.8. *)
Definition forecast_up : PricePredictor.ForecastRecord :=
  {| PricePredictor.current_price := 100;
     PricePredictor.predicted_price := 105;
     PricePredictor.prediction_change := 5;
     PricePredictor.prediction_change_percent := 5;
     PricePredictor.confidence := 0.8;
     PricePredictor.model_used := "LSTM";
     PricePredictor.features_used := ["close"];
     PricePredictor.timeframe := "1d";
     PricePredictor.volatility_dampening := 0.4 |}.

(** Every signal bullish, on high volume. *)
Definition all_bullish : TechnicalAnalyzer.TechnicalResult :=
  {| TechnicalAnalyzer.indicators := ∅;
     TechnicalAnalyzer.signals :=
       <["rsi" := "oversold"]> (<["macd" := "bullish"]>
       (<["ma_trend" := "strong_bullish"]> (<["bollinger" := "oversold"]>
       (<["trend_strength" := "strong"]> (<["volume" := "high"]> ∅)))));
     TechnicalAnalyzer.support_levels := [];
     TechnicalAnalyzer.resistance_levels := [];
     TechnicalAnalyzer.trend := "bullish";
     TechnicalAnalyzer.strength := 1 |}.

(** A cache holding [forecast_up] for BTCUSDT at one day, stored at time 0. *)
Definition cache_btc : gmap string (PricePredictor.ForecastRecord * Q) :=
  <["BTCUSDT_1d" := (forecast_up, 0)]> ∅.

Definition text_score (compound : Q) : SentimentAnalyzer.TextSentiment :=
  {| SentimentAnalyzer.compound := compound;
     SentimentAnalyzer.positive := 0;
     SentimentAnalyzer.negative := 0;
     SentimentAnalyzer.neutral := 1 |}.

(** One clearly positive, one clearly negative and one flat text. *)
Definition mixed_texts : list SentimentAnalyzer.TextSentiment :=
  [text_score 0.6; text_score (-0.3); text_score 0].

End Samples.

(** ** Value ranges of the gathered records *)

Module Ranges.

(** A sentiment record as the aggregation produces it: score in [-1, 1],
    confidence in [0, 1]. *)
Definition sentiment_in_range (s : SentimentAnalyzer.SentimentRecord) : Prop :=
  (-1 <= SentimentAnalyzer.sentiment_score s <= 1) /\
  (0 <= SentimentAnalyzer.confidence s <= 1).

(** A forecast whose confidence is a probability. *)
Definition forecast_in_range (f : PricePredictor.ForecastRecord) : Prop :=
  0 <= PricePredictor.confidence f <= 1.

(** The confidence [_make_prediction] gives a forecast it computes. *)
Definition forecast_confidence_clamped (f : PricePredictor.ForecastRecord) : Prop :=
  0.1 <= PricePredictor.confidence f <= 0.95.

(** [tanh] stays within [-1, 1]. *)
Definition tanh_bounded (np : NumPy) : Prop :=
  forall x : Q, -1 <= np_tanh x <= 1.

(** The square root is never negative. *)
Definition sqrt_nonneg (np : NumPy) : Prop :=
  forall x : Q, 0 <= np_sqrt x.

Definition inputs_in_range (analysis_data : RecommendationEngine.AnalysisData) : Prop :=
  (forall s, RecommendationEngine.sentiment analysis_data = Some s -> sentiment_in_range s) /\
  (forall f, RecommendationEngine.prediction analysis_data = Some f -> forecast_in_range f).

End Ranges.

(** ** sentiment_analyzer.py: scoring one text *)

(** The text cleaner and the two scorers.  [regex_clean] is the body of
    [_clean_text] after its guard (the three substitutions and the final
    strip); [vader] is [polarity_scores]; [textblob] gives polarity and
    subjectivity, or fails. *)
Record VaderScores : Type := {
  vader_compound : Q;
  vader_pos : Q;
  vader_neg : Q;
  vader_neu : Q
}.

Class TextTools : Type := {
  regex_clean : string -> string;
  vader : string -> VaderScores;
  textblob : string -> Py.result (Q * Q)
}.

Module TextScoring.
Import SentimentAnalyzer.

(** The dictionary [_analyze_text_sentiment] returns; the two TextBlob
    keys are missing for a text that cleans to nothing. *)
Record TextScores : Type := {
  scores : TextSentiment;
  textblob_polarity : option Q;
  textblob_subjectivity : option Q
}.

(** [_clean_text] *)
Definition _clean_text `{TextTools} (text : string) : string :=
  if String.eqb text "" then "" else regex_clean text.

(** [_analyze_text_sentiment] *)
Definition _analyze_text_sentiment `{TextTools} (text : string) : TextScores :=
  let cleaned_text := _clean_text text in
  if String.eqb cleaned_text "" then
    {| scores := {| compound := 0.0; positive := 0.0; negative := 0.0; neutral := 1.0 |};
       textblob_polarity := None;
       textblob_subjectivity := None |}
  else
    let vader_scores := vader cleaned_text in
    let '(polarity, subjectivity) :=
      match textblob cleaned_text with
      | Py.Ok blob => blob
      | Py.Raise _ => (0.0, 0.0)
      end in
    let combined_score := (vader_compound vader_scores * 0.7) + (polarity * 0.3) in
    {| scores := {| compound := combined_score;
                    positive := vader_pos vader_scores;
                    negative := vader_neg vader_scores;
                    neutral := vader_neu vader_scores |};
       textblob_polarity := Some polarity;
       textblob_subjectivity := Some subjectivity |}.

(** The scorers keep to their documented ranges: VADER's compound score
    and TextBlob's polarity lie in [-1, 1]. *)
Definition scorers_in_range (tools : TextTools) : Prop :=
  (forall text, -1 <= vader_compound (vader text) <= 1) /\
  (forall text polarity subjectivity,
     textblob text = Py.Ok (polarity, subjectivity) -> -1 <= polarity <= 1).

End TextScoring.

(** ** technical_analyzer.py: signals and trend from the indicators

    The [try] blocks of [_generate_signals] and [_determine_trend], which
    read the indicator dictionary and the last bars only.  A value of the
    dictionary is a float or Python's [None]; comparing [None] with a
    number raises [TypeError], and the last row of an empty frame raises
    [IndexError].  Frame columns hold numpy floats, for which a division
    by zero gives an infinity or NaN instead of raising. *)

Module TechnicalRules.
Import Py.
Import DataFetcher.

Definition bind {A B : Type} (r : result A) (k : A -> result B) : result B :=
  match r with
  | Ok a => k a
  | Raise e => Raise e
  end.

Notation "'let*' x := r 'in' k" := (bind r (fun x => k))
  (at level 10, x name, r at level 100, k at level 200).

(** [a > b] and [a < b] on dictionary values. *)
Definition gt (a b : option Q) : result bool :=
  match a, b with
  | Some x, Some y => Ok (ltb y x)
  | _, _ => Raise (Exception "TypeError")
  end.

Definition lt (a b : option Q) : result bool :=
  match a, b with
  | Some x, Some y => Ok (ltb x y)
  | _, _ => Raise (Exception "TypeError")
  end.

(** [df[column].iloc[-n]] for [n >= 1]. *)
Definition iloc_back (column : Bar -> Q) (df : list Bar) (n : nat) : result Q :=
  match rev df !! (n - 1)%nat with
  | Some b => Ok (column b)
  | None => Raise (Exception "IndexError")
  end.

(** RSI signals *)
Definition rsi_signal (indicators : gmap string (option Q)) : result string :=
  let rsi := dict_get indicators "rsi" (Some 50) in
  let* over := gt rsi (Some 70) in
  if over then Ok "overbought"
  else let* under := lt rsi (Some 30) in
       if under then Ok "oversold" else Ok "neutral".

(** MACD signals *)
Definition macd_signal (indicators : gmap string (option Q)) : result string :=
  let macd := dict_get indicators "macd" (Some 0) in
  let macd_signal := dict_get indicators "macd_signal" (Some 0) in
  let* above := gt macd macd_signal in
  if above then Ok "bullish" else Ok "bearish".

(** Moving Average signals; no entry unless both averages are truthy
    ([None] and [0.0] are not). *)
Definition ma_trend_signal (current_price : Q) (indicators : gmap string (option Q))
    : option string :=
  let sma_20 := dict_get indicators "sma_20" None in
  let sma_50 := dict_get indicators "sma_50" None in
  match sma_20, sma_50 with
  | Some sma_20, Some sma_50 =>
      if truthy sma_20 && truthy sma_50 then
        if ltb sma_20 current_price && ltb sma_50 sma_20 then Some "strong_bullish"
        else if ltb sma_20 current_price && ltb sma_20 sma_50 then Some "weak_bullish"
        else if ltb current_price sma_20 && ltb sma_20 sma_50 then Some "strong_bearish"
        else Some "weak_bearish"
      else None
  | _, _ => None
  end.

(** Bollinger Bands signals; no entry unless both bands are truthy. *)
Definition bollinger_signal (current_price : Q) (indicators : gmap string (option Q))
    : option string :=
  let bb_upper := dict_get indicators "bb_upper" None in
  let bb_lower := dict_get indicators "bb_lower" None in
  match bb_upper, bb_lower with
  | Some bb_upper, Some bb_lower =>
      if truthy bb_upper && truthy bb_lower then
        if ltb bb_upper current_price then Some "overbought"
        else if ltb current_price bb_lower then Some "oversold"
        else Some "neutral"
      else None
  | _, _ => None
  end.

(** Stochastic signals; [and] evaluates its second operand only when the
    first is true. *)
Definition stochastic_signal (indicators : gmap string (option Q)) : result string :=
  let stoch_k := dict_get indicators "stoch_k" (Some 50) in
  let stoch_d := dict_get indicators "stoch_d" (Some 50) in
  let* k_high := gt stoch_k (Some 80) in
  let* both_high := (if k_high then gt stoch_d (Some 80) else Ok false) in
  if both_high then Ok "overbought"
  else let* k_low := lt stoch_k (Some 20) in
       let* both_low := (if k_low then lt stoch_d (Some 20) else Ok false) in
       if both_low then Ok "oversold" else Ok "neutral".

(** ADX signals (trend strength) *)
Definition trend_strength_signal (indicators : gmap string (option Q)) : result string :=
  let adx := dict_get indicators "adx" (Some 25) in
  let* very := gt adx (Some 50) in
  if very then Ok "very_strong"
  else let* strong := gt adx (Some 25) in
       if strong then Ok "strong" else Ok "weak".

(** Volume signals *)
Definition volume_signal (current_volume : Q) (indicators : gmap string (option Q))
    : string :=
  match dict_get indicators "volume_sma" None with
  | Some volume_sma =>
      if truthy volume_sma && ltb (volume_sma * 1.5) current_volume then "high"
      else if truthy volume_sma && ltb current_volume (volume_sma * 0.5) then "low"
      else "normal"
  | None => "normal"
  end.

(** [signals[key] = value] when the branch that sets it is taken. *)
Definition set_signal (key : string) (value : option string)
    (signals : gmap string string) : gmap string string :=
  match value with
  | Some v => <[key := v]> signals
  | None => signals
  end.

(** The [try] block of [_generate_signals]. *)
Definition _generate_signals (df : list Bar) (indicators : gmap string (option Q))
    : result (gmap string string) :=
  let signals := ∅ in
  let* current_price := iloc_back close df 1 in
  let* rsi := rsi_signal indicators in
  let signals := <["rsi" := rsi]> signals in
  let* macd := macd_signal indicators in
  let signals := <["macd" := macd]> signals in
  let signals := set_signal "ma_trend" (ma_trend_signal current_price indicators) signals in
  let signals := set_signal "bollinger" (bollinger_signal current_price indicators) signals in
  let* stochastic := stochastic_signal indicators in
  let signals := <["stochastic" := stochastic]> signals in
  let* trend_strength := trend_strength_signal indicators in
  let signals := <["trend_strength" := trend_strength]> signals in
  let* current_volume := iloc_back volume df 1 in
  let signals := <["volume" := volume_signal current_volume indicators]> signals in
  Ok signals.

(** One vote of a trend factor. *)
Definition vote (up : bool) : Z := if up then 1%Z else (-1)%Z.

(** Moving averages: two votes when both averages are truthy. *)
Definition moving_average_votes (current_price : Q) (indicators : gmap string (option Q))
    : Z * Z :=
  match dict_get indicators "sma_20" None, dict_get indicators "sma_50" None with
  | Some sma_20, Some sma_50 =>
      if truthy sma_20 && truthy sma_50 then
        (vote (ltb sma_20 current_price) + vote (ltb sma_50 sma_20), 2)%Z
      else (0, 0)%Z
  | _, _ => (0, 0)%Z
  end.

(** Price momentum over the last 10 periods, thresholded at 2%.  With a
    close of zero ten bars back the quotient is an infinity of the sign of
    the numerator, or NaN when the numerator is zero too. *)
Definition momentum_vote (current_price close_10 : Q) : Z :=
  if eqb close_10 0 then
    if ltb 0 (current_price - close_10) then 1%Z
    else if ltb (current_price - close_10) 0 then (-1)%Z
    else 0%Z
  else
    let price_change := (current_price - close_10) / close_10 in
    if ltb 0.02 price_change then 1%Z
    else if ltb price_change (-0.02) then (-1)%Z
    else 0%Z.

(** Price momentum (last 10 periods): one more factor when the frame has
    ten rows. *)
Definition momentum_votes (df : list Bar) (current_price : Q) : result (Z * Z) :=
  if (10 <=? length df)%nat then
    let* close_10 := iloc_back close df 10 in
    Ok (momentum_vote current_price close_10, 1%Z)
  else Ok (0%Z, 0%Z).

(** The final classification of the trend score. *)
Definition classify_trend (trend_score factors : Z) : string * Q :=
  if (0 <? factors)%Z then
    let trend_ratio := inject_Z trend_score / inject_Z factors in
    let trend :=
      if ltb 0.6 trend_ratio then "bullish"
      else if ltb trend_ratio (-0.6) then "bearish"
      else "sideways" in
    (trend, Qabs trend_ratio)
  else ("unknown", 0.0).

(** The [try] block of [_determine_trend]. *)
Definition _determine_trend (df : list Bar) (indicators : gmap string (option Q))
    : result (string * Q) :=
  let* current_price := iloc_back close df 1 in
  let trend_score := 0%Z in
  let factors := 0%Z in
  (* Moving averages *)
  let '(ma_score, ma_factors) := moving_average_votes current_price indicators in
  let trend_score := (trend_score + ma_score)%Z in
  let factors := (factors + ma_factors)%Z in
  (* MACD *)
  let* macd_up := gt (dict_get indicators "macd" (Some 0))
                (dict_get indicators "macd_signal" (Some 0)) in
  let trend_score := (trend_score + vote macd_up)%Z in
  let factors := (factors + 1)%Z in
  (* ADX direction *)
  let* adx_up := gt (dict_get indicators "adx_pos" (Some 25))
               (dict_get indicators "adx_neg" (Some 25)) in
  let trend_score := (trend_score + vote adx_up)%Z in
  let factors := (factors + 1)%Z in
  (* Price momentum (last 10 periods) *)
  let* momentum := momentum_votes df current_price in
  let trend_score := (trend_score + fst momentum)%Z in
  let factors := (factors + snd momentum)%Z in
  Ok (classify_trend trend_score factors).

(** The analyzer's indicator library: the indicator computation is the
    library's, signals and trend are the two blocks above. *)
Definition ta_rules (compute_indicators : list Bar -> result (gmap string (option Q)))
    : TaLib :=
  {| ta_indicators := compute_indicators;
     ta_signals := _generate_signals;
     ta_trend := _determine_trend |}.

End TechnicalRules.

(** ** Python strings and [int] *)

Module Text.

(** [s.endswith(suffix)]: some tail of [s] is [suffix]. *)
Fixpoint endswith (s suffix : string) : bool :=
  String.eqb s suffix ||
  match s with
  | EmptyString => false
  | String _ rest => endswith rest suffix
  end.

(** [s[:-1]] *)
Fixpoint drop_last (s : string) : string :=
  match s with
  | EmptyString => EmptyString
  | String c rest =>
      match rest with
      | EmptyString => EmptyString
      | String _ _ => String c (drop_last rest)
      end
  end.

Definition digit_value (c : Ascii.ascii) : option Z :=
  let n := Ascii.nat_of_ascii c in
  if ((48 <=? n) && (n <=? 57))%nat then Some (Z.of_nat (n - 48)) else None.

(** The value of a string of ASCII digits, read from the left. *)
Fixpoint decimal_from (acc : Z) (s : string) : option Z :=
  match s with
  | EmptyString => Some acc
  | String c rest =>
      match digit_value c with
      | Some d => decimal_from (10 * acc + d) rest
      | None => None
      end
  end.

Definition decimal (s : string) : option Z :=
  match s with
  | EmptyString => None
  | _ => decimal_from 0 s
  end.

End Text.

(** Python's [int] on a string.  The one law: a non-empty string of at
    most 4300 ASCII digits (the length CPython converts by default) is
    read as the decimal number it spells.  What [int] does with signs,
    blanks, underscores, other digits and longer strings is left open. *)
Class PyInt : Type := {
  py_int : string -> Py.result Z;
  py_int_decimal : forall (s : string) (n : Z),
    (String.length s <= 4300)%nat -> Text.decimal s = Some n -> py_int s = Py.Ok n
}.

(** ** technical_analyzer.py: how many bars an analysis requests *)

Module TechnicalHistory.
Import Py.
Import TechnicalRules.

(** Parse period *)
Definition period_days `{PyInt} (period : string) : result Z :=
  if Text.endswith period "d" then py_int (Text.drop_last period)
  else if Text.endswith period "w" then
    let* n := py_int (Text.drop_last period) in Ok (n * 7)%Z
  else if Text.endswith period "m" then
    let* n := py_int (Text.drop_last period) in Ok (n * 30)%Z
  else Ok 30%Z.

(** [a // b] on integers. *)
Definition floordiv (a b : Z) : result Z :=
  if (b =? 0)%Z then Raise (Exception "ZeroDivisionError") else Ok (a / b)%Z.

(** Calculate required data points: the [limit] that
    [_get_historical_data] passes to [get_klines]. *)
Definition history_limit `{PyInt} (interval period : string) : result Z :=
  let* days := period_days period in
  if str_in interval ["1m"; "3m"; "5m"] then
    let* step := py_int (Text.drop_last interval) in
    let* count := floordiv (days * 24 * 60) step in
    Ok (Z.min 1000 count)
  else if str_in interval ["15m"; "30m"] then
    let* step := py_int (Text.drop_last interval) in
    let* count := floordiv (days * 24 * 60) step in
    Ok (Z.min 1000 count)
  else if str_in interval ["1h"; "2h"; "4h"; "6h"; "8h"; "12h"] then
    let* step := py_int (Text.drop_last interval) in
    let* count := floordiv (days * 24) step in
    Ok (Z.min 1000 count)
  else if String.eqb interval "1d" then Ok (Z.min 1000 days)
  else Ok 200%Z.

End TechnicalHistory.

(** ** data_fetcher.py: rankings and the market summary

    Both functions work on the list [get_ticker_24hr] returned; the
    request itself is the caller's. *)

Module MarketData.
Import Py.
Import DataFetcher.

(** [sorted(xs, key=key, reverse=reverse)]: stable, also when reversed. *)
Fixpoint insert_by {A : Type} (key : A -> Q) (reverse : bool) (x : A) (l : list A)
    : list A :=
  match l with
  | [] => [x]
  | y :: l' =>
      if before reverse (key x) (key y) then x :: l
      else y :: insert_by key reverse x l'
  end.

Definition sorted_by {A : Type} (key : A -> Q) (reverse : bool) (xs : list A) : list A :=
  foldr (insert_by key reverse) [] xs.

(** The order of a list sorted by [key] with [reverse=True]. *)
Definition descending {A : Type} (key : A -> Q) (x y : A) : Prop := key y <= key x.

(** [xs[:limit]]: a negative limit counts from the end. *)
Definition slice_to {A : Type} (limit : Z) (xs : list A) : list A :=
  if (0 <=? limit)%Z then take (Z.to_nat limit) xs
  else take (length xs - Z.to_nat (- limit)) xs.

(** [max(xs, key=key)] and [min(xs, key=key)] on a non-empty list: the
    first of the extreme elements. *)
Definition max_by {A : Type} (key : A -> Q) (first : A) (rest : list A) : A :=
  foldl (fun best x => if ltb (key best) (key x) then x else best) first rest.

Definition min_by {A : Type} (key : A -> Q) (first : A) (rest : list A) : A :=
  foldl (fun best x => if ltb (key x) (key best) then x else best) first rest.

(** [get_top_symbols] after the ticker request; [quote_asset] is the
    upper-cased quote asset. *)
Definition get_top_symbols (tickers : list Ticker) (quote_asset : string) (limit : Z)
    : list Ticker :=
  (* Filter by quote asset and sort by volume *)
  let filtered_tickers :=
    List.filter (fun ticker => Text.endswith (t_symbol ticker) quote_asset) tickers in
  (* Sort by quote volume (descending) *)
  let sorted_tickers := sorted_by t_quoteVolume true filtered_tickers in
  slice_to limit sorted_tickers.

(** The entries [top_gainer] and [top_loser], and the entry [most_active]. *)
Record Mover : Type := {
  m_symbol : string;
  m_price : Q;
  m_change_percent : Q
}.

Record Active : Type := {
  a_symbol : string;
  a_price : Q;
  a_volume : Q
}.

(** The summary without its [timestamp], the time of the call. *)
Record MarketSummary : Type := {
  total_pairs : Z;
  total_volume_usdt : Q;
  gainers_count : Z;
  losers_count : Z;
  unchanged_count : Z;
  top_gainer : Mover;
  top_loser : Mover;
  most_active : Active
}.

(** [get_market_summary] after the ticker request; [None] is the empty
    dictionary returned when no USDT pair is listed. *)
Definition get_market_summary (tickers : list Ticker) : option MarketSummary :=
  (* Filter USDT pairs *)
  let usdt_pairs :=
    List.filter (fun ticker => Text.endswith (t_symbol ticker) "USDT") tickers in
  match usdt_pairs with
  | [] => None
  | first :: rest =>
      (* Calculate statistics *)
      let total_volume := sum (t_quoteVolume <$> usdt_pairs) in
      let gainers := List.filter (fun ticker => ltb 0 (t_changePercent ticker)) usdt_pairs in
      let losers := List.filter (fun ticker => ltb (t_changePercent ticker) 0) usdt_pairs in
      (* Top gainers and losers *)
      let top_gainer := max_by t_changePercent first rest in
      let top_loser := min_by t_changePercent first rest in
      (* Most active by volume *)
      let most_active := max_by t_quoteVolume first rest in
      Some {| total_pairs := Z.of_nat (length usdt_pairs);
              total_volume_usdt := total_volume;
              gainers_count := Z.of_nat (length gainers);
              losers_count := Z.of_nat (length losers);
              unchanged_count :=
                (Z.of_nat (length usdt_pairs) - Z.of_nat (length gainers)
                 - Z.of_nat (length losers))%Z;
              top_gainer := {| m_symbol := t_symbol top_gainer;
                               m_price := t_price top_gainer;
                               m_change_percent := t_changePercent top_gainer |};
              top_loser := {| m_symbol := t_symbol top_loser;
                              m_price := t_price top_loser;
                              m_change_percent := t_changePercent top_loser |};
              most_active := {| a_symbol := t_symbol most_active;
                                a_price := t_price most_active;
                                a_volume := t_quoteVolume most_active |} |}
  end.

End MarketData.

(** ** data_fetcher.py: histories of several symbols *)

Module BulkHistory.
Import Py.
Import DataFetcher.

(** What the loop stores for one symbol: its klines, or the empty list
    when its request raised. *)
Definition stored (outcome : result (list Bar)) : list Bar :=
  match outcome with
  | Ok klines => klines
  | Raise _ => []
  end.

(** [range(0, n, step)] *)
Definition range_step (n step : nat) : list nat :=
  (fun k => k * step)%nat <$> seq 0 ((n + step - 1) / step).

(** [get_historical_data_bulk].  [get_klines symbol] is the outcome of
    the request for one symbol, taken to be the same each time the symbol
    is requested; the interval and the start time only reach the request.
    [asyncio.gather] with [return_exceptions=True] hands the outcomes back
    in the order of the batch. *)
Definition get_historical_data_bulk (get_klines : string -> result (list Bar))
    (symbols : list string) : gmap string (list Bar) :=
  let batch_size := 5%nat in
  foldl (fun results i =>
           let batch := take batch_size (drop i symbols) in
           let batch_results := get_klines <$> batch in
           foldl (fun results '(symbol, outcome) => <[symbol := stored outcome]> results)
                 results (zip batch batch_results))
        ∅ (range_step (length symbols) batch_size).

End BulkHistory.

(** ** price_predictor.py: the training sequences

    A feature matrix is a list of rows, one list per row. *)

(** sklearn's [MinMaxScaler], as far as [_prepare_training_data] depends
    on it: [fit_transform] rejects a matrix without rows with a
    [ValueError] ([Found array with 0 sample(s) ... while a minimum of 1
    is required by MinMaxScaler]); on any other matrix it raises or
    returns a matrix of the same shape. *)
Class Scaler : Type := {
  fit_transform : list (list Q) -> Py.result (list (list Q));
  fit_transform_empty : exists msg : string, fit_transform [] = Py.Raise (Py.ValueError msg);
  fit_transform_shape :
    forall data scaled_data : list (list Q),
      fit_transform data = Py.Ok scaled_data ->
      Forall2 (fun row scaled_row => length scaled_row = length row) data scaled_data
}.

Module Training.
Import Py.
Import TechnicalRules.

(** [scaled_data[i, j]] *)
Definition cell (scaled_data : list (list Q)) (i j : nat) : result Q :=
  match scaled_data !! i with
  | Some row =>
      match row !! j with
      | Some value => Ok value
      | None => Raise (Exception "IndexError")
      end
  | None => Raise (Exception "IndexError")
  end.

(** Create sequences: the loop of [_prepare_training_data] over
    [range(sequence_length, len(scaled_data))]. *)
Definition create_sequences (scaled_data : list (list Q))
    : result (list (list (list Q)) * list Q) :=
  let sequence_length := PricePredictor.sequence_length in
  foldl (fun acc i =>
           let* Xy := acc in
           let X := Xy.1 ++ [take sequence_length (drop (i - sequence_length) scaled_data)] in
           let* target := cell scaled_data i 3 in  (* Predict close price (index 3) *)
           Ok (X, Xy.2 ++ [target]))
        (Ok ([], []))
        (seq sequence_length (length scaled_data - sequence_length)).

(** [_prepare_training_data]: [data] is [features[available_columns].values],
    one list per row.  The matrix is scaled first and the scaled matrix cut
    into sequences; an exception of either step is raised again.  The
    fitted scaler, which the code returns along with [X] and [y], is left
    out of the result. *)
Definition _prepare_training_data `{Scaler} (data : list (list Q))
    : result (list (list (list Q)) * list Q) :=
  (* Scale data *)
  let* scaled_data := fit_transform data in
  (* Create sequences *)
  create_sequences scaled_data.

(** [int(x)] on a float: truncation toward zero. *)
Definition int_of_float (x : Q) : Z := Z.quot (Qnum x) (Z.pos (Qden x)).

Record Split : Type := {
  X_train : list (list (list Q));
  X_test : list (list (list Q));
  y_train : list Q;
  y_test : list Q
}.

(** [_create_model] up to the split handed to the network. *)
Definition training_split (symbol : string) (scaled_data : list (list Q)) : result Split :=
  let* Xy := create_sequences scaled_data in
  let X := Xy.1 in
  let y := Xy.2 in
  if (length X <? 50)%nat then  (* Need minimum data for training *)
    Raise (ValueError ("Insufficient training data for " +:+ symbol))
  else
    (* Split data *)
    let split_idx := Z.to_nat (int_of_float (inject_Z (Z.of_nat (length X)) * 0.8)) in
    Ok {| X_train := take split_idx X; X_test := drop split_idx X;
          y_train := take split_idx y; y_test := drop split_idx y |}.

End Training.

(** ** Further sample collaborators and inputs *)

Module Examples.
Import DataFetcher.

(** A rational stand-in for numpy whose square root is never negative:
    [x / (1 + |x|)] for [tanh], the absolute value for the square root. *)
Program Definition numpy_nonneg : NumPy :=
  {| np_tanh := fun x => x / (1 + Qabs x);
     np_sqrt := Qabs;
     format_float := fun _ _ => "0.00" |}.
Next Obligation.
  intros x y Hxy. now rewrite Hxy.
Qed.

(** Text tools that leave a text as it is and score every text alike;
    TextBlob is out of order. *)
Definition text_tools_fixed : TextTools :=
  {| regex_clean := fun text => text;
     vader := fun _ => {| vader_compound := 0.5; vader_pos := 0.4;
                          vader_neg := 0.1; vader_neu := 0.5 |};
     textblob := fun _ => Py.Raise (Py.Exception "textblob") |}.

(** A confident, mildly positive sentiment record. *)
Definition confident_sentiment : SentimentAnalyzer.SentimentRecord :=
  {| SentimentAnalyzer.sentiment_score := 0.2;
     SentimentAnalyzer.sentiment_label := "positive";
     SentimentAnalyzer.confidence := 0.9;
     SentimentAnalyzer.sources_analyzed := Some 4%Z;
     SentimentAnalyzer.source_breakdown := Some (3%Z, 1%Z);
     SentimentAnalyzer.analysis_details := SentimentAnalyzer.no_details |}.

(** The current price with a confident sentiment and nothing else. *)
Definition price_and_sentiment : RecommendationEngine.AnalysisData :=
  {| RecommendationEngine.sentiment := Some confident_sentiment;
     RecommendationEngine.prediction := None;
     RecommendationEngine.technical := None;
     RecommendationEngine.price :=
       Some {| symbol := "BTCUSDT"; price := 100; timestamp := 0 |};
     RecommendationEngine.ticker := None |}.

(** Indicators with the two moving averages equal, below the last close
    of [Samples.step_series]. *)
Definition indicators_tie : gmap string (option Q) :=
  <["rsi" := Some 75]> (<["macd" := Some 1]> (<["macd_signal" := Some 0.5]>
  (<["sma_20" := Some 10]> (<["sma_50" := Some 10]> (<["sma_200" := None]>
  (<["adx" := Some 30]> (<["volume_sma" := Some 1]> ∅))))))).

(** Indicators on which every vote of the trend is up. *)
Definition indicators_rising : gmap string (option Q) :=
  <["macd" := Some 1]> (<["macd_signal" := Some 0.5]>
  (<["sma_20" := Some 15]> (<["sma_50" := Some 10]>
  (<["adx_pos" := Some 30]> (<["adx_neg" := Some 20]> ∅))))).

(** An indicator computation that always fails. *)
Definition indicators_unavailable (df : list Bar) : Py.result (gmap string (option Q)) :=
  Py.Raise (Py.Exception "ta").

(** [int] on strings of ASCII digits; every other string is rejected. *)
Program Definition int_digits : PyInt :=
  {| py_int := fun s =>
       match Text.decimal s with
       | Some n => Py.Ok n
       | None => Py.Raise (Py.ValueError "invalid literal for int()")
       end |}.
Next Obligation.
  intros s n _ Hs. cbn. rewrite Hs. reflexivity.
Qed.

(** A scaled feature matrix of [n] rows and five columns. *)
Definition scaled_rows (n : nat) : list (list Q) :=
  (fun k => [inject_Z (Z.of_nat k); 0; 0; inject_Z (Z.of_nat k) + 0.5; 1]) <$> seq 0 n.

(** Min-max scaling of every column to [0, 1]; a constant column scales
    to 0. *)
Definition min_max (data : list (list Q)) (j : nat) (x : Q) : Q :=
  let column := omap (fun row => row !! j) data in
  let data_min := foldr Py.min x column in
  let data_max := foldr Py.max x column in
  if Py.eqb data_max data_min then 0 else (x - data_min) / (data_max - data_min).

Definition min_max_fit_transform (data : list (list Q)) : Py.result (list (list Q)) :=
  match data with
  | [] => Py.Raise (Py.ValueError "Found array with 0 sample(s)")
  | _ :: _ => Py.Ok ((fun row => imap (min_max data) row) <$> data)
  end.

Program Definition min_max_scaler : Scaler :=
  {| fit_transform := min_max_fit_transform |}.
Next Obligation.
  now exists "Found array with 0 sample(s)".
Qed.
Next Obligation.
  intros data scaled_data Hrun.
  assert (scaled_data = (fun row => imap (min_max data) row) <$> data) as ->
    by (destruct data; [discriminate Hrun | now injection Hrun]).
  apply Forall2_fmap_r, Forall_Forall2_diag, Forall_forall.
  intros r _. apply length_imap.
Qed.

(** A feature matrix of [n] rows and five columns. *)
Definition feature_rows (n : nat) : list (list Q) :=
  (fun k => [inject_Z (Z.of_nat k); 2; 3; inject_Z (Z.of_nat k) + 10; 1]) <$> seq 0 n.

End Examples.

(** ** The technical score and the smoothing step in binary64

    The technical score of the recommendation engine and the dampening and
    smoothing steps of the price predictor once more, over the kernel's
    binary64 floats: every operation gives the exact result rounded to the
    nearest float, as in Python, and a decimal literal is the float nearest
    to it.  These are the computations whose outcome at a threshold or at
    an endpoint is decided by the rounding. *)

Module Binary64.
Import PrimFloat.
Import TechnicalAnalyzer.
Local Open Scope float_scope.

(** An integer count as a float. *)
Fixpoint float_of_nat (n : nat) : float :=
  match n with
  | O => 0
  | S k => float_of_nat k + 1
  end.

(** The accumulation of [_calculate_technical_score]: the score before
    the division, and the number of factors counted. *)
#[warnings="-inexact-float"]
Definition technical_points (technical_data : TechnicalResult) : float * nat :=
  let signals := signals technical_data in
  let score := 0.0 in
  let factors := 0%nat in
  (* RSI signal *)
  let rsi_signal := Py.dict_get signals "rsi" "neutral" in
  let score :=
    if String.eqb rsi_signal "oversold" then score + 0.3
    else if String.eqb rsi_signal "overbought" then score - 0.3
    else score in
  let factors := (factors + 1)%nat in
  (* MACD signal *)
  let macd_signal := Py.dict_get signals "macd" "neutral" in
  let score :=
    if String.eqb macd_signal "bullish" then score + 0.2
    else if String.eqb macd_signal "bearish" then score - 0.2
    else score in
  let factors := (factors + 1)%nat in
  (* Moving average trend *)
  let ma_trend := Py.dict_get signals "ma_trend" "neutral" in
  let score :=
    if String.eqb ma_trend "strong_bullish" then score + 0.4
    else if String.eqb ma_trend "weak_bullish" then score + 0.2
    else if String.eqb ma_trend "weak_bearish" then score - 0.2
    else if String.eqb ma_trend "strong_bearish" then score - 0.4
    else score in
  let factors := (factors + 1)%nat in
  (* Bollinger Bands *)
  let bb_signal := Py.dict_get signals "bollinger" "neutral" in
  let score :=
    if String.eqb bb_signal "oversold" then score + 0.2
    else if String.eqb bb_signal "overbought" then score - 0.2
    else score in
  let factors := (factors + 1)%nat in
  (* Trend strength *)
  let trend_strength := Py.dict_get signals "trend_strength" "weak" in
  let trend := trend technical_data in
  let score :=
    if String.eqb trend "bullish" && Py.str_in trend_strength ["strong"; "very_strong"]
    then score + 0.3
    else if String.eqb trend "bearish" && Py.str_in trend_strength ["strong"; "very_strong"]
    then score - 0.3
    else score in
  let factors := (factors + 1)%nat in
  (* Volume confirmation *)
  let volume_signal := Py.dict_get signals "volume" "normal" in
  let score :=
    if String.eqb volume_signal "high" && (0 <? score) then score + 0.1
    else if String.eqb volume_signal "low" && (0 <? score) then score - 0.1
    else score in
  (score, factors).

(** The final division of [_calculate_technical_score]. *)
Definition average (points : float * nat) : float :=
  let '(score, factors) := points in
  if (0 <? factors)%nat then score / float_of_nat factors else 0.0.

(** [_calculate_technical_score] *)
Definition _calculate_technical_score (technical_data : TechnicalResult) : float :=
  average (technical_points technical_data).

(** The volatility factors of [timeframe_configs]. *)
#[warnings="-inexact-float"]
Definition volatility_factors : gmap string float :=
  <["1h" := 1.0]> (<["4h" := 0.6]> (<["1d" := 0.4]> (<["7d" := 0.3]> ∅))).

(** The candidate price of [_make_prediction] after volatility
    dampening. *)
#[warnings="-inexact-float"]
Definition dampen (timeframe : string) (current_price prediction_actual : float) : float :=
  let volatility_factor :=
    match volatility_factors !! timeframe with
    | Some volatility_factor => volatility_factor
    | None => 1.0
    end in
  let raw_change := prediction_actual - current_price in
  let dampened_change := raw_change * volatility_factor in
  current_price + dampened_change.

(** The smoothing step of [_make_prediction] against a previously cached
    price. *)
#[warnings="-inexact-float"]
Definition smooth (timeframe : string) (prediction_actual cached_price : float) : float :=
  let smoothing_factor :=
    if String.eqb timeframe "1h" then 0.3
    else if String.eqb timeframe "4h" then 0.6
    else 0.8 in
  (prediction_actual * (1 - smoothing_factor)) + (cached_price * smoothing_factor).

(** *** The accumulation by the outcomes of its tests

    [technical_points] reads its input through fifteen string tests only.
    [points_of_tests] is the same accumulation as a function of their
    outcomes, and [score_facts] the facts checked of it for each of the
    outcomes. *)

Record Tests : Type := {
  rsi_oversold : bool; rsi_overbought : bool;
  macd_bullish : bool; macd_bearish : bool;
  ma_strong_bullish : bool; ma_weak_bullish : bool;
  ma_weak_bearish : bool; ma_strong_bearish : bool;
  bb_oversold : bool; bb_overbought : bool;
  trend_bullish : bool; strength_strong : bool; trend_bearish : bool;
  volume_high : bool; volume_low : bool
}.

Definition tests_of (technical_data : TechnicalResult) : Tests :=
  let signals := signals technical_data in
  {| rsi_oversold := String.eqb (Py.dict_get signals "rsi" "neutral") "oversold";
     rsi_overbought := String.eqb (Py.dict_get signals "rsi" "neutral") "overbought";
     macd_bullish := String.eqb (Py.dict_get signals "macd" "neutral") "bullish";
     macd_bearish := String.eqb (Py.dict_get signals "macd" "neutral") "bearish";
     ma_strong_bullish :=
       String.eqb (Py.dict_get signals "ma_trend" "neutral") "strong_bullish";
     ma_weak_bullish := String.eqb (Py.dict_get signals "ma_trend" "neutral") "weak_bullish";
     ma_weak_bearish := String.eqb (Py.dict_get signals "ma_trend" "neutral") "weak_bearish";
     ma_strong_bearish :=
       String.eqb (Py.dict_get signals "ma_trend" "neutral") "strong_bearish";
     bb_oversold := String.eqb (Py.dict_get signals "bollinger" "neutral") "oversold";
     bb_overbought := String.eqb (Py.dict_get signals "bollinger" "neutral") "overbought";
     trend_bullish := String.eqb (trend technical_data) "bullish";
     strength_strong :=
       Py.str_in (Py.dict_get signals "trend_strength" "weak") ["strong"; "very_strong"];
     trend_bearish := String.eqb (trend technical_data) "bearish";
     volume_high := String.eqb (Py.dict_get signals "volume" "normal") "high";
     volume_low := String.eqb (Py.dict_get signals "volume" "normal") "low" |}.

#[warnings="-inexact-float"]
Definition points_of_tests (t : Tests) : float * nat :=
  let score := 0.0 in
  let factors := 0%nat in
  let score :=
    if rsi_oversold t then score + 0.3
    else if rsi_overbought t then score - 0.3
    else score in
  let factors := (factors + 1)%nat in
  let score :=
    if macd_bullish t then score + 0.2
    else if macd_bearish t then score - 0.2
    else score in
  let factors := (factors + 1)%nat in
  let score :=
    if ma_strong_bullish t then score + 0.4
    else if ma_weak_bullish t then score + 0.2
    else if ma_weak_bearish t then score - 0.2
    else if ma_strong_bearish t then score - 0.4
    else score in
  let factors := (factors + 1)%nat in
  let score :=
    if bb_oversold t then score + 0.2
    else if bb_overbought t then score - 0.2
    else score in
  let factors := (factors + 1)%nat in
  let score :=
    if trend_bullish t && strength_strong t then score + 0.3
    else if trend_bearish t && strength_strong t then score - 0.3
    else score in
  let factors := (factors + 1)%nat in
  let score :=
    if volume_high t && (0 <? score) then score + 0.1
    else if volume_low t && (0 <? score) then score - 0.1
    else score in
  (score, factors).

(** Every bucket at its bullish extreme, on high volume. *)
Definition all_bullish (t : Tests) : bool :=
  rsi_oversold t && macd_bullish t && ma_strong_bullish t && bb_oversold t
  && trend_bullish t && strength_strong t && volume_high t.

#[warnings="-inexact-float"]
Definition score_facts (t : Tests) : bool :=
  let points := points_of_tests t in
  let score := average points in
  (-1.4000000000000001 <=? points.1) && (points.1 <=? 1.5000000000000002)
  && (-0.28 <=? score) && (score <=? 0.30000000000000004)
  && negb (score <? -0.3)
  && Bool.eqb (0.3 <? score) (all_bullish t).

(** A test on both truth values. *)
Definition for_both (p : bool -> bool) : bool := p true && p false.

(** [score_facts] on all outcomes of the fifteen tests. *)
Definition score_facts_everywhere : bool :=
  for_both (fun b1 => for_both (fun b2 => for_both (fun b3 => for_both (fun b4 =>
  for_both (fun b5 => for_both (fun b6 => for_both (fun b7 => for_both (fun b8 =>
  for_both (fun b9 => for_both (fun b10 => for_both (fun b11 => for_both (fun b12 =>
  for_both (fun b13 => for_both (fun b14 => for_both (fun b15 =>
    score_facts
      {| rsi_oversold := b1; rsi_overbought := b2; macd_bullish := b3;
         macd_bearish := b4; ma_strong_bullish := b5; ma_weak_bullish := b6;
         ma_weak_bearish := b7; ma_strong_bearish := b8; bb_oversold := b9;
         bb_overbought := b10; trend_bullish := b11; strength_strong := b12;
         trend_bearish := b13; volume_high := b14;
         volume_low := b15 |}))))))))))))))).

End Binary64.

(** * Properties *)

(** ** Python comparisons, [min] and [max] against the order on [Q] *)

Lemma ltb_lt (x y : Q) : Py.ltb x y = true <-> x < y.
Proof.
  unfold Py.ltb. rewrite Qlt_alt. destruct (x ?= y); split; congruence.
Qed.

Lemma ltb_ge (x y : Q) : Py.ltb x y = false <-> y <= x.
Proof.
  rewrite <- not_true_iff_false, ltb_lt. split; [apply Qnot_lt_le | apply Qle_not_lt].
Qed.

Lemma leb_le (x y : Q) : Py.leb x y = true <-> x <= y.
Proof.
  unfold Py.leb. rewrite Qle_alt. destruct (x ?= y); split; congruence.
Qed.

Lemma leb_gt (x y : Q) : Py.leb x y = false <-> y < x.
Proof.
  rewrite <- not_true_iff_false, leb_le. split; [apply Qnot_le_lt | apply Qlt_not_le].
Qed.

Lemma eqb_eq (x y : Q) : Py.eqb x y = true <-> x == y.
Proof.
  unfold Py.eqb. rewrite Qeq_alt. destruct (x ?= y); split; congruence.
Qed.

Lemma eqb_neq (x y : Q) : Py.eqb x y = false <-> ~ x == y.
Proof.
  rewrite <- not_true_iff_false, eqb_eq. reflexivity.
Qed.

(** Case analysis on a Python comparison, leaving the fact on [Q]. *)
Ltac case_ltb x y :=
  let H := fresh "Hcmp" in
  destruct (Py.ltb x y) eqn:H; [apply ltb_lt in H | apply ltb_ge in H].

Ltac case_leb x y :=
  let H := fresh "Hcmp" in
  destruct (Py.leb x y) eqn:H; [apply leb_le in H | apply leb_gt in H].

Lemma py_min_Qmin (a b : Q) : Py.min a b == Qmin a b.
Proof.
  unfold Py.min. case_ltb b a.
  - symmetry. apply Q.min_r. lra.
  - symmetry. apply Q.min_l. lra.
Qed.

Lemma py_max_Qmax (a b : Q) : Py.max a b == Qmax a b.
Proof.
  unfold Py.max. case_ltb a b.
  - symmetry. apply Q.max_r. lra.
  - symmetry. apply Q.max_l. lra.
Qed.

Lemma Qabs_cases (x : Q) : (0 <= x /\ Qabs x == x) \/ (x < 0 /\ Qabs x == - x).
Proof.
  destruct (Qlt_le_dec x 0) as [Hneg | Hpos].
  - right. split; [assumption |]. apply Qabs_neg. lra.
  - left. split; [assumption |]. now apply Qabs_pos.
Qed.

(** ** The decision step of the recommendation engine *)

Section Decision.
Import RecommendationEngine.
Context `{NumPy}.

Variables (symbol : string) (analysis_data : AnalysisData).
Variables (scores : Scores) (config : RiskConfig).

Let o : Q := overall_score scores.
Let c : Q := Py.min 0.95 (Qabs o + 0.1).
Let r : Recommendation :=
  _generate_final_recommendation symbol analysis_data scores config.

(** Action and confidence of the result, by the two tests of the code. *)
Lemma final_action_confidence :
  (action r, confidence r) =
    if Py.ltb c (min_confidence config) then (hold, 0.5)
    else (if Py.ltb 0.3 o then buy else if Py.ltb o (-0.3) then sell else hold, c).
Proof.
  subst r c o. unfold _generate_final_recommendation.
  destruct (Py.ltb _ (min_confidence config)); cbn [action confidence];
    repeat match goal with
           | |- context [let '(_, _) := ?e in _] => destruct e
           end; reflexivity.
Qed.

(** A held position carries neither target price nor stop-loss. *)
Lemma hold_has_no_targets :
  action r = hold -> target_price r = None /\ stop_loss r = None.
Proof.
  subst r. unfold _generate_final_recommendation.
  destruct (Py.ltb _ (min_confidence config)).
  - intros _. cbn. destruct (price analysis_data); cbn; auto.
  - destruct (Py.ltb 0.3 _); [cbn; destruct (price analysis_data) as [pd|]; cbn;
      [destruct (Py.truthy _); cbn|]; discriminate |].
    destruct (Py.ltb _ (-0.3)); [cbn; destruct (price analysis_data) as [pd|]; cbn;
      [destruct (Py.truthy _); cbn|]; discriminate |].
    intros _. cbn. destruct (price analysis_data); cbn; auto.
Qed.

(** The scores are passed through unchanged. *)
Lemma final_scores : RecommendationEngine.scores r = scores.
Proof.
  subst r. unfold _generate_final_recommendation.
  repeat match goal with
         | |- context [let '(_, _) := ?e in _] => destruct e
         end; reflexivity.
Qed.

(** Without a current price there is neither target price nor stop-loss. *)
Lemma no_price_no_targets :
  price analysis_data = None -> target_price r = None /\ stop_loss r = None.
Proof.
  intros Hp. subst r. unfold _generate_final_recommendation. rewrite Hp.
  destruct (Py.ltb _ (min_confidence config)); cbn; auto.
Qed.

End Decision.

Section DecisionRule.
Import RecommendationEngine.
Context `{NumPy}.

(** C1.  The action of a recommendation follows the fused overall score:
    unless the confidence [min(0.95, |overall_score| + 0.1)] is below the
    profile's [min_confidence], the action is buy iff the score is above
    0.3, sell iff it is below -0.3 and hold otherwise (so a score of
    exactly 0.3 is a hold), and the confidence is that minimum; when the
    confidence is below [min_confidence] the action is hold with
    confidence exactly 0.5.  A hold has neither target price nor
    stop-loss.  For the risk level "low" ([min_confidence] 0.8) and an
    overall score of 0.25 the result is hold, 0.5, no target, no stop. *)
Theorem recommend_decision_rule :
  forall (symbol : string) (analysis_data : AnalysisData) (scores : Scores)
         (config : RiskConfig),
    let o := overall_score scores in
    let conf := Qmin 0.95 (Qabs o + 0.1) in
    let r := _generate_final_recommendation symbol analysis_data scores config in
    (min_confidence config <= conf ->
       (action r = buy <-> 0.3 < o) /\
       (action r = sell <-> o < -0.3) /\
       (action r = hold <-> -0.3 <= o <= 0.3) /\
       confidence r == conf) /\
    (conf < min_confidence config -> action r = hold /\ confidence r = 0.5) /\
    (o == 0.3 -> action r = hold) /\
    (action r = hold -> target_price r = None /\ stop_loss r = None) /\
    (risk_configs !! "low" = Some config -> o == 0.25 ->
       min_confidence config = 0.8 /\ action r = hold /\ confidence r = 0.5 /\
       target_price r = None /\ stop_loss r = None).
Proof.
  intros symbol analysis_data scores config o conf r.
  pose proof (final_action_confidence symbol analysis_data scores config) as Hac.
  pose proof (hold_has_no_targets symbol analysis_data scores config) as Hhold.
  pose proof (py_min_Qmin 0.95 (Qabs o + 0.1)) as Hmin.
  fold o in Hac, Hmin. fold r in Hac, Hhold. fold conf in Hmin.
  assert (Hconf : 0.1 <= conf <= 0.95 /\ (conf < 0.95 -> conf == Qabs o + 0.1)).
  { subst conf. pose proof (Qabs_nonneg o).
    destruct (Q.min_spec 0.95 (Qabs o + 0.1)) as [[? ->] | [? ->]]; split; lra. }
  assert (Hbelow : conf < min_confidence config -> action r = hold /\ confidence r = 0.5).
  { intros Hlt. case_ltb (Py.min 0.95 (Qabs o + 0.1)) (min_confidence config).
    - now inversion Hac.
    - lra. }
  split; [| split; [exact Hbelow | split; [| split; [exact Hhold |]]]].
  - intros Hge.
    case_ltb (Py.min 0.95 (Qabs o + 0.1)) (min_confidence config); [lra |].
    case_ltb 0.3 o; [| case_ltb o (-0.3)]; inversion Hac as [[Ha Hc]];
      (repeat match goal with |- _ /\ _ => split end);
      try (rewrite Hc; exact Hmin);
      (split; intros Hx; try congruence; try lra; try (destruct Hx; lra)).
  - intros Ho.
    case_ltb (Py.min 0.95 (Qabs o + 0.1)) (min_confidence config);
      [now inversion Hac |].
    case_ltb 0.3 o; [lra |]. case_ltb o (-0.3); [lra |]. now inversion Hac.
  - intros Hlow Ho.
    assert (Hcfg : config = risk_low) by (vm_compute in Hlow; now inversion Hlow).
    assert (Hlt : conf < min_confidence config).
    { rewrite Hcfg. cbn [min_confidence risk_low].
      destruct Hconf as [_ Hc]. destruct (Qabs_cases o) as [[_ Habs] | [? _]]; [| lra].
      destruct (Qlt_le_dec conf 0.8) as [|Hge]; [assumption |].
      destruct (Qlt_le_dec conf 0.95) as [Hlt95 | Hge95].
      - specialize (Hc Hlt95). lra.
      - subst conf. pose proof (Q.le_min_r 0.95 (Qabs o + 0.1)). lra. }
    destruct (Hbelow Hlt) as [Ha Hc5].
    destruct (Hhold Ha). rewrite Hcfg. auto.
Qed.

End DecisionRule.

Lemma recommend_decision_rule_witness :
  let r := RecommendationEngine._generate_final_recommendation
             (H := Samples.numpy_rational) "BTCUSDT" Samples.price_only
             (Samples.scores_overall 0.25) RecommendationEngine.risk_low in
  RecommendationEngine.action r = RecommendationEngine.hold /\
  RecommendationEngine.confidence r = 0.5 /\
  RecommendationEngine.target_price r = None /\
  RecommendationEngine.stop_loss r = None.
Proof.
  destruct (@recommend_decision_rule Samples.numpy_rational "BTCUSDT" Samples.price_only
              (Samples.scores_overall 0.25) RecommendationEngine.risk_low)
    as (_ & _ & _ & _ & Hlow).
  destruct Hlow as (_ & Ha & Hc & Ht & Hs).
  - reflexivity.
  - reflexivity.
  - repeat split; assumption.
Defined.

(** ** Gathering with partial failures and the fused score *)

Section Fusion.
Import Py.
Import RecommendationEngine.
Context `{NumPy}.

(** A failed task leaves its component absent. *)
Lemma or_none_failed {A} (r : result A) : is_ok r = false -> or_none r = None.
Proof. destruct r; [discriminate | reflexivity]. Qed.

(** C2.  With a valid risk level, [generate_recommendation] returns a
    recommendation whatever tasks failed; a failed sentiment, technical or
    forecast task contributes the score 0.0, a failed price task leaves
    target price and stop-loss absent, and the overall score is the
    weighted sum of the three component scores.  With sentiment and
    technical analysis failed and a forecast of [change_percent = 5] and
    confidence 0.8 under [prediction_weight = 0.3], the overall score is
    [tanh(0.5) * 0.8 * 0.3]. *)
Theorem partial_failure_tolerance :
  (forall (symbol risk_level : string) (config : RiskConfig)
          (r_sentiment : result SentimentAnalyzer.SentimentRecord)
          (r_prediction : result PricePredictor.ForecastRecord)
          (r_technical : result TechnicalAnalyzer.TechnicalResult)
          (r_price : result DataFetcher.PriceData)
          (r_ticker : result (list DataFetcher.Ticker)),
      risk_configs !! risk_level = Some config ->
      exists rec : Recommendation,
        generate_recommendation symbol risk_level r_sentiment r_prediction
                                r_technical r_price r_ticker = Ok rec /\
        (is_ok r_sentiment = false -> sentiment_score (scores rec) = 0.0) /\
        (is_ok r_technical = false -> technical_score (scores rec) = 0.0) /\
        (is_ok r_prediction = false -> prediction_score (scores rec) = 0.0) /\
        (is_ok r_price = false -> target_price rec = None /\ stop_loss rec = None) /\
        overall_score (scores rec) =
          sentiment_score (scores rec) * sentiment_weight config
          + technical_score (scores rec) * technical_weight config
          + prediction_score (scores rec) * prediction_weight config) /\
  (forall (config : RiskConfig) (forecast : PricePredictor.ForecastRecord)
          (e_sentiment e_technical : exn)
          (r_price : result DataFetcher.PriceData)
          (r_ticker : result (list DataFetcher.Ticker)),
      PricePredictor.prediction_change_percent forecast == 5 ->
      PricePredictor.confidence forecast == 0.8 ->
      prediction_weight config == 0.3 ->
      overall_score
        (_calculate_recommendation_scores
           (_gather_analysis_data (Raise e_sentiment) (Ok forecast)
                                  (Raise e_technical) r_price r_ticker)
           config)
      == np_tanh 0.5 * 0.8 * 0.3).
Proof.
  split.
  - intros symbol risk_level config r_s r_p r_t r_pr r_tk Hcfg.
    unfold generate_recommendation. rewrite Hcfg. eexists. split; [reflexivity |].
    set (ad := _gather_analysis_data r_s r_p r_t r_pr r_tk).
    assert (Hs : sentiment ad = or_none r_s) by reflexivity.
    assert (Ht : technical ad = or_none r_t) by reflexivity.
    assert (Hp : prediction ad = or_none r_p) by reflexivity.
    assert (Hpr : price ad = or_none r_pr) by reflexivity.
    rewrite final_scores. unfold _calculate_recommendation_scores.
    cbn [sentiment_score technical_score prediction_score overall_score].
    rewrite Hs, Ht, Hp.
    split; [| split; [| split; [| split; [| reflexivity]]]];
      intros Hf; apply or_none_failed in Hf.
    + now rewrite Hf.
    + now rewrite Hf.
    + now rewrite Hf.
    + apply no_price_no_targets. now rewrite Hpr.
  - intros config forecast e_s e_t r_pr r_tk Hcp Hconf Hw.
    unfold _calculate_recommendation_scores, _gather_analysis_data,
      _calculate_prediction_score.
    cbn [or_none sentiment technical prediction overall_score].
    assert (Harg : PricePredictor.prediction_change_percent forecast / 10.0 == 0.5)
      by (rewrite Hcp; reflexivity).
    rewrite (np_tanh_proper _ _ Harg), Hconf, Hw. ring.
Qed.

End Fusion.

Lemma partial_failure_tolerance_witness :
  RecommendationEngine.overall_score
    (RecommendationEngine._calculate_recommendation_scores
       (H := Samples.numpy_rational)
       (RecommendationEngine._gather_analysis_data
          (Py.Raise (Py.Exception "news")) (Py.Ok Samples.forecast_up)
          (Py.Raise (Py.Exception "klines")) (Py.Raise (Py.Exception "price"))
          (Py.Ok []))
       RecommendationEngine.risk_low)
  == np_tanh (NumPy := Samples.numpy_rational) 0.5 * 0.8 * 0.3.
Proof.
  destruct (@partial_failure_tolerance Samples.numpy_rational) as [_ Hscore].
  apply Hscore; reflexivity.
Defined.

(** ** The technical component score *)

Section TechnicalScore.
Import Py.
Import RecommendationEngine.

(** One accumulation step: adding to the running score is adding the
    bucket's points. *)
Lemma accumulate (b1 b2 : bool) (score a1 a2 : Q) :
  (if b1 then score + a1 else if b2 then score - a2 else score)
  == score + (if b1 then a1 else if b2 then - a2 else 0).
Proof. destruct b1, b2; ring. Qed.

Lemma accumulate4 (b1 b2 b3 b4 : bool) (score a1 a2 a3 a4 : Q) :
  (if b1 then score + a1 else if b2 then score + a2
   else if b3 then score - a3 else if b4 then score - a4 else score)
  == score + (if b1 then a1 else if b2 then a2
              else if b3 then - a3 else if b4 then - a4 else 0).
Proof. destruct b1, b2, b3, b4; ring. Qed.

Lemma ltb_proper (x y y' : Q) : y == y' -> ltb x y = ltb x y'.
Proof. intros Hy. unfold ltb. now rewrite Hy. Qed.

(** The accumulation in the code agrees with the table of contributions. *)
Lemma technical_score_table (technical_data : TechnicalAnalyzer.TechnicalResult) :
  _calculate_technical_score technical_data == ScoreTable.technical_score technical_data.
Proof.
  unfold _calculate_technical_score, ScoreTable.technical_score, ScoreTable.total_points,
    ScoreTable.volume_adjustment, ScoreTable.evaluated_factors.
  set (running := ScoreTable.running_score technical_data).
  cbv zeta.
  set (s1 := if String.eqb (dict_get _ "rsi" _) "oversold" then _ else _).
  set (s2 := if String.eqb (dict_get _ "macd" _) "bullish" then _ else _).
  set (s3 := if String.eqb (dict_get _ "ma_trend" _) "strong_bullish" then _ else _).
  set (s4 := if String.eqb (dict_get _ "bollinger" _) "oversold" then _ else _).
  set (s5 := if String.eqb (TechnicalAnalyzer.trend _) "bullish" && _ then _ else _).
  assert (H5 : s5 == running).
  { subst s5 s4 s3 s2 s1 running. unfold ScoreTable.running_score. cbv zeta.
    rewrite accumulate, accumulate, accumulate4, accumulate, accumulate.
    unfold ScoreTable.rsi_points, ScoreTable.macd_points, ScoreTable.ma_trend_points,
      ScoreTable.bollinger_points, ScoreTable.trend_points.
    change (Qopp 0.3) with (-0.3). change (Qopp 0.2) with (-0.2).
    change (Qopp 0.4) with (-0.4).
    ring. }
  rewrite (ltb_proper 0 s5 running H5).
  change (0 <? (0 + 1 + 1 + 1 + 1 + 1))%nat with true. cbv iota.
  change (0 + 1 + 1 + 1 + 1 + 1)%nat with 5%nat.
  rewrite accumulate, H5. change (Qopp 0.1) with (-0.1).
  reflexivity.
Qed.

(** Whatever the strings tested, a bucket stays within its two extremes. *)
Ltac bucket_bound :=
  repeat match goal with
         | |- context [if ?b then _ else _] => destruct b
         end; lra.

Lemma rsi_points_bound (s : string) : -0.3 <= ScoreTable.rsi_points s <= 0.3.
Proof. unfold ScoreTable.rsi_points. bucket_bound. Qed.

Lemma macd_points_bound (s : string) : -0.2 <= ScoreTable.macd_points s <= 0.2.
Proof. unfold ScoreTable.macd_points. bucket_bound. Qed.

Lemma ma_trend_points_bound (s : string) : -0.4 <= ScoreTable.ma_trend_points s <= 0.4.
Proof. unfold ScoreTable.ma_trend_points. bucket_bound. Qed.

Lemma bollinger_points_bound (s : string) : -0.2 <= ScoreTable.bollinger_points s <= 0.2.
Proof. unfold ScoreTable.bollinger_points. bucket_bound. Qed.

Lemma trend_points_bound (t s : string) : -0.3 <= ScoreTable.trend_points t s <= 0.3.
Proof. unfold ScoreTable.trend_points. bucket_bound. Qed.

Lemma running_score_bound (technical_data : TechnicalAnalyzer.TechnicalResult) :
  -1.4 <= ScoreTable.running_score technical_data <= 1.4.
Proof.
  unfold ScoreTable.running_score. cbv zeta.
  pose proof (rsi_points_bound
                (dict_get (TechnicalAnalyzer.signals technical_data) "rsi" "neutral")).
  pose proof (macd_points_bound
                (dict_get (TechnicalAnalyzer.signals technical_data) "macd" "neutral")).
  pose proof (ma_trend_points_bound
                (dict_get (TechnicalAnalyzer.signals technical_data) "ma_trend" "neutral")).
  pose proof (bollinger_points_bound
                (dict_get (TechnicalAnalyzer.signals technical_data) "bollinger" "neutral")).
  pose proof (trend_points_bound (TechnicalAnalyzer.trend technical_data)
                (dict_get (TechnicalAnalyzer.signals technical_data)
                          "trend_strength" "weak")).
  lra.
Qed.

(** The volume adjustment is 0.1, -0.1 or nothing, and something only on
    a positive running score. *)
Lemma volume_adjustment_cases (volume_signal : string) (running : Q) :
  (ScoreTable.volume_adjustment volume_signal running = 0.1 /\ 0 < running) \/
  (ScoreTable.volume_adjustment volume_signal running = -0.1 /\ 0 < running) \/
  ScoreTable.volume_adjustment volume_signal running = 0.
Proof.
  unfold ScoreTable.volume_adjustment.
  case_ltb 0 running.
  - destruct (String.eqb volume_signal "high"), (String.eqb volume_signal "low");
      cbn; auto.
  - rewrite !andb_false_r. auto.
Qed.

Lemma total_points_bound (technical_data : TechnicalAnalyzer.TechnicalResult) :
  -1.4 <= ScoreTable.total_points technical_data <= 1.5.
Proof.
  unfold ScoreTable.total_points.
  pose proof (running_score_bound technical_data) as Hr.
  destruct (volume_adjustment_cases
              (dict_get (TechnicalAnalyzer.signals technical_data) "volume" "normal")
              (ScoreTable.running_score technical_data))
    as [[-> Hpos] | [[-> Hpos] | ->]]; lra.
Qed.


End TechnicalScore.


(** ** The technical score in binary64 *)

Section TechnicalScoreBinary64.
Import PrimFloat.
Import TechnicalAnalyzer.
Local Open Scope float_scope.

Lemma for_both_spec (p : bool -> bool) :
  Binary64.for_both p = true -> forall b : bool, p b = true.
Proof.
  unfold Binary64.for_both. intros Hp b.
  apply andb_true_iff in Hp. destruct Hp, b; assumption.
Qed.

(** The accumulation reads its input through the fifteen tests only. *)
Lemma technical_points_tests (technical_data : TechnicalResult) :
  Binary64.technical_points technical_data
  = Binary64.points_of_tests (Binary64.tests_of technical_data).
Proof. reflexivity. Qed.

Lemma score_facts_all (t : Binary64.Tests) : Binary64.score_facts t = true.
Proof.
  assert (Hall : Binary64.score_facts_everywhere = true) by (vm_compute; reflexivity).
  unfold Binary64.score_facts_everywhere in Hall.
  destruct t as [b1 b2 b3 b4 b5 b6 b7 b8 b9 b10 b11 b12 b13 b14 b15].
  apply for_both_spec with (b := b1) in Hall.
  apply for_both_spec with (b := b2) in Hall.
  apply for_both_spec with (b := b3) in Hall.
  apply for_both_spec with (b := b4) in Hall.
  apply for_both_spec with (b := b5) in Hall.
  apply for_both_spec with (b := b6) in Hall.
  apply for_both_spec with (b := b7) in Hall.
  apply for_both_spec with (b := b8) in Hall.
  apply for_both_spec with (b := b9) in Hall.
  apply for_both_spec with (b := b10) in Hall.
  apply for_both_spec with (b := b11) in Hall.
  apply for_both_spec with (b := b12) in Hall.
  apply for_both_spec with (b := b13) in Hall.
  apply for_both_spec with (b := b14) in Hall.
  apply for_both_spec with (b := b15) in Hall.
  exact Hall.
Qed.

(** C10 fails in binary64: with every bucket at its bullish extreme on
    high volume the contributions sum to 1.5000000000000002 and the score
    is 0.30000000000000004, above the buy threshold 0.3. *)
#[warnings="-inexact-float"]
Lemma technical_score_exceeds_threshold :
  Binary64.technical_points Samples.all_bullish = (1.5000000000000002, 5%nat) /\
  Binary64._calculate_technical_score Samples.all_bullish = 0.30000000000000004 /\
  (Binary64._calculate_technical_score Samples.all_bullish <=? 0.3) = false /\
  (0.3 <? Binary64._calculate_technical_score Samples.all_bullish) = true.
Proof.
  repeat split; vm_compute; reflexivity.
Qed.

(** C10, amended.  In binary64 the contributions of a technical analysis
    sum to a value in [-1.4000000000000001, 1.5000000000000002], the
    divisor is always 5, and the technical score lies in
    [-0.28, 0.30000000000000004].  The sell test [< -0.3] never holds of
    it.  The buy test [> 0.3] holds of it in one case only, by one unit in
    the last place: RSI and Bollinger oversold, MACD bullish, the moving
    averages strong_bullish, a bullish trend of strong or very strong
    strength, and high volume. *)
#[warnings="-inexact-float"]
Theorem technical_score_binary64_range :
  forall technical_data : TechnicalResult,
    let signals := signals technical_data in
    let points := Binary64.technical_points technical_data in
    let score := Binary64._calculate_technical_score technical_data in
    points.2 = 5%nat /\
    score = points.1 / 5 /\
    (-1.4000000000000001 <=? points.1) = true /\
    (points.1 <=? 1.5000000000000002) = true /\
    (-0.28 <=? score) = true /\
    (score <=? 0.30000000000000004) = true /\
    (score <? -0.3) = false /\
    ((0.3 <? score) = true <->
       Py.dict_get signals "rsi" "neutral" = "oversold" /\
       Py.dict_get signals "macd" "neutral" = "bullish" /\
       Py.dict_get signals "ma_trend" "neutral" = "strong_bullish" /\
       Py.dict_get signals "bollinger" "neutral" = "oversold" /\
       trend technical_data = "bullish" /\
       Py.str_in (Py.dict_get signals "trend_strength" "weak") ["strong"; "very_strong"]
       = true /\
       Py.dict_get signals "volume" "normal" = "high") /\
    ((0.3 <? score) = true -> score = 0.30000000000000004).
Proof.
  intros technical_data signals points score.
  pose proof (score_facts_all (Binary64.tests_of technical_data)) as Hfacts.
  unfold Binary64.score_facts in Hfacts. cbv zeta in Hfacts.
  rewrite <- technical_points_tests in Hfacts.
  fold points in Hfacts.
  change (Binary64.average points) with score in Hfacts.
  rewrite !andb_true_iff, negb_true_iff in Hfacts.
  destruct Hfacts as (((((Hlow & Hhigh) & Hmin) & Hmax) & Hsell) & Hbuy).
  apply Bool.eqb_prop in Hbuy.
  assert (Hcase : Binary64.all_bullish (Binary64.tests_of technical_data) = true <->
     Py.dict_get signals "rsi" "neutral" = "oversold" /\
     Py.dict_get signals "macd" "neutral" = "bullish" /\
     Py.dict_get signals "ma_trend" "neutral" = "strong_bullish" /\
     Py.dict_get signals "bollinger" "neutral" = "oversold" /\
     trend technical_data = "bullish" /\
     Py.str_in (Py.dict_get signals "trend_strength" "weak") ["strong"; "very_strong"]
     = true /\
     Py.dict_get signals "volume" "normal" = "high").
  { unfold Binary64.all_bullish, Binary64.tests_of. cbv zeta.
    cbn [Binary64.rsi_oversold Binary64.macd_bullish Binary64.ma_strong_bullish
         Binary64.bb_oversold Binary64.trend_bullish Binary64.strength_strong
         Binary64.volume_high].
    fold signals. rewrite !andb_true_iff, !String.eqb_eq. tauto. }
  split; [reflexivity |].
  split; [reflexivity |].
  repeat (split; [assumption |]).
  split; [rewrite Hbuy; exact Hcase |].
  intros Hover. rewrite Hbuy in Hover. apply Hcase in Hover.
  destruct Hover as (Hrsi & Hmacd & Hma & Hbb & Htrend & Hstrength & Hvolume).
  subst score. unfold Binary64._calculate_technical_score, Binary64.technical_points.
  cbv zeta. fold signals. rewrite Hrsi, Hmacd, Hma, Hbb, Htrend, Hstrength, Hvolume.
  vm_compute. reflexivity.
Qed.

End TechnicalScoreBinary64.

(** ** The forecast stabilizer: cache, dampening, smoothing *)

Section Forecast.
Import Py.
Import PricePredictor.
Context `{Predictor}.

Implicit Types (prediction_cache : gmap string (ForecastRecord * Q)).
Implicit Types (symbol timeframe : string) (features : Features).

(** A cached prediction younger than the validity window is returned and
    the cache is left as it is. *)
Lemma make_prediction_hit prediction_cache current_time symbol timeframe features
      (cached : ForecastRecord) (cache_time : Q) :
  prediction_cache !! (symbol +:+ "_" +:+ timeframe) = Some (cached, cache_time) ->
  current_time - cache_time < dict_get cache_duration timeframe 300 ->
  _make_prediction prediction_cache current_time symbol timeframe features
  = (Ok cached, prediction_cache).
Proof.
  intros Hlookup Hage. unfold _make_prediction. cbv zeta. rewrite Hlookup.
  apply ltb_lt in Hage. now rewrite Hage.
Qed.

(** After a successful call the cache holds the returned record. *)
Lemma make_prediction_cached prediction_cache current_time symbol timeframe features
      (result : ForecastRecord) (cache' : gmap string (ForecastRecord * Q)) :
  _make_prediction prediction_cache current_time symbol timeframe features
  = (Ok result, cache') ->
  exists cache_time : Q,
    cache' !! (symbol +:+ "_" +:+ timeframe) = Some (result, cache_time).
Proof.
  unfold _make_prediction. cbv zeta.
  destruct (prediction_cache !! (symbol +:+ "_" +:+ timeframe))
    as [[cached cache_time] |] eqn:Hlookup.
  - destruct (ltb _ _).
    + intros [= <- <-]. eauto.
    + destruct (run_model _ features); intros [= <- <-].
      eexists. apply lookup_insert_eq.
  - destruct (run_model _ features); intros [= <- <-].
    eexists. apply lookup_insert_eq.
Qed.

(** A recomputation: no usable cache entry and a model that answers. *)
Lemma make_prediction_fresh prediction_cache current_time symbol timeframe features
      (prediction_actual : Q) :
  run_model (symbol +:+ "_" +:+ timeframe) features = Ok prediction_actual ->
  match prediction_cache !! (symbol +:+ "_" +:+ timeframe) with
  | Some (_, cache_time) =>
      dict_get cache_duration timeframe 300 <= current_time - cache_time
  | None => True
  end ->
  exists result : ForecastRecord,
    _make_prediction prediction_cache current_time symbol timeframe features
    = (Ok result,
       <[symbol +:+ "_" +:+ timeframe := (result, current_time)]> prediction_cache) /\
    current_price result = close_last features /\
    predicted_price result =
      match prediction_cache !! (symbol +:+ "_" +:+ timeframe) with
      | Some (cached, _) =>
          smooth timeframe (dampen timeframe (close_last features) prediction_actual)
                 (predicted_price cached)
      | None => dampen timeframe (close_last features) prediction_actual
      end.
Proof.
  intros Hmodel Hstale. unfold _make_prediction. cbv zeta. rewrite Hmodel.
  destruct (prediction_cache !! (symbol +:+ "_" +:+ timeframe))
    as [[cached cache_time] |].
  - apply ltb_ge in Hstale. rewrite Hstale. eexists. split; [reflexivity |].
    split; reflexivity.
  - eexists. split; [reflexivity |]. split; reflexivity.
Qed.

(** The cache key [f"{symbol}_{timeframe}"] determines symbol and
    timeframe, the configured timeframes all being two characters long. *)
Lemma string_length_app (s t : string) :
  String.length (s +:+ t) = (String.length s + String.length t)%nat.
Proof.
  induction s as [| c s IH]; [reflexivity |].
  change (String c s +:+ t) with (String c (s +:+ t)). cbn [String.length].
  now rewrite IH.
Qed.

Lemma app_suffix_inj (s1 s2 t1 t2 : string) :
  String.length t1 = String.length t2 ->
  s1 +:+ t1 = s2 +:+ t2 -> s1 = s2 /\ t1 = t2.
Proof.
  revert s2. induction s1 as [| c s1 IH]; intros [| d s2] Hlen Heq.
  - auto.
  - exfalso. apply (f_equal String.length) in Heq.
    change ("" +:+ t1) with t1 in Heq. rewrite string_length_app in Heq.
    cbn [String.length] in Heq. lia.
  - exfalso. apply (f_equal String.length) in Heq.
    change ("" +:+ t2) with t2 in Heq. rewrite string_length_app in Heq.
    cbn [String.length] in Heq. lia.
  - change (String c (s1 +:+ t1) = String d (s2 +:+ t2)) in Heq.
    injection Heq as -> Heq. destruct (IH s2 Hlen Heq) as [-> ->]. auto.
Qed.

Lemma configured_timeframe_length (timeframe : string) :
  is_Some (timeframe_configs !! timeframe) -> String.length timeframe = 2%nat.
Proof.
  intros [config Hconfig]. unfold timeframe_configs in Hconfig.
  repeat (apply lookup_insert_Some in Hconfig as [[<- _] | [_ Hconfig]];
          [reflexivity |]).
  now rewrite lookup_empty in Hconfig.
Qed.

Lemma cache_key_injective (symbol1 symbol2 timeframe1 timeframe2 : string) :
  is_Some (timeframe_configs !! timeframe1) ->
  is_Some (timeframe_configs !! timeframe2) ->
  symbol1 +:+ "_" +:+ timeframe1 = symbol2 +:+ "_" +:+ timeframe2 ->
  symbol1 = symbol2 /\ timeframe1 = timeframe2.
Proof.
  intros H1 H2 Hkey.
  apply configured_timeframe_length in H1, H2.
  apply app_suffix_inj in Hkey as [-> Htf].
  - split; [reflexivity |]. now apply (inj (String.append "_")) in Htf.
  - rewrite !string_length_app. congruence.
Qed.

(** [predict_price] answers only through [_make_prediction]. *)
Lemma predict_price_answer prediction_cache current_time symbol timeframe
      (historical : result (list DataFetcher.Bar)) (answer : ForecastRecord)
      (cache' : gmap string (ForecastRecord * Q)) :
  predict_price prediction_cache current_time symbol timeframe historical
  = (Ok answer, cache') ->
  exists features,
    _make_prediction prediction_cache current_time symbol timeframe features
    = (Ok answer, cache').
Proof.
  unfold predict_price.
  destruct (timeframe_configs !! timeframe); [| discriminate].
  destruct historical as [historical_data |]; [| discriminate].
  destruct (length historical_data <? sequence_length)%nat; [discriminate |].
  destruct (prepare_features historical_data) as [features |]; [| discriminate].
  destruct (ensure_model _ historical_data); [| discriminate].
  eauto.
Qed.

(** C4.  The validity windows are 2, 10, 30 and 60 minutes for 1h, 4h,
    1d and 7d, and the cache key determines symbol and timeframe.
    Whenever the cache holds a record for the key of (symbol, timeframe)
    whose age is below the window, the forecast step returns that record
    unchanged and leaves the cache as it is; after any successful
    forecast, a second forecast for the same key made while the stored
    record is younger than the window returns the identical record; and
    whatever [predict_price] answers while such a record is cached is that
    record. *)
Theorem cached_forecast_idempotent :
  (dict_get cache_duration "1h" 300 == 2 * 60 /\
   dict_get cache_duration "4h" 300 == 10 * 60 /\
   dict_get cache_duration "1d" 300 == 30 * 60 /\
   dict_get cache_duration "7d" 300 == 60 * 60) /\
  (forall symbol1 symbol2 timeframe1 timeframe2 : string,
      is_Some (timeframe_configs !! timeframe1) ->
      is_Some (timeframe_configs !! timeframe2) ->
      symbol1 +:+ "_" +:+ timeframe1 = symbol2 +:+ "_" +:+ timeframe2 ->
      symbol1 = symbol2 /\ timeframe1 = timeframe2) /\
  (forall prediction_cache current_time symbol timeframe features
          (cached : ForecastRecord) (cache_time : Q),
      prediction_cache !! (symbol +:+ "_" +:+ timeframe) = Some (cached, cache_time) ->
      current_time - cache_time < dict_get cache_duration timeframe 300 ->
      _make_prediction prediction_cache current_time symbol timeframe features
      = (Ok cached, prediction_cache)) /\
  (forall prediction_cache (time1 time2 : Q) symbol timeframe
          (features1 features2 : Features) (first : ForecastRecord)
          (cache1 : gmap string (ForecastRecord * Q)),
      _make_prediction prediction_cache time1 symbol timeframe features1
      = (Ok first, cache1) ->
      exists cache_time : Q,
        cache1 !! (symbol +:+ "_" +:+ timeframe) = Some (first, cache_time) /\
        (time2 - cache_time < dict_get cache_duration timeframe 300 ->
         _make_prediction cache1 time2 symbol timeframe features2
         = (Ok first, cache1))) /\
  (forall prediction_cache current_time symbol timeframe
          (historical : result (list DataFetcher.Bar))
          (cached answer : ForecastRecord) (cache_time : Q)
          (cache' : gmap string (ForecastRecord * Q)),
      prediction_cache !! (symbol +:+ "_" +:+ timeframe) = Some (cached, cache_time) ->
      current_time - cache_time < dict_get cache_duration timeframe 300 ->
      predict_price prediction_cache current_time symbol timeframe historical
      = (Ok answer, cache') ->
      answer = cached /\ cache' = prediction_cache).
Proof.
  split; [| split; [| split; [| split]]].
  - repeat split; reflexivity.
  - apply cache_key_injective.
  - apply make_prediction_hit.
  - intros prediction_cache time1 time2 symbol timeframe features1 features2
           first cache1 Hfirst.
    destruct (make_prediction_cached _ _ _ _ _ _ _ Hfirst) as [cache_time Hstored].
    exists cache_time. split; [assumption |].
    intros Hage. now apply make_prediction_hit with (cache_time := cache_time).
  - intros prediction_cache current_time symbol timeframe historical cached answer
           cache_time cache' Hlookup Hage Hanswer.
    apply predict_price_answer in Hanswer as [features Hmake].
    rewrite (make_prediction_hit _ _ _ _ features _ _ Hlookup Hage) in Hmake.
    now inversion Hmake.
Qed.

(** The dampened candidate for each configured timeframe. *)
Lemma dampen_factor (current_price prediction_actual : Q) :
  dampen "1h" current_price prediction_actual
    == current_price + (prediction_actual - current_price) * 1.0 /\
  dampen "4h" current_price prediction_actual
    == current_price + (prediction_actual - current_price) * 0.6 /\
  dampen "1d" current_price prediction_actual
    == current_price + (prediction_actual - current_price) * 0.4 /\
  dampen "7d" current_price prediction_actual
    == current_price + (prediction_actual - current_price) * 0.3.
Proof. repeat split; reflexivity. Qed.

(** Scaling by a factor in [0, 1]: the magnitude shrinks with the factor. *)
Lemma Qabs_scale_le (x f g : Q) : 0 <= f -> f <= g -> Qabs (x * f) <= Qabs (x * g).
Proof.
  intros Hf Hfg. rewrite !Qabs_Qmult.
  rewrite (Qabs_pos f) by assumption. rewrite (Qabs_pos g) by lra.
  pose proof (Qabs_nonneg x). nra.
Qed.

(** C5.  The volatility factors are 1.0, 0.6, 0.4 and 0.3 for 1h, 4h, 1d
    and 7d; the candidate price is the current price plus the raw change
    times the factor; for one and the same raw change the magnitude of the
    dampened change does not increase along 1h, 4h, 1d, 7d; and a forecast
    computed without a cached predecessor carries that candidate as its
    predicted price. *)
Theorem dampening_monotone :
  (volatility_factor <$> timeframe_configs !! "1h" = Some 1.0 /\
   volatility_factor <$> timeframe_configs !! "4h" = Some 0.6 /\
   volatility_factor <$> timeframe_configs !! "1d" = Some 0.4 /\
   volatility_factor <$> timeframe_configs !! "7d" = Some 0.3) /\
  (forall current_price prediction_actual : Q,
      let raw_change := prediction_actual - current_price in
      let dampened_change timeframe :=
        dampen timeframe current_price prediction_actual - current_price in
      (dampened_change "1h" == raw_change * 1.0 /\
       dampened_change "4h" == raw_change * 0.6 /\
       dampened_change "1d" == raw_change * 0.4 /\
       dampened_change "7d" == raw_change * 0.3) /\
      Qabs (dampened_change "4h") <= Qabs (dampened_change "1h") /\
      Qabs (dampened_change "1d") <= Qabs (dampened_change "4h") /\
      Qabs (dampened_change "7d") <= Qabs (dampened_change "1d")) /\
  (forall prediction_cache current_time symbol timeframe features
          (prediction_actual : Q),
      prediction_cache !! (symbol +:+ "_" +:+ timeframe) = None ->
      run_model (symbol +:+ "_" +:+ timeframe) features = Ok prediction_actual ->
      exists (result : ForecastRecord) (cache' : gmap string (ForecastRecord * Q)),
        _make_prediction prediction_cache current_time symbol timeframe features
        = (Ok result, cache') /\
        predicted_price result
        = dampen timeframe (close_last features) prediction_actual).
Proof.
  split; [| split].
  - repeat split; reflexivity.
  - intros current_price prediction_actual raw_change dampened_change.
    destruct (dampen_factor current_price prediction_actual) as (H1 & H4 & Hd & H7).
    assert (E1 : dampened_change "1h" == raw_change * 1.0)
      by (subst dampened_change raw_change; cbv beta; rewrite H1; ring).
    assert (E4 : dampened_change "4h" == raw_change * 0.6)
      by (subst dampened_change raw_change; cbv beta; rewrite H4; ring).
    assert (Ed : dampened_change "1d" == raw_change * 0.4)
      by (subst dampened_change raw_change; cbv beta; rewrite Hd; ring).
    assert (E7 : dampened_change "7d" == raw_change * 0.3)
      by (subst dampened_change raw_change; cbv beta; rewrite H7; ring).
    split; [auto |].
    rewrite E1, E4, Ed, E7.
    repeat split; apply Qabs_scale_le; lra.
  - intros prediction_cache current_time symbol timeframe features prediction_actual
           Hnone Hmodel.
    destruct (make_prediction_fresh prediction_cache current_time symbol timeframe
                features prediction_actual Hmodel) as (result & Hrun & _ & Hprice).
    + now rewrite Hnone.
    + rewrite Hnone in Hprice. eauto.
Qed.

(** The smoothing weights on the previously cached price. *)
Lemma smooth_weights (timeframe : string) (prediction_actual cached_price : Q) :
  smooth "1h" prediction_actual cached_price
    == prediction_actual * 0.7 + cached_price * 0.3 /\
  smooth "4h" prediction_actual cached_price
    == prediction_actual * 0.4 + cached_price * 0.6 /\
  (timeframe <> "1h" -> timeframe <> "4h" ->
   smooth timeframe prediction_actual cached_price
     == prediction_actual * 0.2 + cached_price * 0.8).
Proof.
  split; [| split].
  - unfold smooth. cbn. ring.
  - unfold smooth. cbn. ring.
  - intros H1 H4. unfold smooth.
    apply String.eqb_neq in H1, H4. rewrite H1, H4. ring.
Qed.

(** The blend does not decrease when either of its two prices increases. *)
Lemma smooth_monotone (timeframe : string)
      (candidate candidate' cached_price cached_price' : Q) :
  candidate <= candidate' -> cached_price <= cached_price' ->
  smooth timeframe candidate cached_price <= smooth timeframe candidate' cached_price'.
Proof.
  intros Hc Hp. unfold smooth.
  destruct (String.eqb timeframe "1h"); [| destruct (String.eqb timeframe "4h")]; lra.
Qed.

(** C6, amended.  The smoothing weight on the previously cached price is
    0.3 for 1h, 0.6 for 4h and 0.8 otherwise: the blended price is
    [candidate * (1 - w) + cached * w], which does not decrease when the
    candidate or the cached price increases.  A forecast recomputed over
    an expired cache entry carries the blend of its dampened candidate
    with the previously cached predicted price as its predicted price.
    The blend is not said to lie between the two prices: the rounding of
    the two products and of their sum can put it outside them by a unit in
    the last place. *)
Theorem smoothing_weighted_blend :
  (forall (timeframe : string) (candidate cached_price : Q),
      smooth "1h" candidate cached_price == candidate * (1 - 0.3) + cached_price * 0.3 /\
      smooth "4h" candidate cached_price == candidate * (1 - 0.6) + cached_price * 0.6 /\
      (timeframe <> "1h" -> timeframe <> "4h" ->
       smooth timeframe candidate cached_price
       == candidate * (1 - 0.8) + cached_price * 0.8)) /\
  (forall (timeframe : string) (candidate candidate' cached_price cached_price' : Q),
      candidate <= candidate' -> cached_price <= cached_price' ->
      smooth timeframe candidate cached_price
      <= smooth timeframe candidate' cached_price') /\
  (forall prediction_cache current_time symbol timeframe features
          (cached : ForecastRecord) (cache_time prediction_actual : Q),
      prediction_cache !! (symbol +:+ "_" +:+ timeframe) = Some (cached, cache_time) ->
      dict_get cache_duration timeframe 300 <= current_time - cache_time ->
      run_model (symbol +:+ "_" +:+ timeframe) features = Ok prediction_actual ->
      let candidate := dampen timeframe (close_last features) prediction_actual in
      exists (result : ForecastRecord) (cache' : gmap string (ForecastRecord * Q)),
        _make_prediction prediction_cache current_time symbol timeframe features
        = (Ok result, cache') /\
        predicted_price result = smooth timeframe candidate (predicted_price cached)).
Proof.
  split; [| split].
  - intros timeframe candidate cached_price.
    destruct (smooth_weights timeframe candidate cached_price) as (H1 & H4 & Ho).
    split; [rewrite H1; ring |]. split; [rewrite H4; ring |].
    intros ? ?. rewrite Ho by assumption. ring.
  - intros timeframe candidate candidate' cached_price cached_price'.
    apply smooth_monotone.
  - intros prediction_cache current_time symbol timeframe features cached cache_time
           prediction_actual Hlookup Hstale Hmodel candidate.
    destruct (make_prediction_fresh prediction_cache current_time symbol timeframe
                features prediction_actual Hmodel) as (result & Hrun & _ & Hprice).
    + now rewrite Hlookup.
    + rewrite Hlookup in Hprice. exists result. eexists.
      split; [exact Hrun | exact Hprice].
Qed.

End Forecast.

Lemma cached_forecast_idempotent_witness :
  PricePredictor._make_prediction (H := Samples.predictor_fixed)
    Samples.cache_btc 100 "BTCUSDT" "1d" Samples.step_series
  = (Py.Ok Samples.forecast_up, Samples.cache_btc).
Proof.
  destruct (@cached_forecast_idempotent Samples.predictor_fixed) as (_ & _ & Hhit & _).
  apply Hhit with (cache_time := 0); reflexivity.
Defined.

Lemma dampening_monotone_witness :
  exists (result : PricePredictor.ForecastRecord)
         (cache' : gmap string (PricePredictor.ForecastRecord * Q)),
    PricePredictor._make_prediction (H := Samples.predictor_fixed)
      ∅ 0 "BTCUSDT" "1d" Samples.step_series = (Py.Ok result, cache') /\
    PricePredictor.predicted_price result = PricePredictor.dampen "1d" 100 110.
Proof.
  destruct (@dampening_monotone Samples.predictor_fixed) as (_ & _ & Hfresh).
  apply (Hfresh ∅ 0 "BTCUSDT" "1d" Samples.step_series 110); reflexivity.
Defined.

Lemma smoothing_weighted_blend_witness :
  exists (result : PricePredictor.ForecastRecord)
         (cache' : gmap string (PricePredictor.ForecastRecord * Q)),
    PricePredictor._make_prediction (H := Samples.predictor_fixed)
      Samples.cache_btc 3600 "BTCUSDT" "1d" Samples.step_series = (Py.Ok result, cache') /\
    PricePredictor.predicted_price result
    = PricePredictor.smooth "1d" (PricePredictor.dampen "1d" 100 110) 105.
Proof.
  destruct (@smoothing_weighted_blend Samples.predictor_fixed) as (_ & _ & Hstale).
  apply (Hstale Samples.cache_btc 3600 "BTCUSDT" "1d" Samples.step_series
           Samples.forecast_up 0 110).
  - reflexivity.
  - vm_compute. discriminate.
  - reflexivity.
Defined.

(** ** The smoothing step in binary64 *)

Section SmoothingBinary64.
Import PrimFloat.
Local Open Scope float_scope.

(** The weights of the blend as the code computes them: [1 - 0.3] is 0.7,
    [1 - 0.6] is 0.4 and [1 - 0.8] is 0.19999999999999996. *)
#[warnings="-inexact-float"]
Lemma smooth_weights_binary64 (timeframe : string) (candidate cached_price : float) :
  Binary64.smooth "1h" candidate cached_price = candidate * 0.7 + cached_price * 0.3 /\
  Binary64.smooth "4h" candidate cached_price = candidate * 0.4 + cached_price * 0.6 /\
  (timeframe <> "1h" -> timeframe <> "4h" ->
   Binary64.smooth timeframe candidate cached_price
   = candidate * 0.19999999999999996 + cached_price * 0.8).
Proof.
  split; [reflexivity |]. split; [reflexivity |].
  intros H1 H4. unfold Binary64.smooth.
  apply String.eqb_neq in H1, H4. rewrite H1, H4. reflexivity.
Qed.

(** C6 fails in binary64: on the timeframe 1h, with a current price and a
    model prediction of 3.0, the dampened candidate is 3.0; blended with a
    cached price of 3.0 it gives 2.9999999999999996, below both
    endpoints. *)
#[warnings="-inexact-float"]
Lemma smoothing_overshoots_endpoint :
  let candidate := Binary64.dampen "1h" 3 3 in
  let cached_price := 3 in
  let blended := Binary64.smooth "1h" candidate cached_price in
  candidate = 3 /\
  blended = 2.9999999999999996 /\
  (blended <? candidate) = true /\ (blended <? cached_price) = true /\
  (candidate <=? blended) = false.
Proof.
  repeat split; vm_compute; reflexivity.
Qed.

End SmoothingBinary64.

(** ** Sentiment aggregation *)

Section Sentiment.
Import Py.
Import SentimentAnalyzer.
Import Stated.
Context `{NumPy}.

(** Every score falls in exactly one of the three buckets. *)
Lemma count_buckets (scores : list Q) :
  Z.of_nat (length scores)
  = (count (fun score => leb 0.05 score) scores
     + count (fun score => leb score (-0.05)) scores
     + count in_neutral_band scores)%Z.
Proof.
  unfold count. induction scores as [| x scores IH]; [reflexivity |].
  rewrite !filter_cons. cbn [length]. rewrite Nat2Z.inj_succ, IH.
  unfold in_neutral_band.
  case_leb 0.05 x; case_leb x (-0.05); case_ltb (-0.05) x; case_ltb x 0.05;
    try lra; repeat case_decide; cbn [length andb Is_true] in *;
    try contradiction; try tauto; lia.
Qed.

Lemma aggregate_nonempty (first : TextSentiment) (rest : list TextSentiment) :
  let compound_scores := compound <$> (first :: rest) in
  let r := _aggregate_sentiment_results (first :: rest) in
  sentiment_score r = mean compound_scores /\
  confidence r = max 0.0 (1.0 - std compound_scores / 2.0) /\
  sentiment_label r =
    (if leb 0.05 (mean compound_scores) then "positive"
     else if leb (mean compound_scores) (-0.05) then "negative"
     else "neutral") /\
  positive_count (analysis_details r)
    = count (fun score => leb 0.05 score) compound_scores /\
  negative_count (analysis_details r)
    = count (fun score => leb score (-0.05)) compound_scores /\
  neutral_count (analysis_details r)
    = (Z.of_nat (length compound_scores)
       - count (fun score => leb 0.05 score) compound_scores
       - count (fun score => leb score (-0.05)) compound_scores)%Z.
Proof. repeat split; reflexivity. Qed.

(** C7.  For a non-empty list of per-text results the aggregate score is
    the mean of the compound scores, the confidence is
    [max(0, 1 - std/2)] of those scores, the label is positive iff the
    score is at least 0.05, negative iff it is at most -0.05 and neutral
    otherwise, and the positive, negative and neutral counts are the
    numbers of compound scores at least 0.05, at most -0.05 and strictly
    between.  For an empty list, and for a symbol with no texts at all,
    the result is the neutral record with score 0, confidence 0 and zero
    counts. *)
Theorem sentiment_aggregate_record :
  (forall sentiment_results : list TextSentiment,
      sentiment_results <> [] ->
      let compound_scores := compound <$> sentiment_results in
      let r := _aggregate_sentiment_results sentiment_results in
      sentiment_score r == sum compound_scores / len compound_scores /\
      confidence r == Qmax 0 (1 - std compound_scores / 2) /\
      (sentiment_label r = "positive" <-> 0.05 <= sentiment_score r) /\
      (sentiment_label r = "negative" <-> sentiment_score r <= -0.05) /\
      (sentiment_label r = "neutral" <->
         -0.05 < sentiment_score r /\ sentiment_score r < 0.05) /\
      positive_count (analysis_details r)
        = count (fun score => leb 0.05 score) compound_scores /\
      negative_count (analysis_details r)
        = count (fun score => leb score (-0.05)) compound_scores /\
      neutral_count (analysis_details r) = count in_neutral_band compound_scores) /\
  (let r := _aggregate_sentiment_results [] in
   sentiment_score r = 0.0 /\ sentiment_label r = "neutral" /\ confidence r = 0.0 /\
   positive_count (analysis_details r) = 0%Z /\
   negative_count (analysis_details r) = 0%Z /\
   neutral_count (analysis_details r) = 0%Z) /\
  (forall (score_text : string -> TextSentiment) (sources : option (list string)),
      let r := analyze_sentiment score_text sources [] [] in
      sentiment_score r = 0.0 /\ sentiment_label r = "neutral" /\ confidence r = 0.0 /\
      sources_analyzed r = Some 0%Z /\
      positive_count (analysis_details r) = 0%Z /\
      negative_count (analysis_details r) = 0%Z /\
      neutral_count (analysis_details r) = 0%Z).
Proof.
  split; [| split].
  - intros [| first rest] Hne compound_scores r; [contradiction |].
    destruct (aggregate_nonempty first rest)
      as (Hscore & Hconf & Hlabel & Hpos & Hneg & Hneu).
    fold compound_scores in Hscore, Hconf, Hlabel, Hpos, Hneg, Hneu.
    fold r in Hscore, Hconf, Hlabel, Hpos, Hneg, Hneu.
    rewrite Hscore, Hconf, Hlabel, Hpos, Hneg, Hneu.
    split; [reflexivity |].
    split.
    { rewrite py_max_Qmax.
      assert (E : 1.0 - std compound_scores / 2.0 == 1 - std compound_scores / 2)
        by (field).
      destruct (Q.max_spec 0.0 (1.0 - std compound_scores / 2.0)) as [[? ->] | [? ->]];
        destruct (Q.max_spec 0 (1 - std compound_scores / 2)) as [[? ->] | [? ->]];
        lra. }
    split; [| split; [| split; [| split; [reflexivity | split; [reflexivity |]]]]].
    + case_leb 0.05 (mean compound_scores); [tauto |].
      case_leb (mean compound_scores) (-0.05); split; try discriminate; lra.
    + case_leb 0.05 (mean compound_scores);
        [split; [discriminate | lra] |].
      case_leb (mean compound_scores) (-0.05); [tauto |].
      split; [discriminate | lra].
    + case_leb 0.05 (mean compound_scores);
        [split; [discriminate | lra] |].
      case_leb (mean compound_scores) (-0.05);
        [split; [discriminate | lra] |].
      split; [intros _; lra | reflexivity].
    + pose proof (count_buckets compound_scores). lia.
  - repeat split; reflexivity.
  - intros score_text sources r. subst r. unfold analyze_sentiment. cbv zeta.
    destruct (str_in "news" _), (str_in "social" _); repeat split; reflexivity.
Qed.

End Sentiment.

Lemma sentiment_aggregate_record_witness :
  let r := SentimentAnalyzer._aggregate_sentiment_results
             (H := Samples.numpy_rational) Samples.mixed_texts in
  SentimentAnalyzer.sentiment_score r == 0.1 /\
  SentimentAnalyzer.sentiment_label r = "positive" /\
  SentimentAnalyzer.neutral_count (SentimentAnalyzer.analysis_details r) = 1%Z.
Proof.
  destruct (@sentiment_aggregate_record Samples.numpy_rational) as (Hagg & _).
  destruct (Hagg Samples.mixed_texts) as (Hscore & _ & Hlabel & _ & _ & _ & _ & Hneutral).
  - discriminate.
  - split; [rewrite Hscore; reflexivity |].
    split; [apply Hlabel; rewrite Hscore; vm_compute; discriminate |].
    rewrite Hneutral. reflexivity.
Defined.

(** ** Sorted, duplicate-free level lists *)

Section SortedSets.
Import Py.
Import Stated.

Variable reverse : bool.

Lemma strictly_trans (x y z : Q) :
  strictly reverse x y -> strictly reverse y z -> strictly reverse x z.
Proof. unfold strictly. destruct reverse; lra. Qed.

Lemma before_strictly (x y : Q) :
  before reverse x y = true -> ~ x == y -> strictly reverse x y.
Proof.
  unfold before, strictly. destruct reverse; rewrite leb_le; lra.
Qed.

Lemma not_before_strictly (x y : Q) :
  before reverse x y = false -> strictly reverse y x.
Proof.
  unfold before, strictly. destruct reverse; rewrite leb_gt; lra.
Qed.

Lemma in_insert_sorted (x y : Q) (l : list Q) :
  In y (insert_sorted reverse x l) <-> y = x \/ In y l.
Proof.
  induction l as [| z l IH]; cbn [insert_sorted].
  - cbn. intuition.
  - destruct (before reverse x z); cbn [In]; [intuition |].
    rewrite IH. intuition.
Qed.

Lemma in_sorted (y : Q) (l : list Q) : In y (sorted reverse l) <-> In y l.
Proof.
  unfold sorted. induction l as [| x l IH]; cbn [foldr]; [reflexivity |].
  rewrite in_insert_sorted, IH. cbn. intuition.
Qed.

Lemma in_set_list (y : Q) (l : list Q) : In y (set_list l) -> In y l.
Proof.
  induction l as [| x l IH]; cbn [set_list]; [auto |].
  destruct (existsb (eqb x) l); cbn [In]; intuition.
Qed.

(** Inserting a value unequal to all elements keeps the list strictly
    sorted. *)
Lemma insert_sorted_strictly (x : Q) (l : list Q) :
  StronglySorted (strictly reverse) l ->
  (forall y, In y l -> ~ x == y) ->
  StronglySorted (strictly reverse) (insert_sorted reverse x l).
Proof.
  induction l as [| z l IH]; intros Hsorted Hfresh; cbn [insert_sorted].
  - repeat constructor.
  - apply StronglySorted_inv in Hsorted as [Hl Hz].
    destruct (before reverse x z) eqn:Hb.
    + assert (Hxz : strictly reverse x z).
      { apply before_strictly; [assumption |]. apply Hfresh. now left. }
      constructor; [now constructor |].
      constructor; [assumption |].
      eapply Forall_impl; [exact Hz |].
      intros w Hw. cbv beta in Hw. eapply strictly_trans; eassumption.
    + constructor.
      * apply IH; [assumption |]. intros y Hy. apply Hfresh. now right.
      * apply Forall_forall. intros w Hw.
        apply list_elem_of_In, in_insert_sorted in Hw as [-> | Hw].
        -- now apply not_before_strictly.
        -- rewrite Forall_forall in Hz. apply Hz. now apply list_elem_of_In.
Qed.

(** [sorted(list(set(xs)))] is strictly sorted. *)
Lemma sorted_set_list_strictly (l : list Q) :
  StronglySorted (strictly reverse) (sorted reverse (set_list l)).
Proof.
  induction l as [| x l IH]; cbn [set_list].
  - constructor.
  - destruct (existsb (eqb x) l) eqn:Hex; [assumption |].
    unfold sorted. cbn [foldr]. apply insert_sorted_strictly; [exact IH |].
    intros y Hy Hxy. apply in_sorted, in_set_list in Hy.
    apply not_true_iff_false in Hex. apply Hex.
    apply existsb_exists. exists y. split; [assumption | now apply eqb_eq].
Qed.

Lemma StronglySorted_take {A} (R : relation A) (n : nat) (l : list A) :
  StronglySorted R l -> StronglySorted R (take n l).
Proof.
  intros Hs. revert n. induction Hs as [| x l Hs IH Hx]; intros [| n]; cbn;
    try constructor.
  - apply IH.
  - apply Forall_take. assumption.
Qed.

Lemma in_take {A} (x : A) (n : nat) (l : list A) : In x (take n l) -> In x l.
Proof.
  rewrite <- !list_elem_of_In. apply (subseteq_take n l).
Qed.

End SortedSets.

(** ** Technical analysis: support and resistance, minimum history *)

Section SupportResistance.
Import Py.
Import DataFetcher.
Import TechnicalAnalyzer.
Import Stated.

(** What the loop collects. *)
Lemma sr_fold_levels (df : list Bar) (window : nat) (idx : list nat)
      (acc : list Q * list Q) :
  let highs := rolling_center max window (high <$> df) in
  let lows := rolling_center min window (low <$> df) in
  let out := foldl (sr_step df highs lows) acc idx in
  (forall r, In r (fst out) ->
     In r (fst acc) \/ exists i, In i idx /\ local_extreme max high window df i r) /\
  (forall s, In s (snd out) ->
     In s (snd acc) \/ exists i, In i idx /\ local_extreme min low window df i s).
Proof.
  cbv zeta. revert acc. induction idx as [| i idx IH]; intros acc; cbn [foldl].
  - split; auto.
  - specialize (IH (sr_step df (rolling_center max window (high <$> df))
                            (rolling_center min window (low <$> df)) acc i)).
    destruct IH as [IHr IHs]. destruct acc as [racc sacc].
    split.
    + intros r Hr. destruct (IHr r Hr) as [Hacc | (j & Hj & Hext)].
      * unfold sr_step in Hacc. cbn [fst] in Hacc |- *.
        destruct (df !! i) as [b |] eqn:Hb; cbn [fmap option_fmap option_map] in Hacc;
          [| now left].
        destruct (rolling_center max window (high <$> df) i) as [m |] eqn:Hm;
          [| now left].
        destruct (eqb (high b) m) eqn:He; [| now left].
        apply in_app_or in Hacc as [Hacc | [<- | []]]; [now left |].
        right. exists i. split; [now left |].
        exists b, m. repeat split; try assumption. now apply eqb_eq.
      * right. exists j. split; [now right | assumption].
    + intros s Hs. destruct (IHs s Hs) as [Hacc | (j & Hj & Hext)].
      * unfold sr_step in Hacc. cbn [snd] in Hacc |- *.
        destruct (df !! i) as [b |] eqn:Hb; cbn [fmap option_fmap option_map] in Hacc;
          [| now left].
        destruct (rolling_center min window (low <$> df) i) as [m |] eqn:Hm;
          [| destruct (rolling_center max window (high <$> df) i) as [m' |];
             [destruct (eqb (high b) m') |]; now left].
        destruct (rolling_center max window (high <$> df) i) as [m' |];
          [destruct (eqb (high b) m') |];
          (destruct (eqb (low b) m) eqn:He; [| now left]);
          (apply in_app_or in Hacc as [Hacc | [<- | []]]; [now left |]);
          right; exists i; (split; [now left |]);
          exists b, m; repeat split; try assumption; now apply eqb_eq.
      * right. exists j. split; [now right | assumption].
Qed.

Lemma find_support_resistance_unfold (df : list Bar) (window : nat) :
  let out :=
    foldl (sr_step df (rolling_center max window (high <$> df))
                   (rolling_center min window (low <$> df)))
          ([], []) (seq window (length df - window - window)) in
  _find_support_resistance df window
  = (take 5 (sorted false (set_list (snd out))),
     take 5 (sorted true (set_list (fst out)))).
Proof.
  cbv zeta. unfold _find_support_resistance. cbv zeta.
  destruct (foldl _ _ _) as [r s]. reflexivity.
Qed.

(** On the step series a support level (10) lies above a resistance
    level (2): support levels are not always below resistance levels. *)
Lemma support_not_below_resistance :
  ~ (forall (df : list Bar) (s r : Q),
        In s (fst (_find_support_resistance df 20)) ->
        In r (snd (_find_support_resistance df 20)) ->
        s < r).
Proof.
  intros Hclaim. specialize (Hclaim Samples.step_series 10 2).
  assert (E : _find_support_resistance Samples.step_series 20 = ([1; 10], [20; 2]))
    by (vm_compute; reflexivity).
  rewrite E in Hclaim. cbn [fst snd In] in Hclaim.
  assert (Habsurd : 10 < 2) by (apply Hclaim; auto).
  discriminate Habsurd.
Qed.

(** C8 (amended).  The support list is strictly ascending and the
    resistance list strictly descending, so each is sorted and free of
    duplicates; each holds at most 5 levels; every support level is the
    low of a bar inside the loop range that equals the rolling minimum of
    its centred window, and every resistance level the high of such a bar
    that equals the rolling maximum. *)
Theorem support_resistance_sorted_capped :
  forall (df : list Bar) (window : nat),
    let support := fst (_find_support_resistance df window) in
    let resistance := snd (_find_support_resistance df window) in
    StronglySorted Qlt support /\
    StronglySorted (fun x y => y < x) resistance /\
    (length support <= 5)%nat /\
    (length resistance <= 5)%nat /\
    (forall s, In s support ->
       exists i, (window <= i < length df - window)%nat /\
                 local_extreme min low window df i s) /\
    (forall r, In r resistance ->
       exists i, (window <= i < length df - window)%nat /\
                 local_extreme max high window df i r).
Proof.
  intros df window support resistance. subst support resistance.
  rewrite find_support_resistance_unfold. cbv zeta. cbn [fst snd].
  pose proof (sr_fold_levels df window (seq window (length df - window - window))
                ([], [])) as Hlevels.
  cbv zeta in Hlevels. destruct Hlevels as [Hres Hsup].
  set (out := foldl _ _ _) in *.
  split; [| split; [| split; [| split; [| split]]]].
  - apply StronglySorted_take. exact (sorted_set_list_strictly false (snd out)).
  - apply StronglySorted_take. exact (sorted_set_list_strictly true (fst out)).
  - rewrite length_take. lia.
  - rewrite length_take. lia.
  - intros s Hs. apply in_take, in_sorted, in_set_list in Hs.
    destruct (Hsup s Hs) as [[] | (i & Hi & Hext)].
    exists i. split; [| assumption]. apply in_seq in Hi. lia.
  - intros r Hr. apply in_take, in_sorted, in_set_list in Hr.
    destruct (Hres r Hr) as [[] | (i & Hi & Hext)].
    exists i. split; [| assumption]. apply in_seq in Hi. lia.
Qed.

End SupportResistance.

Lemma support_resistance_sorted_capped_witness :
  exists i : nat,
    (20 <= i < length Samples.step_series - 20)%nat /\
    Stated.local_extreme Py.min DataFetcher.low 20 Samples.step_series i 10.
Proof.
  destruct (support_resistance_sorted_capped Samples.step_series 20)
    as (_ & _ & _ & _ & Hsupport & _).
  apply Hsupport. vm_compute. auto.
Defined.

Section Analysis.
Import Py.
Import DataFetcher.
Import TechnicalAnalyzer.
Context `{TaLib}.

(** C9.  With fewer than 50 bars [analyze] raises the insufficient-data
    error; with 50 bars or more it returns a result and does not raise,
    whatever the indicator library does: its indicators, signals and
    trend are those of the three helpers, which fall back to empty
    dictionaries and to the trend "unknown" when the library raises. *)
Theorem analyze_minimum_history :
  forall (symbol : string) (data : list Bar),
    ((length data < 50)%nat ->
     analyze symbol (Ok data)
     = Raise (ValueError ("Insufficient data for technical analysis of " +:+ symbol))) /\
    ((50 <= length data)%nat ->
     exists result : TechnicalResult,
       analyze symbol (Ok data) = Ok result /\
       indicators result = _calculate_indicators data /\
       signals result = _generate_signals data (_calculate_indicators data) /\
       (trend result, strength result)
       = _determine_trend data (_calculate_indicators data) /\
       (support_levels result, resistance_levels result)
       = _find_support_resistance data 20).
Proof.
  intros symbol data. split; intros Hlen; unfold analyze.
  - apply Nat.ltb_lt in Hlen. now rewrite Hlen.
  - apply Nat.ltb_ge in Hlen. rewrite Hlen.
    destruct (_find_support_resistance data 20) as [sup res].
    destruct (_determine_trend data (_calculate_indicators data)) as [t st].
    eexists. split; [reflexivity |]. repeat split; reflexivity.
Qed.

End Analysis.

Lemma analyze_minimum_history_witness :
  TechnicalAnalyzer.analyze (H := Samples.ta_failing) "BTCUSDT" (Py.Ok Samples.short_series)
  = Py.Raise (Py.ValueError "Insufficient data for technical analysis of BTCUSDT") /\
  exists result : TechnicalAnalyzer.TechnicalResult,
    TechnicalAnalyzer.analyze (H := Samples.ta_failing) "BTCUSDT" (Py.Ok Samples.step_series)
    = Py.Ok result /\
    TechnicalAnalyzer.indicators result = ∅ /\
    TechnicalAnalyzer.trend result = "unknown".
Proof.
  destruct (@analyze_minimum_history Samples.ta_failing "BTCUSDT" Samples.short_series)
    as [Hshort _].
  destruct (@analyze_minimum_history Samples.ta_failing "BTCUSDT" Samples.step_series)
    as [_ Hlong].
  split.
  - apply Hshort. vm_compute. lia.
  - destruct Hlong as (result & Hrun & Hind & _ & Htrend & _).
    + vm_compute. lia.
    + exists result. split; [exact Hrun |]. split; [exact Hind |].
      now inversion Htrend.
Defined.

(** ** The recommendation under each risk profile *)

Section Profiles.
Import Py.
Import RecommendationEngine.
Context `{NumPy}.

(** The technical score never leaves [-0.3, 0.3]. *)
Lemma technical_score_range (technical_data : TechnicalAnalyzer.TechnicalResult) :
  -0.3 <= _calculate_technical_score technical_data <= 0.3.
Proof.
  rewrite technical_score_table. unfold ScoreTable.technical_score.
  pose proof (total_points_bound technical_data) as Hb.
  change (inject_Z (Z.of_nat ScoreTable.evaluated_factors)) with 5.
  split; [apply Qle_shift_div_l | apply Qle_shift_div_r]; lra.
Qed.

(** The three component scores of inputs within their ranges. *)
Lemma component_scores_range (analysis_data : AnalysisData) (config : RiskConfig) :
  Ranges.tanh_bounded H ->
  Ranges.inputs_in_range analysis_data ->
  let s := _calculate_recommendation_scores analysis_data config in
  (-1 <= sentiment_score s <= 1) /\
  (-0.3 <= technical_score s <= 0.3) /\
  (-1 <= prediction_score s <= 1) /\
  overall_score s
  = sentiment_score s * sentiment_weight config
    + technical_score s * technical_weight config
    + prediction_score s * prediction_weight config.
Proof.
  intros Htanh [Hs Hf] s. subst s. unfold _calculate_recommendation_scores.
  cbn [sentiment_score technical_score prediction_score overall_score].
  split; [| split; [| split; [| reflexivity]]].
  - destruct (sentiment analysis_data) as [sd |]; [| lra].
    destruct (Hs sd eq_refl) as [Hscore Hconf]. nra.
  - destruct (technical analysis_data) as [td |]; [| lra].
    apply technical_score_range.
  - destruct (prediction analysis_data) as [pd |]; [| lra].
    unfold _calculate_prediction_score.
    pose proof (Hf pd eq_refl) as Hc. unfold Ranges.forecast_in_range in Hc.
    pose proof (Htanh (PricePredictor.prediction_change_percent pd / 10.0)). nra.
Qed.

(** X1.  Under the risk level "low" no buy and no sell is ever produced:
    with sentiment score in [-1, 1], sentiment and forecast confidence in
    [0, 1] and [tanh] in [-1, 1], the overall score stays within
    [-0.65, 0.65], the confidence stays below the profile's 0.8, and the
    recommendation is a hold with confidence 0.5 and no price targets,
    whatever the tasks returned. *)
Theorem low_risk_never_trades :
  forall (symbol : string)
         (r_sentiment : result SentimentAnalyzer.SentimentRecord)
         (r_prediction : result PricePredictor.ForecastRecord)
         (r_technical : result TechnicalAnalyzer.TechnicalResult)
         (r_price : result DataFetcher.PriceData)
         (r_ticker : result (list DataFetcher.Ticker))
         (rec : Recommendation),
    Ranges.tanh_bounded H ->
    Ranges.inputs_in_range
      (_gather_analysis_data r_sentiment r_prediction r_technical r_price r_ticker) ->
    generate_recommendation symbol "low" r_sentiment r_prediction r_technical
                            r_price r_ticker = Ok rec ->
    -0.65 <= overall_score (scores rec) <= 0.65 /\
    action rec = hold /\ confidence rec = 0.5 /\
    target_price rec = None /\ stop_loss rec = None.
Proof.
  intros symbol r_s r_p r_t r_pr r_tk rec Htanh Hin Hrun.
  unfold generate_recommendation in Hrun.
  change (risk_configs !! "low") with (Some risk_low) in Hrun.
  injection Hrun as <-.
  set (ad := _gather_analysis_data r_s r_p r_t r_pr r_tk) in *.
  destruct (component_scores_range ad risk_low Htanh Hin) as (Hs & Ht & Hp & Ho).
  cbv zeta in Hs, Ht, Hp, Ho.
  set (sc := _calculate_recommendation_scores ad risk_low) in *.
  rewrite final_scores.
  cbn [sentiment_weight technical_weight prediction_weight risk_low] in Ho.
  assert (Hrange : -0.65 <= overall_score sc <= 0.65) by (rewrite Ho; lra).
  pose proof (final_action_confidence symbol ad sc risk_low) as Hac.
  pose proof (hold_has_no_targets symbol ad sc risk_low) as Hhold.
  cbn [min_confidence risk_low] in Hac.
  assert (Hlt : ltb (min 0.95 (Qabs (overall_score sc) + 0.1)) 0.8 = true).
  { apply ltb_lt. rewrite py_min_Qmin.
    pose proof (Q.le_min_r 0.95 (Qabs (overall_score sc) + 0.1)).
    destruct (Qabs_cases (overall_score sc)) as [[_ Ha] | [_ Ha]]; lra. }
  rewrite Hlt in Hac. injection Hac as Ha Hc.
  destruct (Hhold Ha). auto.
Qed.

End Profiles.

Lemma numpy_rational_tanh_bounded : Ranges.tanh_bounded Samples.numpy_rational.
Proof.
  intros x. cbn [np_tanh Samples.numpy_rational].
  assert (Hpos : 0 < 1 + Qabs x) by (pose proof (Qabs_nonneg x); lra).
  split.
  - apply Qle_shift_div_l; [assumption |].
    destruct (Qabs_cases x) as [[Hs Ha] | [Hs Ha]]; rewrite Ha; lra.
  - apply Qle_shift_div_r; [assumption |].
    destruct (Qabs_cases x) as [[Hs Ha] | [Hs Ha]]; rewrite Ha; lra.
Qed.

Lemma low_risk_never_trades_witness :
  exists rec : RecommendationEngine.Recommendation,
    RecommendationEngine.generate_recommendation (H := Samples.numpy_rational)
      "BTCUSDT" "low" (Py.Raise (Py.Exception "news")) (Py.Ok Samples.forecast_up)
      (Py.Ok Samples.all_bullish) (Py.Raise (Py.Exception "price")) (Py.Ok [])
    = Py.Ok rec /\
    RecommendationEngine.action rec = RecommendationEngine.hold /\
    RecommendationEngine.confidence rec = 0.5.
Proof.
  destruct (RecommendationEngine.generate_recommendation (H := Samples.numpy_rational)
              "BTCUSDT" "low" (Py.Raise (Py.Exception "news")) (Py.Ok Samples.forecast_up)
              (Py.Ok Samples.all_bullish) (Py.Raise (Py.Exception "price")) (Py.Ok []))
    as [rec | e] eqn:Hrun; [| discriminate Hrun].
  exists rec. split; [reflexivity |].
  destruct (@low_risk_never_trades Samples.numpy_rational
              "BTCUSDT" (Py.Raise (Py.Exception "news")) (Py.Ok Samples.forecast_up)
              (Py.Ok Samples.all_bullish) (Py.Raise (Py.Exception "price")) (Py.Ok [])
              rec numpy_rational_tanh_bounded) as (_ & Ha & Hc & _);
    [| exact Hrun | auto].
  split.
  - intros s [=].
  - intros f [= <-]. vm_compute. split; discriminate.
Defined.

Section Targets.
Import Py.
Import RecommendationEngine.
Context `{NumPy}.

Variables (symbol : string) (analysis_data : AnalysisData).
Variables (scores : Scores) (config : RiskConfig).

Let r : Recommendation :=
  _generate_final_recommendation symbol analysis_data scores config.

(** Target price and stop-loss of the result, by its action and the
    current price. *)
Lemma final_targets :
  (target_price r, stop_loss r) =
    match price analysis_data with
    | Some price_data =>
        let p := DataFetcher.price price_data in
        if action_eqb (action r) buy && truthy p then
          (Some (p * (1 + take_profit_percent config)),
           Some (p * (1 - stop_loss_percent config)))
        else if action_eqb (action r) sell && truthy p then
          (Some (p * (1 - take_profit_percent config)),
           Some (p * (1 + stop_loss_percent config)))
        else (None, None)
    | None => (None, None)
    end.
Proof.
  subst r. unfold _generate_final_recommendation.
  destruct (ltb _ (min_confidence config));
    [| destruct (ltb 0.3 _); [| destruct (ltb _ (-0.3))]];
    destruct (price analysis_data) as [pd |]; cbn; try reflexivity;
    destruct (truthy (DataFetcher.price pd)); reflexivity.
Qed.

(** The risk/reward ratio of the result, by its price targets. *)
Lemma final_risk_reward :
  risk_reward_ratio r =
    match price analysis_data, target_price r, stop_loss r with
    | Some price_data, Some t, Some s =>
        if truthy (DataFetcher.price price_data) && truthy t && truthy s
        then _calculate_risk_reward_ratio (DataFetcher.price price_data) t s
        else None
    | _, _, _ => None
    end.
Proof.
  subst r. unfold _generate_final_recommendation.
  destruct (ltb _ (min_confidence config));
    [| destruct (ltb 0.3 _); [| destruct (ltb _ (-0.3))]];
    destruct (price analysis_data) as [pd |]; cbn; try reflexivity;
    destruct (truthy (DataFetcher.price pd)); reflexivity.
Qed.

End Targets.

Lemma truthy_nonzero (x : Q) : Py.truthy x = true <-> ~ x == 0.
Proof.
  unfold Py.truthy. rewrite negb_true_iff. apply eqb_neq.
Qed.

Lemma action_eqb_eq (a b : RecommendationEngine.Action) :
  RecommendationEngine.action_eqb a b = true <-> a = b.
Proof. destruct a, b; cbn; split; congruence. Qed.

Section TargetRules.
Import Py.
Import RecommendationEngine.
Context `{NumPy}.

(** X2.  The thresholds that decide the action.  A buy needs an overall
    score above 0.3 and a sell one below -0.3.  A profile whose
    [min_confidence] exceeds 0.95 only ever holds; under any other
    profile a score above 0.3 that reaches [min_confidence] is a buy and
    a score below -0.3 that reaches [-min_confidence] is a sell.  Under
    "high" the action is buy exactly above 0.3 and sell exactly below
    -0.3.  Under "low" a score above 0.7 is a buy, one below -0.7 a sell,
    and one of magnitude below 0.7 a hold with confidence 0.5.  Under
    "medium" a score of at least 0.5 is a buy, one of at most -0.5 a
    sell, and one of magnitude at most 0.49 a hold with confidence 0.5;
    between 0.49 and 0.5 the rounding of [abs(overall_score) + 0.1]
    decides. *)
Theorem effective_action_thresholds :
  forall (symbol : string) (analysis_data : AnalysisData) (scores : Scores)
         (config : RiskConfig),
    let o := overall_score scores in
    let r := _generate_final_recommendation symbol analysis_data scores config in
    (action r = buy -> 0.3 < o) /\
    (action r = sell -> o < -0.3) /\
    (0.95 < min_confidence config -> action r = hold /\ confidence r = 0.5) /\
    (min_confidence config <= 0.95 ->
       (0.3 < o -> min_confidence config <= o -> action r = buy) /\
       (o < -0.3 -> o <= - min_confidence config -> action r = sell)) /\
    (config = risk_high -> (action r = buy <-> 0.3 < o) /\ (action r = sell <-> o < -0.3)) /\
    (config = risk_low ->
       (0.7 < o -> action r = buy) /\
       (o < -0.7 -> action r = sell) /\
       (Qabs o < 0.7 -> action r = hold /\ confidence r = 0.5)) /\
    (config = risk_medium ->
       (0.5 <= o -> action r = buy) /\
       (o <= -0.5 -> action r = sell) /\
       (Qabs o <= 0.49 -> action r = hold /\ confidence r = 0.5)).
Proof.
  intros symbol analysis_data scores config o r.
  pose proof (final_action_confidence symbol analysis_data scores config) as Hac.
  fold o in Hac. fold r in Hac.
  pose proof (py_min_Qmin 0.95 (Qabs o + 0.1)) as Hmin.
  assert (Hdir : (action r = buy -> 0.3 < o) /\ (action r = sell -> o < -0.3)).
  { case_ltb (min 0.95 (Qabs o + 0.1)) (min_confidence config);
      [injection Hac as Ha _; rewrite Ha; split; discriminate |].
    case_ltb 0.3 o; [| case_ltb o (-0.3)];
      injection Hac as Ha _; rewrite Ha;
      (split; intros Hx; try discriminate Hx; lra). }
  assert (Hforced : min 0.95 (Qabs o + 0.1) < min_confidence config ->
                    action r = hold /\ confidence r = 0.5).
  { intros Hlt. apply ltb_lt in Hlt. rewrite Hlt in Hac. now injection Hac. }
  assert (Hgen : min_confidence config <= 0.95 ->
     (action r = buy <-> 0.3 < o /\ min_confidence config - 0.1 <= o) /\
     (action r = sell <-> o < -0.3 /\ o <= - (min_confidence config - 0.1))).
  { intros Hmc.
    destruct (Q.min_spec 0.95 (Qabs o + 0.1)) as [[Hlt Hm] | [Hle Hm]];
      rewrite Hm in Hmin;
      destruct (Qabs_cases o) as [[Hsign Habs] | [Hsign Habs]];
      case_ltb (min 0.95 (Qabs o + 0.1)) (min_confidence config);
      try (case_ltb 0.3 o; [| case_ltb o (-0.3)]);
      injection Hac as Ha Hc; rewrite Ha;
      (split; (split; [intros Hx; try discriminate Hx; lra
                      | intros [Hx1 Hx2]; try reflexivity; lra])). }
  assert (Hmagnitude : Qabs o + 0.1 < min_confidence config ->
                       action r = hold /\ confidence r = 0.5).
  { intros Hlt. apply Hforced. rewrite Hmin.
    destruct (Q.min_spec 0.95 (Qabs o + 0.1)) as [[? ->] | [? ->]]; lra. }
  destruct Hdir as [Hbuy Hsell].
  split; [exact Hbuy |]. split; [exact Hsell |].
  split; [| split; [| split; [| split]]].
  - intros Hmc. apply Hforced. rewrite Hmin.
    pose proof (Q.le_min_l 0.95 (Qabs o + 0.1)). lra.
  - intros Hmc. destruct (Hgen Hmc) as [Hb Hs].
    split; intros ? ?; [apply Hb | apply Hs]; split; lra.
  - intros Hcfg. rewrite Hcfg in Hgen. cbn [min_confidence risk_high] in Hgen.
    destruct Hgen as [Hb Hs]; [lra |]. rewrite Hb, Hs.
    split; (split; [intros [? ?]; lra | intros ?; split; lra]).
  - intros Hcfg. rewrite Hcfg in Hgen, Hmagnitude.
    cbn [min_confidence risk_low] in Hgen, Hmagnitude.
    destruct Hgen as [Hb Hs]; [lra |].
    split; [intros ?; apply Hb; split; lra |].
    split; [intros ?; apply Hs; split; lra |].
    intros ?. apply Hmagnitude. lra.
  - intros Hcfg. rewrite Hcfg in Hgen, Hmagnitude.
    cbn [min_confidence risk_medium] in Hgen, Hmagnitude.
    destruct Hgen as [Hb Hs]; [lra |].
    split; [intros ?; apply Hb; split; lra |].
    split; [intros ?; apply Hs; split; lra |].
    intros ?. apply Hmagnitude. lra.
Qed.

End TargetRules.

Lemma effective_action_thresholds_witness :
  RecommendationEngine.action
    (RecommendationEngine._generate_final_recommendation (H := Samples.numpy_rational)
       "BTCUSDT" Samples.price_only (Samples.scores_overall 0.75)
       RecommendationEngine.risk_low)
  = RecommendationEngine.buy.
Proof.
  destruct (@effective_action_thresholds Samples.numpy_rational "BTCUSDT"
              Samples.price_only (Samples.scores_overall 0.75)
              RecommendationEngine.risk_low) as (_ & _ & _ & _ & _ & Hlow & _).
  destruct (Hlow eq_refl) as [Hbuy _]. apply Hbuy. reflexivity.
Defined.

Section TargetProperties.
Import Py.
Import RecommendationEngine.
Context `{NumPy}.

(** X3.  Price targets exist exactly for a buy or a sell on a known,
    non-zero current price, and always as a pair.  With a positive price
    and positive percentages a buy has its stop-loss below and its target
    above the current price, [price * (1 - stop_loss_percent)] and
    [price * (1 + take_profit_percent)]; a sell has them mirrored. *)
Theorem price_targets_bracket_price :
  forall (symbol : string) (analysis_data : AnalysisData) (scores : Scores)
         (config : RiskConfig),
    let r := _generate_final_recommendation symbol analysis_data scores config in
    (is_Some (target_price r) <-> is_Some (stop_loss r)) /\
    (is_Some (target_price r) <->
       action r <> hold /\
       exists price_data, price analysis_data = Some price_data /\
                          ~ DataFetcher.price price_data == 0) /\
    (forall price_data,
        price analysis_data = Some price_data ->
        0 < DataFetcher.price price_data ->
        0 < take_profit_percent config -> 0 < stop_loss_percent config ->
        let p := DataFetcher.price price_data in
        (action r = buy ->
           target_price r = Some (p * (1 + take_profit_percent config)) /\
           stop_loss r = Some (p * (1 - stop_loss_percent config)) /\
           p * (1 - stop_loss_percent config) < p < p * (1 + take_profit_percent config)) /\
        (action r = sell ->
           target_price r = Some (p * (1 - take_profit_percent config)) /\
           stop_loss r = Some (p * (1 + stop_loss_percent config)) /\
           p * (1 - take_profit_percent config) < p < p * (1 + stop_loss_percent config))).
Proof.
  intros symbol analysis_data scores config r.
  pose proof (final_targets symbol analysis_data scores config) as Ht. fold r in Ht.
  split; [| split].
  - destruct (price analysis_data) as [pd |]; [| injection Ht as -> ->; split; intros [? [=]]].
    cbv zeta in Ht.
    destruct (action_eqb (action r) buy && truthy (DataFetcher.price pd));
      [| destruct (action_eqb (action r) sell && truthy (DataFetcher.price pd))];
      injection Ht as -> ->; split; intros [? Hx]; try discriminate Hx; eauto.
  - destruct (price analysis_data) as [pd |].
    + cbv zeta in Ht. destruct (action r) eqn:Ha; cbn [action_eqb andb] in Ht;
        destruct (truthy (DataFetcher.price pd)) eqn:Hp; injection Ht as -> _;
        (split; [intros [? Hx]; try discriminate Hx | intros (Hne & pd' & [= <-] & Hnz)]);
        try (apply truthy_nonzero in Hp);
        try (apply not_true_iff_false in Hp; rewrite truthy_nonzero in Hp);
        try (split; [discriminate | eauto]); try eauto; try contradiction;
        try congruence.
    + injection Ht as -> _. split; [intros [? [=]] | intros (_ & pd & [=] & _)].
  - intros pd Hpd Hpos Htp Hsl p. subst p. rewrite Hpd in Ht. cbv zeta in Ht.
    assert (Htruthy : truthy (DataFetcher.price pd) = true)
      by (apply truthy_nonzero; lra).
    rewrite Htruthy in Ht.
    split; intros Ha; rewrite Ha in Ht; cbn [action_eqb andb] in Ht;
      injection Ht as -> ->; (split; [reflexivity | split; [reflexivity | split; nra]]).
Qed.

(** X5.  The confidence of a recommendation is either the forced 0.5 or
    at least the profile's [min_confidence], and always within
    [0.1, 0.95]. *)
Theorem recommendation_confidence_range :
  forall (symbol : string) (analysis_data : AnalysisData) (scores : Scores)
         (config : RiskConfig),
    let r := _generate_final_recommendation symbol analysis_data scores config in
    0.1 <= confidence r <= 0.95 /\
    (confidence r = 0.5 /\ action r = hold \/ min_confidence config <= confidence r).
Proof.
  intros symbol analysis_data scores config r.
  pose proof (final_action_confidence symbol analysis_data scores config) as Hac.
  fold r in Hac.
  pose proof (py_min_Qmin 0.95 (Qabs (overall_score scores) + 0.1)) as Hmin.
  pose proof (Qabs_nonneg (overall_score scores)) as Habs.
  case_ltb (min 0.95 (Qabs (overall_score scores) + 0.1)) (min_confidence config);
    injection Hac as Ha Hc; rewrite Hc.
  - split; [lra | now left].
  - split; [| now right]. rewrite Hmin.
    destruct (Q.min_spec 0.95 (Qabs (overall_score scores) + 0.1)) as [[? ->] | [? ->]];
      lra.
Qed.

(** X6.  [generate_recommendation] fails exactly for a risk level other
    than "low", "medium" and "high", with the error "Invalid risk level",
    and then whatever the five tasks returned; for the three levels it
    returns a recommendation. *)
Theorem invalid_risk_level_rejected :
  forall (symbol risk_level : string)
         (r_sentiment : result SentimentAnalyzer.SentimentRecord)
         (r_prediction : result PricePredictor.ForecastRecord)
         (r_technical : result TechnicalAnalyzer.TechnicalResult)
         (r_price : result DataFetcher.PriceData)
         (r_ticker : result (list DataFetcher.Ticker)),
    let outcome := generate_recommendation symbol risk_level r_sentiment r_prediction
                                           r_technical r_price r_ticker in
    (is_ok outcome = true <->
       risk_level = "low" \/ risk_level = "medium" \/ risk_level = "high") /\
    (is_ok outcome = false ->
       outcome = Raise (ValueError ("Invalid risk level: " +:+ risk_level))).
Proof.
  intros symbol risk_level r_s r_p r_t r_pr r_tk outcome. subst outcome.
  unfold generate_recommendation.
  destruct (risk_configs !! risk_level) as [config |] eqn:Hcfg; cbn [is_ok].
  - split; [| discriminate]. split; [intros _ | reflexivity].
    unfold risk_configs in Hcfg.
    repeat (apply lookup_insert_Some in Hcfg as [[<- _] | [_ Hcfg]]; [auto |]).
    now rewrite lookup_empty in Hcfg.
  - split; [| reflexivity]. split; [discriminate |].
    intros [-> | [-> | ->]]; vm_compute in Hcfg; discriminate.
Qed.

End TargetProperties.

Lemma price_targets_bracket_price_witness :
  let r := RecommendationEngine._generate_final_recommendation
             (H := Samples.numpy_rational) "BTCUSDT" Samples.price_only
             (Samples.scores_overall 0.75) RecommendationEngine.risk_low in
  RecommendationEngine.target_price r = Some (100 * (1 + 0.1)) /\
  RecommendationEngine.stop_loss r = Some (100 * (1 - 0.05)).
Proof.
  destruct (@price_targets_bracket_price Samples.numpy_rational "BTCUSDT"
              Samples.price_only (Samples.scores_overall 0.75)
              RecommendationEngine.risk_low) as (_ & _ & Htargets).
  destruct (Htargets {| DataFetcher.symbol := "BTCUSDT"; DataFetcher.price := 100;
                        DataFetcher.timestamp := 0 |})
    as [Hbuy _]; try reflexivity.
  destruct Hbuy as (Ht & Hs & _); [reflexivity |].
  split; assumption.
Defined.

Lemma invalid_risk_level_rejected_witness :
  RecommendationEngine.generate_recommendation (H := Samples.numpy_rational)
    "BTCUSDT" "extreme" (Py.Raise (Py.Exception "news")) (Py.Ok Samples.forecast_up)
    (Py.Ok Samples.all_bullish) (Py.Raise (Py.Exception "price")) (Py.Ok [])
  = Py.Raise (Py.ValueError "Invalid risk level: extreme").
Proof.
  destruct (@invalid_risk_level_rejected Samples.numpy_rational "BTCUSDT" "extreme"
              (Py.Raise (Py.Exception "news")) (Py.Ok Samples.forecast_up)
              (Py.Ok Samples.all_bullish) (Py.Raise (Py.Exception "price")) (Py.Ok []))
    as [_ Hfails].
  apply Hfails. reflexivity.
Defined.

Section HorizonProperties.
Import Py.
Import RecommendationEngine.

(** X7.  The time horizon is "short-term" or "medium-term" and does not
    depend on the action; a sentiment confidence above 0.8 makes it
    "medium-term" whatever the technical analysis says, and without
    technical analysis it is "medium-term" only in that case. *)
Theorem time_horizon_rules :
  forall (analysis_data : AnalysisData) (action : Action),
    let horizon := _determine_time_horizon analysis_data action in
    (horizon = "short-term" \/ horizon = "medium-term") /\
    (forall other : Action, _determine_time_horizon analysis_data other = horizon) /\
    (forall s, sentiment analysis_data = Some s ->
               0.8 < SentimentAnalyzer.confidence s -> horizon = "medium-term") /\
    (technical analysis_data = None ->
       (horizon = "medium-term" <->
        exists s, sentiment analysis_data = Some s /\
                  0.8 < SentimentAnalyzer.confidence s)).
Proof.
  intros analysis_data action horizon. subst horizon.
  unfold _determine_time_horizon. cbv zeta.
  split; [| split; [reflexivity | split]].
  - destruct (technical analysis_data) as [td |];
      destruct (sentiment analysis_data) as [sd |];
      repeat match goal with
             | |- context [if ?b then _ else _] => destruct b
             end; auto.
  - intros s Hs Hconf. rewrite Hs. apply ltb_lt in Hconf. rewrite Hconf.
    destruct (technical analysis_data); reflexivity.
  - intros Htech. rewrite Htech.
    destruct (sentiment analysis_data) as [sd |].
    + case_ltb 0.8 (SentimentAnalyzer.confidence sd).
      * split; [eauto | reflexivity].
      * split; [discriminate |]. intros (s & [= <-] & Hs). lra.
    + split; [discriminate |]. intros (s & [=] & _).
Qed.

End HorizonProperties.

(** ** The forecast cache and the forecast record *)

Section ForecastInvariants.
Import Py.
Import PricePredictor.
Context `{Predictor}.

Implicit Types (prediction_cache : gmap string (ForecastRecord * Q)).
Implicit Types (symbol timeframe : string) (features : Features).

(** Python's [min] and [max] pick one of their arguments. *)
Lemma py_min_cases (a b : Q) : (min a b = a /\ a <= b) \/ (min a b = b /\ b < a).
Proof. unfold min. case_ltb b a; auto. Qed.

Lemma py_max_cases (a b : Q) : (max a b = a /\ b <= a) \/ (max a b = b /\ a < b).
Proof. unfold max. case_ltb a b; auto. Qed.

Lemma prediction_confidence_clamped symbol timeframe features :
  0.1 <= _calculate_prediction_confidence symbol timeframe features <= 0.95.
Proof.
  unfold _calculate_prediction_confidence. cbv zeta.
  match goal with
  | |- _ <= max 0.1 (min 0.95 ?c) <= _ =>
      destruct (py_max_cases 0.1 (min 0.95 c)) as [[-> Hm] | [-> Hm]];
      [lra |];
      destruct (py_min_cases 0.95 c) as [[He Hn] | [He Hn]]; rewrite He in *; lra
  end.
Qed.

(** What [_make_prediction] does, case by case. *)
Lemma make_prediction_cases prediction_cache current_time symbol timeframe features :
  let key := symbol +:+ "_" +:+ timeframe in
  let outcome := _make_prediction prediction_cache current_time symbol timeframe features in
  (exists cached cache_time,
      prediction_cache !! key = Some (cached, cache_time) /\
      current_time - cache_time < dict_get cache_duration timeframe 300 /\
      outcome = (Ok cached, prediction_cache)) \/
  (exists e, run_model key features = Raise e /\ outcome = (Raise e, prediction_cache)) \/
  (exists prediction_actual result,
      run_model key features = Ok prediction_actual /\
      outcome = (Ok result, <[key := (result, current_time)]> prediction_cache) /\
      current_price result = close_last features /\
      predicted_price result =
        match prediction_cache !! key with
        | Some (cached, _) =>
            smooth timeframe (dampen timeframe (close_last features) prediction_actual)
                   (predicted_price cached)
        | None => dampen timeframe (close_last features) prediction_actual
        end /\
      prediction_change result = predicted_price result - current_price result /\
      confidence result =
        (if str_in timeframe ["4h"; "1d"; "7d"]
         then min 0.95 (_calculate_prediction_confidence symbol timeframe features * 1.1)
         else _calculate_prediction_confidence symbol timeframe features)).
Proof.
  cbv zeta. unfold _make_prediction. cbv zeta.
  destruct (prediction_cache !! (symbol +:+ "_" +:+ timeframe))
    as [[cached cache_time] |] eqn:Hlookup.
  - case_ltb (current_time - cache_time) (dict_get cache_duration timeframe 300).
    + left. eauto.
    + right. destruct (run_model _ features) as [p | e]; [right | left; eauto].
      eexists p, _. repeat split; reflexivity.
  - right. destruct (run_model _ features) as [p | e]; [right | left; eauto].
    eexists p, _. repeat split; reflexivity.
Qed.

(** X8.  Forecast confidences stay within [0.1, 0.95]: the base
    confidence is clamped to that interval, the boost for 4h, 1d and 7d
    keeps it there, and a cache whose records all satisfy the bound only
    ever yields and stores records that satisfy it. *)
Theorem forecast_confidence_invariant :
  (forall symbol timeframe features,
      0.1 <= _calculate_prediction_confidence symbol timeframe features <= 0.95) /\
  (forall prediction_cache current_time symbol timeframe features
          (result : ForecastRecord) (cache' : gmap string (ForecastRecord * Q)),
      map_Forall (fun _ entry => Ranges.forecast_confidence_clamped (fst entry))
                 prediction_cache ->
      _make_prediction prediction_cache current_time symbol timeframe features
      = (Ok result, cache') ->
      Ranges.forecast_confidence_clamped result /\
      map_Forall (fun _ entry => Ranges.forecast_confidence_clamped (fst entry)) cache').
Proof.
  split; [apply prediction_confidence_clamped |].
  intros prediction_cache current_time symbol timeframe features result cache' Hinv Hrun.
  destruct (make_prediction_cases prediction_cache current_time symbol timeframe features)
    as [(cached & t & Hlookup & _ & Hout) | [(e & _ & Hout)
        | (p & res & _ & Hout & _ & _ & _ & Hconf)]];
    cbv zeta in Hout; rewrite Hout in Hrun.
  - injection Hrun as <- <-. split; [| assumption].
    apply (Hinv _ _ Hlookup).
  - discriminate.
  - injection Hrun as <- <-.
    assert (Hres : Ranges.forecast_confidence_clamped res).
    { unfold Ranges.forecast_confidence_clamped. rewrite Hconf.
      pose proof (prediction_confidence_clamped symbol timeframe features) as Hc.
      destruct (str_in timeframe _); [| assumption].
      destruct (py_min_cases 0.95
                  (_calculate_prediction_confidence symbol timeframe features * 1.1))
        as [[-> Hn] | [-> Hn]]; lra. }
    split; [assumption |]. apply map_Forall_insert_2; assumption.
Qed.

(** X9.  A forecast touches at most the cache entry of its own key: the
    entries of all other keys are as before, a failed forecast and a cache
    hit leave the whole cache unchanged, and after a successful forecast
    the key maps to the returned record, stamped with the current time when
    it was recomputed. *)
Theorem forecast_cache_frame :
  forall prediction_cache current_time symbol timeframe features
         (outcome : result ForecastRecord) (cache' : gmap string (ForecastRecord * Q)),
    _make_prediction prediction_cache current_time symbol timeframe features
    = (outcome, cache') ->
    let key := symbol +:+ "_" +:+ timeframe in
    (forall other : string, other <> key -> cache' !! other = prediction_cache !! other) /\
    (is_ok outcome = false -> cache' = prediction_cache) /\
    (forall result, outcome = Ok result ->
       (cache' = prediction_cache /\
        exists cache_time, prediction_cache !! key = Some (result, cache_time) /\
                           current_time - cache_time < dict_get cache_duration timeframe 300) \/
       (cache' = <[key := (result, current_time)]> prediction_cache /\
        cache' !! key = Some (result, current_time))).
Proof.
  intros prediction_cache current_time symbol timeframe features outcome cache' Hrun key.
  destruct (make_prediction_cases prediction_cache current_time symbol timeframe features)
    as [(cached & t & Hlookup & Hage & Hout) | [(e & _ & Hout)
        | (p & res & _ & Hout & _)]];
    cbv zeta in Hout; rewrite Hout in Hrun; injection Hrun as <- <-.
  - split; [reflexivity |]. split; [reflexivity |].
    intros result [= <-]. left. split; [reflexivity |]. eauto.
  - split; [reflexivity |]. split; [reflexivity |]. intros result [=].
  - split; [intros other Hne; now apply lookup_insert_ne |].
    split; [discriminate |].
    intros result [= <-]. right. split; [reflexivity |]. apply lookup_insert_eq.
Qed.

End ForecastInvariants.

Lemma time_horizon_rules_witness :
  RecommendationEngine._determine_time_horizon Examples.price_and_sentiment
    RecommendationEngine.sell = "medium-term".
Proof.
  destruct (time_horizon_rules Examples.price_and_sentiment RecommendationEngine.sell)
    as (_ & _ & Hconfident & _).
  apply (Hconfident Examples.confident_sentiment); [reflexivity |].
  vm_compute. reflexivity.
Defined.

Lemma forecast_confidence_invariant_witness :
  exists (result : PricePredictor.ForecastRecord)
         (cache' : gmap string (PricePredictor.ForecastRecord * Q)),
    PricePredictor._make_prediction (H := Samples.predictor_fixed)
      Samples.cache_btc 100000 "BTCUSDT" "1d" Samples.step_series = (Py.Ok result, cache') /\
    Ranges.forecast_confidence_clamped result.
Proof.
  destruct (PricePredictor._make_prediction (H := Samples.predictor_fixed)
              Samples.cache_btc 100000 "BTCUSDT" "1d" Samples.step_series)
    as [[result | e] cache'] eqn:Hrun; [| discriminate Hrun].
  exists result, cache'. split; [reflexivity |].
  destruct (@forecast_confidence_invariant Samples.predictor_fixed) as [_ Hcache].
  destruct (Hcache Samples.cache_btc 100000 "BTCUSDT" "1d" Samples.step_series
              result cache') as [Hresult _]; [| exact Hrun | exact Hresult].
  unfold Samples.cache_btc. apply map_Forall_insert_2; [| apply map_Forall_empty].
  vm_compute. split; discriminate.
Defined.

Lemma forecast_cache_frame_witness :
  (PricePredictor._make_prediction (H := Samples.predictor_fixed)
     Samples.cache_btc 100000 "ETHUSDT" "1d" Samples.step_series).2 !! "BTCUSDT_1d"
  = Some (Samples.forecast_up, 0).
Proof.
  destruct (PricePredictor._make_prediction (H := Samples.predictor_fixed)
              Samples.cache_btc 100000 "ETHUSDT" "1d" Samples.step_series)
    as [outcome cache'] eqn:Hrun.
  destruct (@forecast_cache_frame Samples.predictor_fixed Samples.cache_btc 100000
              "ETHUSDT" "1d" Samples.step_series outcome cache' Hrun) as (Hother & _).
  cbn [snd]. rewrite Hother; [reflexivity | discriminate].
Defined.

Section ForecastBounds.
Import Py.
Import PricePredictor.
Context `{Predictor}.

Implicit Types (prediction_cache : gmap string (ForecastRecord * Q)).
Implicit Types (symbol timeframe : string) (features : Features).

(** X10.  A failed [predict_price] leaves the cache as it was.  An
    unconfigured timeframe, a failed history fetch and a history of fewer
    than 60 bars are rejected before the cache is consulted, so they fail
    even while a fresh forecast for the key is cached. *)
Theorem predict_price_failures :
  forall prediction_cache current_time symbol timeframe
         (historical : result (list DataFetcher.Bar))
         (outcome : result ForecastRecord) (cache' : gmap string (ForecastRecord * Q)),
    predict_price prediction_cache current_time symbol timeframe historical
    = (outcome, cache') ->
    (is_ok outcome = false -> cache' = prediction_cache) /\
    (timeframe_configs !! timeframe = None ->
       outcome = Raise (ValueError ("Unsupported timeframe: " +:+ timeframe))) /\
    (is_Some (timeframe_configs !! timeframe) ->
       forall e, historical = Raise e -> outcome = Raise e) /\
    (is_Some (timeframe_configs !! timeframe) ->
       forall historical_data,
         historical = Ok historical_data ->
         (length historical_data < 60)%nat ->
         outcome = Raise (ValueError ("Insufficient data for " +:+ symbol
                                      +:+ ". Need at least 60 periods."))).
Proof.
  intros prediction_cache current_time symbol timeframe historical outcome cache' Hrun.
  unfold predict_price in Hrun.
  destruct (timeframe_configs !! timeframe) as [config |] eqn:Hcfg.
  - split; [| split; [discriminate | split]].
    + destruct historical as [hd | e]; [| now injection Hrun as <- <-].
      destruct (length hd <? sequence_length)%nat; [now injection Hrun as <- <- |].
      destruct (prepare_features hd) as [features | e];
        [| now injection Hrun as <- <-].
      destruct (ensure_model _ hd) as [[] | e]; [| now injection Hrun as <- <-].
      destruct (make_prediction_cases prediction_cache current_time symbol timeframe
                  features)
        as [(cached & t & _ & _ & Hout) | [(e & _ & Hout) | (p & res & _ & Hout & _)]];
        cbv zeta in Hout; rewrite Hout in Hrun; injection Hrun as <- <-;
        [reflexivity | reflexivity | discriminate].
    + intros _ e ->. now injection Hrun as <- <-.
    + intros _ hd -> Hshort.
      assert (Hlen : (length hd <? sequence_length)%nat = true)
        by (apply Nat.ltb_lt; unfold sequence_length; lia).
      rewrite Hlen in Hrun. now injection Hrun as <- <-.
  - injection Hrun as <- <-.
    split; [reflexivity |]. split; [reflexivity |].
    split; intros [? [=]].
Qed.

(** The volatility factor of every timeframe, configured or not, lies in
    [0, 1]. *)
Lemma dampen_convex (timeframe : string) (current_price prediction_actual : Q) :
  exists factor : Q,
    0 <= factor <= 1 /\
    dampen timeframe current_price prediction_actual
    == current_price + (prediction_actual - current_price) * factor.
Proof.
  unfold dampen. cbv zeta.
  destruct (timeframe_configs !! timeframe) as [config |] eqn:Hcfg.
  - exists (volatility_factor config). split; [| reflexivity].
    unfold timeframe_configs in Hcfg.
    repeat (apply lookup_insert_Some in Hcfg as [[_ <-] | [_ Hcfg]];
            [cbn [volatility_factor]; lra |]).
    now rewrite lookup_empty in Hcfg.
  - exists 1.0. split; [lra | reflexivity].
Qed.

(** The dampened candidate is on the side of the current price on which
    the model's prediction is. *)
Lemma dampen_direction (timeframe : string) (current_price prediction_actual : Q) :
  (current_price <= prediction_actual ->
   current_price <= dampen timeframe current_price prediction_actual) /\
  (prediction_actual <= current_price ->
   dampen timeframe current_price prediction_actual <= current_price).
Proof.
  destruct (dampen_convex timeframe current_price prediction_actual)
    as (factor & Hf & ->).
  split; intros Hside; nra.
Qed.

(** The dampened candidate does not decrease when the model's prediction
    increases. *)
Lemma dampen_monotone (timeframe : string) (current_price p p' : Q) :
  p <= p' ->
  dampen timeframe current_price p <= dampen timeframe current_price p'.
Proof.
  intros Hp. unfold dampen. cbv zeta.
  destruct (timeframe_configs !! timeframe) as [config |] eqn:Hcfg; [| lra].
  assert (Hf : 0 <= volatility_factor config).
  { unfold timeframe_configs in Hcfg.
    repeat (apply lookup_insert_Some in Hcfg as [[_ <-] | [_ Hcfg]];
            [cbn [volatility_factor]; lra |]).
    now rewrite lookup_empty in Hcfg. }
  nra.
Qed.

(** X11.  The volatility dampening keeps the direction of the model's
    prediction: for every timeframe, configured or not, the dampened
    candidate is not below the current price when the model's prediction
    is not, and not above it when the prediction is not; and it does not
    decrease when the model's prediction increases.  A forecast computed
    without a cached predecessor therefore has its predicted price, and
    the sign of its [prediction_change], on the side of the current price
    on which the model's prediction is. *)
Theorem dampening_keeps_direction :
  (forall (timeframe : string) (current_price prediction_actual : Q),
      (current_price <= prediction_actual ->
       current_price <= dampen timeframe current_price prediction_actual) /\
      (prediction_actual <= current_price ->
       dampen timeframe current_price prediction_actual <= current_price)) /\
  (forall (timeframe : string) (current_price prediction_actual prediction_actual' : Q),
      prediction_actual <= prediction_actual' ->
      dampen timeframe current_price prediction_actual
      <= dampen timeframe current_price prediction_actual') /\
  (forall prediction_cache current_time symbol timeframe features
          (prediction_actual : Q),
      prediction_cache !! (symbol +:+ "_" +:+ timeframe) = None ->
      run_model (symbol +:+ "_" +:+ timeframe) features = Ok prediction_actual ->
      exists (result : ForecastRecord) (cache' : gmap string (ForecastRecord * Q)),
        _make_prediction prediction_cache current_time symbol timeframe features
        = (Ok result, cache') /\
        (close_last features <= prediction_actual ->
         close_last features <= predicted_price result /\
         0 <= prediction_change result) /\
        (prediction_actual <= close_last features ->
         predicted_price result <= close_last features /\
         prediction_change result <= 0)).
Proof.
  split; [apply dampen_direction |]. split; [apply dampen_monotone |].
  intros prediction_cache current_time symbol timeframe features prediction_actual
         Hnone Hmodel.
  destruct (make_prediction_cases prediction_cache current_time symbol timeframe features)
    as [(cached & t & Hl & _) | [(e & He & _)
        | (p & result & Hp & Hout & Hcurrent & Hprice & Hchange & _)]];
    cbv zeta in *; [congruence | congruence |].
  assert (p = prediction_actual) as -> by congruence.
  rewrite Hnone in Hprice.
  exists result. eexists. split; [exact Hout |].
  destruct (dampen_direction timeframe (close_last features) prediction_actual)
    as [Hup Hdown].
  rewrite Hchange, Hcurrent, Hprice.
  split; intros Hside; [specialize (Hup Hside) | specialize (Hdown Hside)];
    split; lra.
Qed.

End ForecastBounds.

Lemma predict_price_failures_witness :
  PricePredictor.predict_price (H := Samples.predictor_fixed)
    Samples.cache_btc 100 "BTCUSDT" "2h" (Py.Ok Samples.step_series)
  = (Py.Raise (Py.ValueError "Unsupported timeframe: 2h"), Samples.cache_btc).
Proof.
  destruct (PricePredictor.predict_price (H := Samples.predictor_fixed)
              Samples.cache_btc 100 "BTCUSDT" "2h" (Py.Ok Samples.step_series))
    as [outcome cache'] eqn:Hrun.
  destruct (@predict_price_failures Samples.predictor_fixed Samples.cache_btc 100
              "BTCUSDT" "2h" (Py.Ok Samples.step_series) outcome cache' Hrun)
    as (Hcache & Hunsupported & _).
  assert (Hout : outcome = Py.Raise (Py.ValueError "Unsupported timeframe: 2h"))
    by (apply Hunsupported; reflexivity).
  rewrite Hout in Hcache |- *. rewrite (Hcache eq_refl). reflexivity.
Defined.

Lemma dampening_keeps_direction_witness :
  exists (result : PricePredictor.ForecastRecord)
         (cache' : gmap string (PricePredictor.ForecastRecord * Q)),
    PricePredictor._make_prediction (H := Samples.predictor_fixed)
      ∅ 0 "BTCUSDT" "1d" Samples.step_series = (Py.Ok result, cache') /\
    100 <= PricePredictor.predicted_price result /\
    0 <= PricePredictor.prediction_change result.
Proof.
  destruct (@dampening_keeps_direction Samples.predictor_fixed) as (_ & _ & Hfresh).
  destruct (Hfresh ∅ 0 "BTCUSDT" "1d" Samples.step_series 110)
    as (result & cache' & Hrun & Hup & _); [reflexivity | reflexivity |].
  exists result, cache'. split; [exact Hrun |].
  apply Hup. vm_compute. discriminate.
Defined.

(** ** Ranges of the sentiment record *)

Section SentimentRanges.
Import Py.
Import SentimentAnalyzer.
Context `{NumPy}.

Lemma len_cons (x : Q) (xs : list Q) : len (x :: xs) == len xs + 1.
Proof.
  unfold len. cbn [length]. rewrite Nat2Z.inj_succ, <- Z.add_1_r, inject_Z_plus.
  reflexivity.
Qed.

Lemma len_nonneg (xs : list Q) : 0 <= len xs.
Proof.
  unfold len. change 0 with (inject_Z 0). rewrite <- Zle_Qle. lia.
Qed.

(** A sum of values between two bounds, from any starting value. *)
Lemma foldl_sum_between (lo hi : Q) (xs : list Q) :
  Forall (fun x => lo <= x <= hi) xs ->
  forall a : Q,
    a + lo * len xs <= foldl Qplus a xs <= a + hi * len xs.
Proof.
  induction 1 as [| x xs Hx Hxs IH]; intros a; cbn [foldl].
  - change (len []) with 0. lra.
  - specialize (IH (a + x)). rewrite len_cons.
    assert (Elo : lo * (len xs + 1) == lo * len xs + lo) by ring.
    assert (Ehi : hi * (len xs + 1) == hi * len xs + hi) by ring.
    rewrite Elo, Ehi. lra.
Qed.

(** The mean of a non-empty list lies between any two bounds of its
    elements. *)
Lemma mean_between (lo hi : Q) (xs : list Q) :
  xs <> [] ->
  Forall (fun x => lo <= x <= hi) xs ->
  lo <= mean xs <= hi.
Proof.
  intros Hne Hall. unfold mean, sum.
  pose proof (foldl_sum_between lo hi xs Hall 0) as Hsum.
  assert (Hpos : 0 < len xs).
  { destruct xs as [| x xs]; [contradiction |].
    rewrite len_cons. pose proof (len_nonneg xs). lra. }
  split; [apply Qle_shift_div_l | apply Qle_shift_div_r]; lra.
Qed.

(** The aggregate score of a non-empty list of results. *)
Lemma aggregate_score_between (lo hi : Q) (sentiment_results : list TextSentiment) :
  sentiment_results <> [] ->
  Forall (fun t => lo <= compound t <= hi) sentiment_results ->
  lo <= sentiment_score (_aggregate_sentiment_results sentiment_results) <= hi.
Proof.
  intros Hne Hall.
  destruct sentiment_results as [| t rest]; [contradiction |].
  cbn [_aggregate_sentiment_results sentiment_score].
  apply mean_between; [discriminate |].
  apply Forall_fmap. exact Hall.
Qed.

Lemma aggregate_confidence_range (sentiment_results : list TextSentiment) :
  0 <= confidence (_aggregate_sentiment_results sentiment_results) /\
  (Ranges.sqrt_nonneg H ->
   confidence (_aggregate_sentiment_results sentiment_results) <= 1).
Proof.
  destruct sentiment_results as [| t rest];
    cbn [_aggregate_sentiment_results confidence]; [split; [lra | intros _; lra] |].
  split.
  - match goal with
    | |- 0 <= max 0.0 ?c => destruct (py_max_cases 0.0 c) as [[-> ?] | [-> ?]]; lra
    end.
  - intros Hsqrt.
    pose proof (Hsqrt (mean ((fun x => (x - mean (compound <$> t :: rest))
                                      * (x - mean (compound <$> t :: rest)))
                             <$> (compound <$> t :: rest)))) as Hstd.
    fold (std (compound <$> t :: rest)) in Hstd.
    match goal with
    | |- max 0.0 ?c <= 1 => destruct (py_max_cases 0.0 c) as [[-> ?] | [-> ?]]
    end; [lra |].
    assert (std (compound <$> t :: rest) / 2.0 == std (compound <$> t :: rest) * (1 # 2))
      as -> by field.
    lra.
Qed.

(** X12.  The aggregate sentiment score lies within [-1, 1] when the
    compound scores it averages do; the confidence is never negative, and
    at most 1 as long as the standard deviation is not negative. *)
Theorem sentiment_record_in_range :
  forall sentiment_results : list TextSentiment,
    let r := _aggregate_sentiment_results sentiment_results in
    (Forall (fun t => -1 <= compound t <= 1) sentiment_results ->
     -1 <= sentiment_score r <= 1) /\
    0 <= confidence r /\
    (Ranges.sqrt_nonneg H -> confidence r <= 1).
Proof.
  intros sentiment_results r. subst r.
  split; [| apply aggregate_confidence_range].
  intros Hall. destruct sentiment_results as [| t rest] eqn:Hres.
  - cbn. lra.
  - apply aggregate_score_between; [discriminate | exact Hall].
Qed.

End SentimentRanges.

Lemma numpy_nonneg_sqrt : Ranges.sqrt_nonneg Examples.numpy_nonneg.
Proof.
  intros x. apply Qabs_nonneg.
Qed.

Lemma sentiment_record_in_range_witness :
  let r := SentimentAnalyzer._aggregate_sentiment_results (H := Examples.numpy_nonneg)
             Samples.mixed_texts in
  -1 <= SentimentAnalyzer.sentiment_score r <= 1 /\
  0 <= SentimentAnalyzer.confidence r <= 1.
Proof.
  destruct (@sentiment_record_in_range Examples.numpy_nonneg Samples.mixed_texts)
    as (Hscore & Hlow & Hhigh).
  split; [| split; [exact Hlow | exact (Hhigh numpy_nonneg_sqrt)]].
  apply Hscore.
  repeat constructor; vm_compute; discriminate.
Defined.

Section TextScores.
Import Py.
Import SentimentAnalyzer.
Import TextScoring.
Context `{NumPy} `{TextTools}.

(** The compound score of one text. *)
Lemma text_compound_in_range (text : string) :
  scorers_in_range _ ->
  -1 <= compound (scores (_analyze_text_sentiment text)) <= 1.
Proof.
  intros [Hv Hb]. unfold _analyze_text_sentiment. cbv zeta.
  destruct (String.eqb (_clean_text text) ""); [cbn; lra |].
  pose proof (Hv (_clean_text text)) as Hvader.
  destruct (textblob (_clean_text text)) as [[polarity subjectivity] | e] eqn:Hblob;
    cbn [scores compound].
  - pose proof (Hb _ _ _ Hblob). lra.
  - lra.
Qed.

(** X13.  With VADER's compound score and TextBlob's polarity in
    [-1, 1], every text scores a compound value in [-1, 1]: an empty text,
    or one that cleans to nothing, scores 0 with neutral 1, and when
    TextBlob fails the compound is 0.7 times VADER's.  The record
    [analyze_sentiment] builds from such scores has its score in [-1, 1]
    and, the standard deviation not being negative, its confidence in
    [0, 1], whatever texts were fetched. *)
Theorem analyzed_sentiment_in_range :
  scorers_in_range _ ->
  (forall text : string, -1 <= compound (scores (_analyze_text_sentiment text)) <= 1) /\
  (forall text : string,
      text = "" \/ regex_clean text = "" ->
      scores (_analyze_text_sentiment text)
      = {| compound := 0.0; positive := 0.0; negative := 0.0; neutral := 1.0 |}) /\
  (forall (text : string) (e : exn),
      _clean_text text <> "" ->
      textblob (_clean_text text) = Raise e ->
      compound (scores (_analyze_text_sentiment text))
      == 0.7 * vader_compound (vader (_clean_text text))) /\
  (Ranges.sqrt_nonneg _ ->
   forall (sources : option (list string)) (news_texts social_texts : list string),
     Ranges.sentiment_in_range
       (analyze_sentiment (fun text => scores (_analyze_text_sentiment text))
                          sources news_texts social_texts)).
Proof.
  intros Hrange.
  split; [intros text; now apply text_compound_in_range |].
  split; [| split].
  - intros text Hempty. unfold _analyze_text_sentiment. cbv zeta.
    assert (Hclean : _clean_text text = "").
    { unfold _clean_text. destruct Hempty as [-> | Hc]; [reflexivity |].
      destruct (String.eqb text ""); [reflexivity | exact Hc]. }
    now rewrite Hclean.
  - intros text e Hne Hblob. unfold _analyze_text_sentiment. cbv zeta.
    apply String.eqb_neq in Hne. rewrite Hne, Hblob. cbn [scores compound]. ring.
  - intros Hsqrt sources news_texts social_texts.
    unfold analyze_sentiment. cbv zeta.
    set (texts := (if str_in "news" _ then news_texts else [])
                  ++ (if str_in "social" _ then social_texts else [])).
    destruct texts as [| text rest] eqn:Htexts.
    + unfold Ranges.sentiment_in_range. cbn. lra.
    + set (results := (fun text0 => scores (_analyze_text_sentiment text0))
                      <$> text :: rest).
      destruct (aggregate_confidence_range results) as [Hc0 Hc1].
      unfold Ranges.sentiment_in_range. cbn [sentiment_score confidence].
      split; [| split; [exact Hc0 | exact (Hc1 Hsqrt)]].
      apply aggregate_score_between; [discriminate |].
      subst results. apply Forall_fmap, Forall_forall.
      intros t _. now apply text_compound_in_range.
Qed.

End TextScores.

Lemma analyzed_sentiment_in_range_witness :
  Ranges.sentiment_in_range
    (SentimentAnalyzer.analyze_sentiment (H := Examples.numpy_nonneg)
       (fun text =>
          TextScoring.scores
            (TextScoring._analyze_text_sentiment (H := Examples.text_tools_fixed) text))
       (Some ["news"]) ["Bitcoin rallies"; ""] ["ignored"]).
Proof.
  destruct (@analyzed_sentiment_in_range Examples.numpy_nonneg Examples.text_tools_fixed)
    as (_ & _ & _ & Hrecord).
  - split.
    + intros text. vm_compute. split; discriminate.
    + intros text polarity subjectivity [=].
  - apply Hrecord. exact numpy_nonneg_sqrt.
Defined.

(** ** Signals and trend from the indicators *)

Section SignalRules.
Import Py.
Import DataFetcher.
Import TechnicalRules.

Implicit Types (df : list Bar) (indicators : gmap string (option Q)).

Lemma set_signal_lookup (key other : string) (value : option string)
      (signals : gmap string string) :
  set_signal key value signals !! other =
    if decide (key = other) then
      match value with Some v => Some v | None => signals !! other end
    else signals !! other.
Proof.
  unfold set_signal. destruct value as [v |].
  - rewrite lookup_insert. case_decide; reflexivity.
  - case_decide; reflexivity.
Qed.

(** The dictionary a successful [_generate_signals] builds. *)
Lemma generate_signals_ok df indicators (signals : gmap string string) :
  _generate_signals df indicators = Ok signals ->
  exists (current_price current_volume : Q) (rsi macd stochastic trend_strength : string),
    iloc_back close df 1 = Ok current_price /\
    iloc_back volume df 1 = Ok current_volume /\
    rsi_signal indicators = Ok rsi /\
    macd_signal indicators = Ok macd /\
    stochastic_signal indicators = Ok stochastic /\
    trend_strength_signal indicators = Ok trend_strength /\
    signals !! "rsi" = Some rsi /\
    signals !! "macd" = Some macd /\
    signals !! "ma_trend" = ma_trend_signal current_price indicators /\
    signals !! "bollinger" = bollinger_signal current_price indicators /\
    signals !! "stochastic" = Some stochastic /\
    signals !! "trend_strength" = Some trend_strength /\
    signals !! "volume" = Some (volume_signal current_volume indicators).
Proof.
  unfold _generate_signals. cbv zeta.
  destruct (iloc_back close df 1) as [cp | e]; [| discriminate].
  destruct (rsi_signal indicators) as [rsi | e]; [| discriminate].
  destruct (macd_signal indicators) as [macd | e]; [| discriminate].
  destruct (stochastic_signal indicators) as [st | e]; [| discriminate].
  destruct (trend_strength_signal indicators) as [ts | e]; [| discriminate].
  destruct (iloc_back volume df 1) as [cv | e]; [| discriminate].
  cbn [bind]. intros [= <-].
  exists cp, cv, rsi, macd, st, ts.
  repeat (split; [reflexivity |]).
  destruct (ma_trend_signal cp indicators) as [mt |];
    destruct (bollinger_signal cp indicators) as [bb |];
    cbn [set_signal];
    repeat split;
    repeat first [ rewrite lookup_insert_eq
                 | rewrite lookup_insert_ne by discriminate ];
    reflexivity.
Qed.

Lemma gt_ok (a b : option Q) (r : bool) :
  gt a b = Ok r -> exists x y, a = Some x /\ b = Some y /\ r = ltb y x.
Proof.
  destruct a as [x |], b as [y |]; cbn; intros [= <-]. now exists x, y.
Qed.

Lemma lt_ok (a b : option Q) (r : bool) :
  lt a b = Ok r -> exists x y, a = Some x /\ b = Some y /\ r = ltb x y.
Proof.
  destruct a as [x |], b as [y |]; cbn; intros [= <-]. now exists x, y.
Qed.

Lemma rsi_signal_ok indicators (signal : string) :
  rsi_signal indicators = Ok signal ->
  exists rsi : Q,
    dict_get indicators "rsi" (Some 50) = Some rsi /\
    (signal = "overbought" <-> 70 < rsi) /\
    (signal = "oversold" <-> rsi < 30) /\
    (signal = "neutral" <-> 30 <= rsi <= 70).
Proof.
  unfold rsi_signal. cbv zeta.
  destruct (dict_get indicators "rsi" (Some 50)) as [rsi |]; [| discriminate].
  cbn. case_ltb 70 rsi; [| cbn; case_ltb rsi 30]; intros [= <-];
    exists rsi; (split; [reflexivity |]);
    repeat split; intros; try discriminate; try lra; try reflexivity.
Qed.

Lemma macd_signal_ok indicators (signal : string) :
  macd_signal indicators = Ok signal ->
  exists macd macd_line : Q,
    dict_get indicators "macd" (Some 0) = Some macd /\
    dict_get indicators "macd_signal" (Some 0) = Some macd_line /\
    (signal = "bullish" <-> macd_line < macd) /\
    (signal = "bearish" <-> macd <= macd_line).
Proof.
  unfold macd_signal. cbv zeta.
  destruct (dict_get indicators "macd" (Some 0)) as [macd |]; [| discriminate].
  destruct (dict_get indicators "macd_signal" (Some 0)) as [macd_line |]; [| discriminate].
  cbn. case_ltb macd_line macd; intros [= <-];
    exists macd, macd_line; (split; [reflexivity |]); (split; [reflexivity |]);
    repeat split; intros; try discriminate; try lra; try reflexivity.
Qed.

Lemma trend_strength_signal_ok indicators (signal : string) :
  trend_strength_signal indicators = Ok signal ->
  exists adx : Q,
    dict_get indicators "adx" (Some 25) = Some adx /\
    (signal = "very_strong" <-> 50 < adx) /\
    (signal = "strong" <-> 25 < adx <= 50) /\
    (signal = "weak" <-> adx <= 25).
Proof.
  unfold trend_strength_signal. cbv zeta.
  destruct (dict_get indicators "adx" (Some 25)) as [adx |]; [| discriminate].
  cbn. case_ltb 50 adx; [| cbn; case_ltb 25 adx]; intros [= <-];
    exists adx; (split; [reflexivity |]);
    repeat split; intros; try discriminate; try lra; try reflexivity.
Qed.

(** X14. Thresholds of the RSI, MACD and ADX signals.  The RSI signal
    is "overbought" above 70, "oversold" below 30 and "neutral" from 30 to
    70, both included; the MACD signal is "bullish" when the MACD is above
    its signal line and "bearish" otherwise, a tie included, and never
    neutral; the trend strength is "very_strong" above an ADX of 50,
    "strong" above 25 and "weak" up to 25. *)
Theorem signal_thresholds df indicators (signals : gmap string string) :
  _generate_signals df indicators = Ok signals ->
  exists rsi macd macd_line adx : Q,
    dict_get indicators "rsi" (Some 50) = Some rsi /\
    dict_get indicators "macd" (Some 0) = Some macd /\
    dict_get indicators "macd_signal" (Some 0) = Some macd_line /\
    dict_get indicators "adx" (Some 25) = Some adx /\
    (signals !! "rsi" = Some "overbought" <-> 70 < rsi) /\
    (signals !! "rsi" = Some "oversold" <-> rsi < 30) /\
    (signals !! "rsi" = Some "neutral" <-> 30 <= rsi <= 70) /\
    (signals !! "macd" = Some "bullish" <-> macd_line < macd) /\
    (signals !! "macd" = Some "bearish" <-> macd <= macd_line) /\
    (signals !! "trend_strength" = Some "very_strong" <-> 50 < adx) /\
    (signals !! "trend_strength" = Some "strong" <-> 25 < adx <= 50) /\
    (signals !! "trend_strength" = Some "weak" <-> adx <= 25).
Proof.
  intros Hok.
  destruct (generate_signals_ok _ _ _ Hok)
    as (cp & cv & rsi_s & macd_s & st & ts & _ & _ & Hrsi & Hmacd & _ & Hts
        & -> & -> & _ & _ & _ & -> & _).
  destruct (rsi_signal_ok _ _ Hrsi) as (rsi & Er & R1 & R2 & R3).
  destruct (macd_signal_ok _ _ Hmacd) as (macd & macd_line & Em & El & M1 & M2).
  destruct (trend_strength_signal_ok _ _ Hts) as (adx & Ea & A1 & A2 & A3).
  exists rsi, macd, macd_line, adx.
  repeat (split; [assumption |]).
  rewrite <- R1, <- R2, <- R3, <- M1, <- M2, <- A1, <- A2, <- A3.
  repeat split; intros; congruence.
Qed.

Lemma ma_trend_signal_present (current_price : Q) indicators :
  ma_trend_signal current_price indicators = None <->
  ~ exists sma_20 sma_50 : Q,
      dict_get indicators "sma_20" None = Some sma_20 /\
      dict_get indicators "sma_50" None = Some sma_50 /\
      ~ sma_20 == 0 /\ ~ sma_50 == 0.
Proof.
  unfold ma_trend_signal. cbv zeta.
  destruct (dict_get indicators "sma_20" None) as [s20 |];
    [destruct (dict_get indicators "sma_50" None) as [s50 |] |].
  - destruct (truthy s20) eqn:H20; [destruct (truthy s50) eqn:H50 |]; cbn [andb].
    + apply truthy_nonzero in H20, H50. split.
      * repeat match goal with |- context [if ?b then _ else _] => destruct b end;
          discriminate.
      * intros Hno. exfalso. apply Hno. now exists s20, s50.
    + split; [| reflexivity]. intros _ (a & b & [= <-] & [= <-] & _ & Hb).
      apply truthy_nonzero in Hb. congruence.
    + split; [| reflexivity]. intros _ (a & b & [= <-] & _ & Ha & _).
      apply truthy_nonzero in Ha. congruence.
  - split; [| reflexivity]. intros _ (a & b & _ & [=] & _).
  - split; [| reflexivity]. intros _ (a & b & [=] & _).
Qed.

Lemma ma_trend_signal_rules (current_price sma_20 sma_50 : Q) indicators :
  dict_get indicators "sma_20" None = Some sma_20 ->
  dict_get indicators "sma_50" None = Some sma_50 ->
  ~ sma_20 == 0 -> ~ sma_50 == 0 ->
  (ma_trend_signal current_price indicators = Some "strong_bullish" <->
     sma_50 < sma_20 /\ sma_20 < current_price) /\
  (ma_trend_signal current_price indicators = Some "weak_bullish" <->
     sma_20 < current_price /\ sma_20 < sma_50) /\
  (ma_trend_signal current_price indicators = Some "strong_bearish" <->
     current_price < sma_20 /\ sma_20 < sma_50) /\
  (ma_trend_signal current_price indicators = Some "weak_bearish" <->
     (sma_20 < current_price /\ sma_20 == sma_50) \/
     current_price == sma_20 \/
     (current_price < sma_20 /\ sma_50 <= sma_20)).
Proof.
  intros E20 E50 H20 H50. unfold ma_trend_signal. cbv zeta. rewrite E20, E50.
  apply truthy_nonzero in H20, H50. rewrite H20, H50. cbn [andb].
  case_ltb sma_20 current_price; case_ltb sma_50 sma_20; case_ltb sma_20 sma_50;
    case_ltb current_price sma_20; cbn [andb];
    repeat split; intros; try discriminate; try reflexivity; lra.
Qed.

(** X15. The moving-average signal is set exactly when both averages
    are numbers other than zero.  It is "strong_bullish" when the price is
    above an SMA20 that is above the SMA50, "weak_bullish" when it is above
    an SMA20 that is below the SMA50, "strong_bearish" when it is below an
    SMA20 that is below the SMA50, and "weak_bearish" in every other case:
    the price on the SMA20, the price below an SMA20 that is not below the
    SMA50, and the price above two equal averages. *)
Theorem moving_average_signal df indicators (signals : gmap string string) :
  _generate_signals df indicators = Ok signals ->
  exists current_price : Q,
    iloc_back close df 1 = Ok current_price /\
    (signals !! "ma_trend" = None <->
       ~ exists sma_20 sma_50 : Q,
           dict_get indicators "sma_20" None = Some sma_20 /\
           dict_get indicators "sma_50" None = Some sma_50 /\
           ~ sma_20 == 0 /\ ~ sma_50 == 0) /\
    forall sma_20 sma_50 : Q,
      dict_get indicators "sma_20" None = Some sma_20 ->
      dict_get indicators "sma_50" None = Some sma_50 ->
      ~ sma_20 == 0 -> ~ sma_50 == 0 ->
      (signals !! "ma_trend" = Some "strong_bullish" <->
         sma_50 < sma_20 /\ sma_20 < current_price) /\
      (signals !! "ma_trend" = Some "weak_bullish" <->
         sma_20 < current_price /\ sma_20 < sma_50) /\
      (signals !! "ma_trend" = Some "strong_bearish" <->
         current_price < sma_20 /\ sma_20 < sma_50) /\
      (signals !! "ma_trend" = Some "weak_bearish" <->
         (sma_20 < current_price /\ sma_20 == sma_50) \/
         current_price == sma_20 \/
         (current_price < sma_20 /\ sma_50 <= sma_20)).
Proof.
  intros Hok.
  destruct (generate_signals_ok _ _ _ Hok)
    as (cp & cv & rsi_s & macd_s & st & ts & Hcp & _ & _ & _ & _ & _
        & _ & _ & -> & _).
  exists cp. split; [assumption |]. split.
  - apply ma_trend_signal_present.
  - intros sma_20 sma_50. apply ma_trend_signal_rules.
Qed.

Lemma iloc_back_last (column : Bar -> Q) df :
  iloc_back column df 1 =
    match last df with
    | Some b => Ok (column b)
    | None => Raise (Exception "IndexError")
    end.
Proof.
  unfold iloc_back. change (1 - 1)%nat with 0%nat.
  rewrite <- head_lookup, rev_alt.
  change (rev_append df []) with (reverse df).
  rewrite head_reverse. reflexivity.
Qed.

Lemma last_is_Some {A} (l : list A) : is_Some (last l) <-> l <> [].
Proof.
  rewrite <- not_eq_None_Some, last_None. reflexivity.
Qed.

Lemma is_ok_true {A} (r : result A) : is_ok r = true <-> exists a, r = Ok a.
Proof.
  destruct r as [a | e]; cbn; split; try discriminate; eauto.
  intros [a [=]].
Qed.

Lemma rsi_signal_is_ok indicators :
  is_ok (rsi_signal indicators) = true <-> is_Some (dict_get indicators "rsi" (Some 50)).
Proof.
  unfold rsi_signal. cbv zeta.
  destruct (dict_get indicators "rsi" (Some 50)) as [rsi |]; cbn.
  - destruct (ltb 70 rsi); [| cbn; destruct (ltb rsi 30)]; cbn; split; eauto.
  - split; [discriminate | intros [? [=]]].
Qed.

Lemma macd_signal_is_ok indicators :
  is_ok (macd_signal indicators) = true <->
  is_Some (dict_get indicators "macd" (Some 0)) /\
  is_Some (dict_get indicators "macd_signal" (Some 0)).
Proof.
  unfold macd_signal. cbv zeta.
  destruct (dict_get indicators "macd" (Some 0)) as [macd |];
    destruct (dict_get indicators "macd_signal" (Some 0)) as [macd_line |]; cbn.
  - destruct (ltb macd_line macd); cbn; split; eauto.
  - split; [discriminate | intros [_ [? [=]]]].
  - split; [discriminate | intros [[? [=]] _]].
  - split; [discriminate | intros [[? [=]] _]].
Qed.

Lemma trend_strength_signal_is_ok indicators :
  is_ok (trend_strength_signal indicators) = true <->
  is_Some (dict_get indicators "adx" (Some 25)).
Proof.
  unfold trend_strength_signal. cbv zeta.
  destruct (dict_get indicators "adx" (Some 25)) as [adx |]; cbn.
  - destruct (ltb 50 adx); [| cbn; destruct (ltb 25 adx)]; cbn; split; eauto.
  - split; [discriminate | intros [? [=]]].
Qed.

Lemma stochastic_signal_is_ok indicators :
  is_ok (stochastic_signal indicators) = true <->
  exists stoch_k : Q,
    dict_get indicators "stoch_k" (Some 50) = Some stoch_k /\
    (is_Some (dict_get indicators "stoch_d" (Some 50)) \/ 20 <= stoch_k <= 80).
Proof.
  unfold stochastic_signal. cbv zeta.
  destruct (dict_get indicators "stoch_k" (Some 50)) as [k |]; cbn;
    [| split; [discriminate | intros (? & [=] & _)]].
  destruct (dict_get indicators "stoch_d" (Some 50)) as [d |]; cbn.
  - case_ltb 80 k; cbn.
    + destruct (ltb 80 d); cbn; [split; eauto |].
      case_ltb k 20; cbn; [destruct (ltb d 20) |]; cbn; split; eauto.
    + case_ltb k 20; cbn; [destruct (ltb d 20) |]; cbn; split; eauto.
  - case_ltb 80 k; cbn.
    + split; [discriminate |]. intros (x & [= <-] & [[? [=]] | ?]). lra.
    + case_ltb k 20; cbn.
      * split; [discriminate |]. intros (x & [= <-] & [[? [=]] | ?]). lra.
      * split; [| reflexivity]. intros _. exists k. split; [reflexivity |]. right. lra.
Qed.

Lemma generate_signals_is_ok df indicators :
  is_ok (_generate_signals df indicators) =
    is_ok (iloc_back close df 1) && is_ok (rsi_signal indicators)
    && is_ok (macd_signal indicators) && is_ok (stochastic_signal indicators)
    && is_ok (trend_strength_signal indicators) && is_ok (iloc_back volume df 1).
Proof.
  unfold _generate_signals. cbv zeta.
  destruct (iloc_back close df 1); [| reflexivity].
  destruct (rsi_signal indicators); [| reflexivity].
  destruct (macd_signal indicators); [| reflexivity].
  destruct (stochastic_signal indicators); [| reflexivity].
  destruct (trend_strength_signal indicators); [| reflexivity].
  destruct (iloc_back volume df 1); reflexivity.
Qed.

(** X16. When the signal derivation raises, and what the analyzer then
    reports. *)
Theorem signals_failure_condition
    (compute_indicators : list Bar -> result (gmap string (option Q)))
    df indicators :
  let succeeds :=
    df <> [] /\
    is_Some (dict_get indicators "rsi" (Some 50)) /\
    is_Some (dict_get indicators "macd" (Some 0)) /\
    is_Some (dict_get indicators "macd_signal" (Some 0)) /\
    is_Some (dict_get indicators "adx" (Some 25)) /\
    exists stoch_k : Q,
      dict_get indicators "stoch_k" (Some 50) = Some stoch_k /\
      (is_Some (dict_get indicators "stoch_d" (Some 50)) \/ 20 <= stoch_k <= 80) in
  ((exists signals, _generate_signals df indicators = Ok signals) <-> succeeds) /\
  (TechnicalAnalyzer._generate_signals (H := ta_rules compute_indicators) df indicators = ∅
     <-> ~ succeeds).
Proof.
  cbv zeta.
  assert (Hiff : (exists signals, _generate_signals df indicators = Ok signals) <->
    df <> [] /\
    is_Some (dict_get indicators "rsi" (Some 50)) /\
    is_Some (dict_get indicators "macd" (Some 0)) /\
    is_Some (dict_get indicators "macd_signal" (Some 0)) /\
    is_Some (dict_get indicators "adx" (Some 25)) /\
    exists stoch_k : Q,
      dict_get indicators "stoch_k" (Some 50) = Some stoch_k /\
      (is_Some (dict_get indicators "stoch_d" (Some 50)) \/ 20 <= stoch_k <= 80)).
  { rewrite <- is_ok_true, generate_signals_is_ok, !andb_true_iff.
    rewrite rsi_signal_is_ok, macd_signal_is_ok, trend_strength_signal_is_ok,
      stochastic_signal_is_ok, !iloc_back_last.
    rewrite <- (last_is_Some df).
    destruct (last df) as [b |]; cbn.
    - split.
      + intros [[[[[_ ?] [? ?]] ?] ?] _]. repeat split; eauto.
      + intros (_ & ? & ? & ? & ? & ?). repeat split; eauto.
    - split.
      + intros [[[[[[=] _] _] _] _] _].
      + intros ([? [=]] & _). }
  split; [exact Hiff |].
  rewrite <- Hiff. unfold TechnicalAnalyzer._generate_signals. cbn [ta_signals ta_rules].
  destruct (_generate_signals df indicators) as [signals | e] eqn:Hgen.
  - split.
    + intros ->. apply generate_signals_ok in Hgen.
      destruct Hgen as (? & ? & ? & ? & ? & ? & _ & _ & _ & _ & _ & _ & Hrsi & _).
      rewrite lookup_empty in Hrsi. discriminate.
    + intros Hno. exfalso. apply Hno. eauto.
  - split; [| reflexivity]. intros _ [signals [=]].
Qed.

End SignalRules.

Section TrendRules.
Import Py.
Import DataFetcher.
Import TechnicalRules.

Implicit Types (df : list Bar) (indicators : gmap string (option Q)).

Lemma moving_average_votes_cases (current_price : Q) indicators :
  (moving_average_votes current_price indicators = (0, 0)%Z /\
   ~ exists sma_20 sma_50 : Q,
       dict_get indicators "sma_20" None = Some sma_20 /\
       dict_get indicators "sma_50" None = Some sma_50 /\
       ~ sma_20 == 0 /\ ~ sma_50 == 0) \/
  (exists sma_20 sma_50 : Q,
     dict_get indicators "sma_20" None = Some sma_20 /\
     dict_get indicators "sma_50" None = Some sma_50 /\
     ~ sma_20 == 0 /\ ~ sma_50 == 0 /\
     moving_average_votes current_price indicators =
       (vote (ltb sma_20 current_price) + vote (ltb sma_50 sma_20), 2)%Z).
Proof.
  unfold moving_average_votes.
  destruct (dict_get indicators "sma_20" None) as [s20 |];
    [destruct (dict_get indicators "sma_50" None) as [s50 |] |].
  - destruct (truthy s20) eqn:H20; [destruct (truthy s50) eqn:H50 |]; cbn [andb].
    + right. apply truthy_nonzero in H20, H50. now exists s20, s50.
    + left. split; [reflexivity |]. intros (a & b & [= <-] & [= <-] & _ & Hb).
      apply truthy_nonzero in Hb. congruence.
    + left. split; [reflexivity |]. intros (a & b & [= <-] & _ & Ha & _).
      apply truthy_nonzero in Ha. congruence.
  - left. split; [reflexivity |]. intros (a & b & _ & [=] & _).
  - left. split; [reflexivity |]. intros (a & b & [=] & _).
Qed.

Lemma momentum_vote_range (current_price close_10 : Q) :
  (-1 <= momentum_vote current_price close_10 <= 1)%Z.
Proof.
  unfold momentum_vote.
  repeat match goal with |- context [if ?b then _ else _] => destruct b end; lia.
Qed.

Lemma momentum_votes_cases df (current_price : Q) :
  (length df < 10)%nat /\ momentum_votes df current_price = Ok (0, 0)%Z \/
  exists close_10 : Q,
    (10 <= length df)%nat /\ iloc_back close df 10 = Ok close_10 /\
    momentum_votes df current_price = Ok (momentum_vote current_price close_10, 1%Z).
Proof.
  unfold momentum_votes. destruct (10 <=? length df)%nat eqn:Hlen.
  - right. apply Nat.leb_le in Hlen. unfold iloc_back.
    destruct (rev df !! (10 - 1)%nat) as [b |] eqn:Hb.
    + exists (close b). split; [assumption |]. split; reflexivity.
    + apply lookup_ge_None in Hb. rewrite length_rev in Hb. lia.
  - left. apply Nat.leb_gt in Hlen. split; [assumption | reflexivity].
Qed.

(** The three verdicts of [classify_trend] over the votes the body can
    collect: two optional moving-average votes, the MACD and ADX votes,
    and an optional momentum vote in [-1, 1]. *)
Lemma classify_trend_votes (ma1 ma2 macd_up adx_up with_ma : bool)
      (momentum momentum_factor : Z) :
  (momentum_factor = 0 /\ momentum = 0 \/
   momentum_factor = 1 /\ -1 <= momentum <= 1)%Z ->
  let ma_score := if with_ma then (vote ma1 + vote ma2)%Z else 0%Z in
  let ma_factors := if with_ma then 2%Z else 0%Z in
  let verdict :=
    classify_trend (0 + ma_score + vote macd_up + vote adx_up + momentum)
                   (0 + ma_factors + 1 + 1 + momentum_factor) in
  (verdict.1 = "bullish" <->
     macd_up = true /\ adx_up = true /\ (0 <= momentum)%Z /\
     (with_ma = true -> ma1 = true /\ ma2 = true)) /\
  (verdict.1 = "bearish" <->
     macd_up = false /\ adx_up = false /\ (momentum <= 0)%Z /\
     (with_ma = true -> ma1 = false /\ ma2 = false)) /\
  (verdict.1 = "bullish" \/ verdict.1 = "bearish" \/ verdict.1 = "sideways") /\
  0 <= verdict.2 <= 1 /\
  (verdict.1 = "sideways" <-> verdict.2 <= 0.6).
Proof.
  intros Hm.
  assert (Hcases : (momentum_factor = 0 /\ momentum = 0 \/
                    momentum_factor = 1 /\ momentum = -1 \/
                    momentum_factor = 1 /\ momentum = 0 \/
                    momentum_factor = 1 /\ momentum = 1)%Z) by lia.
  clear Hm.
  cbv zeta.
  destruct Hcases as [[-> ->] | [[-> ->] | [[-> ->] | [-> ->]]]];
    destruct with_ma, ma1, ma2, macd_up, adx_up;
    match goal with
    | |- context [classify_trend ?score ?factors] =>
        let verdict := eval vm_compute in (classify_trend score factors) in
        change (classify_trend score factors) with verdict
    end;
    cbn [fst snd];
    repeat split; intros;
    intuition (try congruence; try lia; try lra).
Qed.

(** The votes a successful [_determine_trend] counts. *)
Lemma determine_trend_ok df indicators (verdict : string * Q) :
  _determine_trend df indicators = Ok verdict ->
  exists (current_price macd macd_line adx_pos adx_neg : Q) (momentum momentum_factor : Z),
    iloc_back close df 1 = Ok current_price /\
    dict_get indicators "macd" (Some 0) = Some macd /\
    dict_get indicators "macd_signal" (Some 0) = Some macd_line /\
    dict_get indicators "adx_pos" (Some 25) = Some adx_pos /\
    dict_get indicators "adx_neg" (Some 25) = Some adx_neg /\
    momentum_votes df current_price = Ok (momentum, momentum_factor) /\
    verdict =
      classify_trend
        (0 + (moving_average_votes current_price indicators).1
         + vote (ltb macd_line macd) + vote (ltb adx_neg adx_pos) + momentum)
        (0 + (moving_average_votes current_price indicators).2 + 1 + 1 + momentum_factor).
Proof.
  unfold _determine_trend. cbv zeta.
  destruct (iloc_back close df 1) as [cp | e]; [| discriminate]. cbn [bind].
  destruct (moving_average_votes cp indicators) as [ma_score ma_factors] eqn:Hma.
  destruct (gt (dict_get indicators "macd" (Some 0))
               (dict_get indicators "macd_signal" (Some 0))) as [macd_up | e] eqn:Hmacd;
    [| discriminate].
  destruct (gt (dict_get indicators "adx_pos" (Some 25))
               (dict_get indicators "adx_neg" (Some 25))) as [adx_up | e] eqn:Hadx;
    [| discriminate].
  destruct (momentum_votes df cp) as [[momentum momentum_factor] | e] eqn:Hmomentum;
    [| discriminate].
  cbn [bind fst snd]. intros [= <-].
  apply gt_ok in Hmacd, Hadx.
  destruct Hmacd as (macd & macd_line & -> & -> & ->).
  destruct Hadx as (adx_pos & adx_neg & -> & -> & ->).
  exists cp, macd, macd_line, adx_pos, adx_neg, momentum, momentum_factor.
  rewrite Hma. repeat (split; [reflexivity || assumption |]). reflexivity.
Qed.

Lemma momentum_votes_ok df (current_price : Q) (momentum momentum_factor : Z) :
  momentum_votes df current_price = Ok (momentum, momentum_factor) ->
  (momentum_factor = 0 /\ momentum = 0 \/
   momentum_factor = 1 /\ -1 <= momentum <= 1)%Z.
Proof.
  destruct (momentum_votes_cases df current_price) as [[_ ->] | (c & _ & _ & ->)];
    intros [= <- <-]; [left; split; reflexivity | right].
  split; [reflexivity | apply momentum_vote_range].
Qed.

(** X17. The verdict of the trend scoring: [unknown] only when the scoring
    raises, a strength between 0 and 1, above 0.6 exactly for the two
    directional verdicts. *)
Theorem trend_verdict
    (compute_indicators : list Bar -> result (gmap string (option Q)))
    df indicators :
  let verdict :=
    TechnicalAnalyzer._determine_trend (H := ta_rules compute_indicators) df indicators in
  (verdict.1 = "unknown" <-> exists e, _determine_trend df indicators = Raise e) /\
  (verdict.1 = "unknown" -> verdict.2 == 0) /\
  (verdict.1 = "bullish" \/ verdict.1 = "bearish" \/
   verdict.1 = "sideways" \/ verdict.1 = "unknown") /\
  0 <= verdict.2 <= 1 /\
  (verdict.1 = "bullish" \/ verdict.1 = "bearish" <-> 0.6 < verdict.2).
Proof.
  cbv zeta. unfold TechnicalAnalyzer._determine_trend. cbn [ta_trend ta_rules].
  destruct (_determine_trend df indicators) as [verdict | e] eqn:Hrun.
  - destruct (determine_trend_ok _ _ _ Hrun)
      as (cp & macd & macd_line & adx_pos & adx_neg & m & mf
          & _ & _ & _ & _ & _ & Hm & Hverdict).
    apply momentum_votes_ok in Hm.
    destruct (moving_average_votes_cases cp indicators)
      as [[Hma _] | (s20 & s50 & _ & _ & _ & _ & Hma)]; rewrite Hma in Hverdict;
      cbn [fst snd] in Hverdict.
    + pose proof (classify_trend_votes false false (ltb macd_line macd)
                    (ltb adx_neg adx_pos) false m mf Hm) as Hc.
      cbv beta iota zeta in Hc. rewrite <- Hverdict in Hc.
      destruct Hc as (Hbull & Hbear & Hthree & Hrange & Hside).
      split; [| split; [| split; [| split]]].
      * split; [| intros [e [=]]].
        intros Hu. destruct Hthree as [H | [H | H]]; congruence.
      * intros Hu. destruct Hthree as [H | [H | H]]; congruence.
      * tauto.
      * exact Hrange.
      * split.
        -- intros Hdir. apply Qnot_le_lt. rewrite <- Hside.
           destruct Hdir as [H | H]; rewrite H; discriminate.
        -- intros Hs. destruct Hthree as [H | [H | H]]; [tauto | tauto |].
           apply Hside in H. lra.
    + pose proof (classify_trend_votes (ltb s20 cp) (ltb s50 s20) (ltb macd_line macd)
                    (ltb adx_neg adx_pos) true m mf Hm) as Hc.
      cbv beta iota zeta in Hc. rewrite <- Hverdict in Hc.
      destruct Hc as (Hbull & Hbear & Hthree & Hrange & Hside).
      split; [| split; [| split; [| split]]].
      * split; [| intros [e [=]]].
        intros Hu. destruct Hthree as [H | [H | H]]; congruence.
      * intros Hu. destruct Hthree as [H | [H | H]]; congruence.
      * tauto.
      * exact Hrange.
      * split.
        -- intros Hdir. apply Qnot_le_lt. rewrite <- Hside.
           destruct Hdir as [H | H]; rewrite H; discriminate.
        -- intros Hs. destruct Hthree as [H | [H | H]]; [tauto | tauto |].
           apply Hside in H. lra.
  - cbn [fst snd]. split; [| split; [| split; [| split]]].
    + split; eauto.
    + reflexivity.
    + tauto.
    + lra.
    + split; [intros [H | H]; discriminate | lra].
Qed.

(** X18. A directional trend needs every indicator vote to agree, and a
    momentum that does not point the other way. *)
Theorem trend_needs_agreement df indicators (trend : string) (strength : Q) :
  _determine_trend df indicators = Ok (trend, strength) ->
  exists (current_price macd macd_line adx_pos adx_neg : Q) (momentum momentum_factor : Z),
    iloc_back close df 1 = Ok current_price /\
    dict_get indicators "macd" (Some 0) = Some macd /\
    dict_get indicators "macd_signal" (Some 0) = Some macd_line /\
    dict_get indicators "adx_pos" (Some 25) = Some adx_pos /\
    dict_get indicators "adx_neg" (Some 25) = Some adx_neg /\
    momentum_votes df current_price = Ok (momentum, momentum_factor) /\
    (trend = "bullish" <->
       macd_line < macd /\ adx_neg < adx_pos /\ (0 <= momentum)%Z /\
       forall sma_20 sma_50 : Q,
         dict_get indicators "sma_20" None = Some sma_20 ->
         dict_get indicators "sma_50" None = Some sma_50 ->
         ~ sma_20 == 0 -> ~ sma_50 == 0 ->
         sma_50 < sma_20 /\ sma_20 < current_price) /\
    (trend = "bearish" <->
       macd <= macd_line /\ adx_pos <= adx_neg /\ (momentum <= 0)%Z /\
       forall sma_20 sma_50 : Q,
         dict_get indicators "sma_20" None = Some sma_20 ->
         dict_get indicators "sma_50" None = Some sma_50 ->
         ~ sma_20 == 0 -> ~ sma_50 == 0 ->
         sma_20 <= sma_50 /\ current_price <= sma_20).
Proof.
  intros Hrun.
  destruct (determine_trend_ok _ _ _ Hrun)
    as (cp & macd & macd_line & adx_pos & adx_neg & m & mf
        & Hcp & Emacd & Eline & Epos & Eneg & Hm & Hverdict).
  exists cp, macd, macd_line, adx_pos, adx_neg, m, mf.
  repeat (split; [assumption |]).
  apply momentum_votes_ok in Hm.
  destruct (moving_average_votes_cases cp indicators)
    as [[Hma Hnone] | (s20 & s50 & E20 & E50 & H20 & H50 & Hma)];
    rewrite Hma in Hverdict; cbn [fst snd] in Hverdict.
  - pose proof (classify_trend_votes false false (ltb macd_line macd)
                  (ltb adx_neg adx_pos) false m mf Hm) as Hc.
    cbv beta iota zeta in Hc. rewrite <- Hverdict in Hc. cbn [fst snd] in Hc.
    destruct Hc as (Hbull & Hbear & _).
    rewrite Hbull, Hbear, !ltb_lt, !ltb_ge.
    split; split.
    + intros (? & ? & ? & _). repeat (split; [assumption |]).
      intros a b Ea Eb Ha Hb. exfalso. apply Hnone. now exists a, b.
    + intros (? & ? & ? & _). repeat (split; [assumption |]). discriminate.
    + intros (? & ? & ? & _). repeat (split; [assumption |]).
      intros a b Ea Eb Ha Hb. exfalso. apply Hnone. now exists a, b.
    + intros (? & ? & ? & _). repeat (split; [assumption |]). discriminate.
  - pose proof (classify_trend_votes (ltb s20 cp) (ltb s50 s20) (ltb macd_line macd)
                  (ltb adx_neg adx_pos) true m mf Hm) as Hc.
    cbv beta iota zeta in Hc. rewrite <- Hverdict in Hc. cbn [fst snd] in Hc.
    destruct Hc as (Hbull & Hbear & _).
    rewrite Hbull, Hbear, !ltb_lt, !ltb_ge.
    split; split.
    + intros (? & ? & ? & Hboth). repeat (split; [assumption |]).
      intros a b Ea Eb _ _. rewrite E20 in Ea. rewrite E50 in Eb.
      injection Ea as <-. injection Eb as <-.
      destruct (Hboth eq_refl). split; assumption.
    + intros (? & ? & ? & Hall). repeat (split; [assumption |]).
      intros _. destruct (Hall s20 s50 E20 E50 H20 H50). split; assumption.
    + intros (? & ? & ? & Hboth). repeat (split; [assumption |]).
      intros a b Ea Eb _ _. rewrite E20 in Ea. rewrite E50 in Eb.
      injection Ea as <-. injection Eb as <-.
      destruct (Hboth eq_refl). split; assumption.
    + intros (? & ? & ? & Hall). repeat (split; [assumption |]).
      intros _. destruct (Hall s20 s50 E20 E50 H20 H50). split; assumption.
Qed.

End TrendRules.

Lemma signal_thresholds_witness :
  exists signals : gmap string string,
    TechnicalRules._generate_signals Samples.step_series Examples.indicators_tie
    = Py.Ok signals /\
    signals !! "rsi" = Some "overbought" /\
    signals !! "macd" = Some "bullish" /\
    signals !! "trend_strength" = Some "strong".
Proof.
  destruct (TechnicalRules._generate_signals Samples.step_series Examples.indicators_tie)
    as [signals | e] eqn:Hrun; [| discriminate Hrun].
  exists signals. split; [reflexivity |].
  destruct (signal_thresholds Samples.step_series Examples.indicators_tie signals Hrun)
    as (rsi & macd & macd_line & adx & Ersi & Emacd & Eline & Eadx
        & Hover & _ & _ & Hbull & _ & _ & Hstrong & _).
  vm_compute in Ersi, Emacd, Eline, Eadx.
  injection Ersi as <-. injection Emacd as <-. injection Eline as <-.
  injection Eadx as <-.
  split; [apply Hover | split; [apply Hbull | apply Hstrong]].
  - vm_compute. reflexivity.
  - vm_compute. reflexivity.
  - vm_compute. split; [reflexivity | discriminate].
Defined.

Lemma moving_average_signal_witness :
  exists signals : gmap string string,
    TechnicalRules._generate_signals Samples.step_series Examples.indicators_tie
    = Py.Ok signals /\
    signals !! "ma_trend" = Some "weak_bearish".
Proof.
  destruct (TechnicalRules._generate_signals Samples.step_series Examples.indicators_tie)
    as [signals | e] eqn:Hrun; [| discriminate Hrun].
  exists signals. split; [reflexivity |].
  destruct (moving_average_signal Samples.step_series Examples.indicators_tie signals Hrun)
    as (current_price & Hprice & _ & Hrules).
  vm_compute in Hprice. injection Hprice as <-.
  destruct (Hrules 10 10) as (_ & _ & _ & Hweak).
  - reflexivity.
  - reflexivity.
  - vm_compute. discriminate.
  - vm_compute. discriminate.
  - apply Hweak. left. vm_compute. split; reflexivity.
Defined.

Lemma trend_needs_agreement_witness :
  exists (trend : string) (strength : Q),
    TechnicalRules._determine_trend Samples.step_series Examples.indicators_rising
    = Py.Ok (trend, strength) /\
    trend = "bullish".
Proof.
  destruct (TechnicalRules._determine_trend Samples.step_series Examples.indicators_rising)
    as [[trend strength] | e] eqn:Hrun; [| discriminate Hrun].
  exists trend, strength. split; [reflexivity |].
  destruct (trend_needs_agreement Samples.step_series Examples.indicators_rising
              trend strength Hrun)
    as (current_price & macd & macd_line & adx_pos & adx_neg & momentum & factor
        & Hprice & Emacd & Eline & Epos & Eneg & Hmomentum & Hbull & _).
  vm_compute in Hprice. injection Hprice as <-.
  vm_compute in Emacd, Eline, Epos, Eneg.
  injection Emacd as <-. injection Eline as <-. injection Epos as <-.
  injection Eneg as <-.
  vm_compute in Hmomentum. injection Hmomentum as <- <-.
  apply Hbull. split; [| split; [| split]].
  - vm_compute. reflexivity.
  - vm_compute. reflexivity.
  - lia.
  - intros sma_20 sma_50 E20 E50 _ _. vm_compute in E20, E50.
    injection E20 as <-. injection E50 as <-.
    vm_compute. split; reflexivity.
Defined.

Section Momentum.
Import Py.
Import DataFetcher.
Import TechnicalRules.

Lemma iloc_back_lookup (column : Bar -> Q) (df : list Bar) (n : nat) :
  (1 <= n <= length df)%nat ->
  exists b, df !! (length df - n)%nat = Some b /\ iloc_back column df n = Ok (column b).
Proof.
  intros Hn. unfold iloc_back.
  destruct (lookup_lt_is_Some_2 df (length df - n)%nat) as [b Hb]; [lia |].
  exists b. split; [assumption |].
  rewrite rev_alt. change (rev_append df []) with (reverse df).
  rewrite reverse_lookup by lia.
  replace (length df - S (n - 1))%nat with (length df - n)%nat by lia.
  rewrite Hb. reflexivity.
Qed.

(** X19. The momentum vote compares the last close with the close ten
    rows from the end: on a positive earlier close it is up above a rise
    of 2%, down below a fall of 2% and neutral in between, the bounds
    included; a frame of fewer than ten rows casts no vote. *)
Theorem momentum_vote_thresholds (df : list Bar) (current_price : Q) :
  ((length df < 10)%nat -> momentum_votes df current_price = Ok (0, 0)%Z) /\
  ((10 <= length df)%nat ->
   exists (earlier : Bar) (momentum : Z),
     df !! (length df - 10)%nat = Some earlier /\
     momentum_votes df current_price = Ok (momentum, 1%Z) /\
     (0 < close earlier ->
      (momentum = 1%Z <-> 1.02 * close earlier < current_price) /\
      (momentum = (-1)%Z <-> current_price < 0.98 * close earlier) /\
      (momentum = 0%Z <->
         0.98 * close earlier <= current_price <= 1.02 * close earlier))).
Proof.
  split.
  - intros Hshort. unfold momentum_votes.
    destruct (10 <=? length df)%nat eqn:Hlen; [apply Nat.leb_le in Hlen; lia |].
    reflexivity.
  - intros Hlong. destruct (iloc_back_lookup close df 10) as (b & Hb & Hiloc); [lia |].
    exists b, (momentum_vote current_price (close b)).
    split; [assumption |]. split.
    + unfold momentum_votes. apply Nat.leb_le in Hlong. rewrite Hlong, Hiloc. reflexivity.
    + intros Hpos. unfold momentum_vote.
      destruct (eqb (close b) 0) eqn:Hzero; [apply eqb_eq in Hzero; lra |].
      cbv zeta.
      set (change := (current_price - close b) / close b).
      assert (Hchange : change * close b == current_price - close b)
        by (subst change; field; lra).
      assert (Hup : 0.02 < change <-> 1.02 * close b < current_price)
        by (split; intros Hc; nra).
      assert (Hdown : change < -0.02 <-> current_price < 0.98 * close b)
        by (split; intros Hc; nra).
      case_ltb 0.02 change; [| case_ltb change (-0.02)].
      * apply Hup in Hcmp. repeat split; intros; try discriminate; try lra.
      * apply Hdown in Hcmp0.
        assert (~ 1.02 * close b < current_price) by (rewrite <- Hup; lra).
        repeat split; intros; try discriminate; try lra.
      * assert (~ 1.02 * close b < current_price) by (rewrite <- Hup; lra).
        assert (~ current_price < 0.98 * close b) by (rewrite <- Hdown; lra).
        repeat split; intros; try discriminate; try lra.
Qed.

End Momentum.

(** ** The analysis when the indicator computation fails *)

Section IndicatorFailure.
Import Py.
Import DataFetcher.
Import TechnicalRules.

Implicit Types (df : list Bar).

(** Evaluate the tests on constant strings and the lookups in a constant
    dictionary. *)
Ltac eval_constants :=
  repeat match goal with
         | |- context [dict_get ?m ?k ?d] =>
             let v := eval vm_compute in (dict_get m k d) in
             change (dict_get m k d) with v
         | |- context [String.eqb (String ?c ?s) ?t] =>
             let v := eval vm_compute in (String.eqb (String c s) t) in
             change (String.eqb (String c s) t) with v
         | |- context [str_in (String ?c ?s) ?l] =>
             let v := eval vm_compute in (str_in (String c s) l) in
             change (str_in (String c s) l) with v
         end.

Lemma generate_signals_without_indicators df :
  df <> [] ->
  _generate_signals df ∅ =
    Ok (<["volume" := "normal"]> (<["trend_strength" := "weak"]>
        (<["stochastic" := "neutral"]> (<["macd" := "bearish"]>
        (<["rsi" := "neutral"]> ∅))))).
Proof.
  intros Hdf. apply last_is_Some in Hdf. destruct Hdf as [b Hb].
  unfold _generate_signals. cbv zeta. rewrite !iloc_back_last, Hb. cbn [bind].
  reflexivity.
Qed.

Lemma determine_trend_without_indicators df :
  (10 <= length df)%nat ->
  exists momentum : Z,
    (-1 <= momentum <= 1)%Z /\
    _determine_trend df ∅ = Ok (classify_trend (-2 + momentum) 3).
Proof.
  intros Hlen.
  assert (Hdf : df <> []) by (intros ->; cbn in Hlen; lia).
  apply last_is_Some in Hdf. destruct Hdf as [b Hb].
  destruct (momentum_votes_cases df (close b)) as [[Hshort _] | (c & _ & _ & Hm)];
    [lia |].
  exists (momentum_vote (close b) c). split; [apply momentum_vote_range |].
  unfold _determine_trend. cbv zeta. rewrite iloc_back_last, Hb. cbn [bind].
  rewrite Hm. reflexivity.
Qed.

Lemma technical_score_without_indicators
      (technical_data : TechnicalAnalyzer.TechnicalResult) :
  TechnicalAnalyzer.signals technical_data =
    <["volume" := "normal"]> (<["trend_strength" := "weak"]>
      (<["stochastic" := "neutral"]> (<["macd" := "bearish"]>
      (<["rsi" := "neutral"]> ∅)))) ->
  RecommendationEngine._calculate_technical_score technical_data == -0.04.
Proof.
  intros Hsignals. unfold RecommendationEngine._calculate_technical_score.
  cbv zeta. rewrite Hsignals. eval_constants.
  rewrite !andb_false_r. cbn [andb]. cbv beta iota.
  vm_compute. reflexivity.
Qed.

(** X20. A failed indicator computation does not fail the analysis: the
    signals fall back to their defaults, the trend cannot be bullish, and
    the technical score of the recommendation is -0.04. *)
Theorem indicator_failure_fallback
    (compute_indicators : list Bar -> result (gmap string (option Q)))
    (symbol : string) (data : list Bar) (e : exn) :
  compute_indicators data = Raise e ->
  (50 <= length data)%nat ->
  exists result : TechnicalAnalyzer.TechnicalResult,
    TechnicalAnalyzer.analyze (H := ta_rules compute_indicators) symbol (Ok data)
      = Ok result /\
    TechnicalAnalyzer.indicators result = ∅ /\
    TechnicalAnalyzer.signals result =
      <["volume" := "normal"]> (<["trend_strength" := "weak"]>
        (<["stochastic" := "neutral"]> (<["macd" := "bearish"]>
        (<["rsi" := "neutral"]> ∅)))) /\
    (TechnicalAnalyzer.trend result = "bearish" /\
       (2 # 3) <= TechnicalAnalyzer.strength result \/
     TechnicalAnalyzer.trend result = "sideways" /\
       TechnicalAnalyzer.strength result == 1 # 3) /\
    RecommendationEngine._calculate_technical_score result == -0.04.
Proof.
  intros Hfail Hlen.
  assert (Hdf : data <> []) by (intros ->; cbn in Hlen; lia).
  unfold TechnicalAnalyzer.analyze.
  destruct (length data <? 50)%nat eqn:Hshort; [apply Nat.ltb_lt in Hshort; lia |].
  unfold TechnicalAnalyzer._calculate_indicators, TechnicalAnalyzer._generate_signals,
    TechnicalAnalyzer._determine_trend.
  cbn [ta_indicators ta_signals ta_trend ta_rules].
  rewrite Hfail, (generate_signals_without_indicators data Hdf).
  destruct (determine_trend_without_indicators data) as (m & Hm & ->); [lia |].
  destruct (TechnicalAnalyzer._find_support_resistance data 20) as [support resistance].
  assert (Hcases : (m = -1 \/ m = 0 \/ m = 1)%Z) by lia.
  destruct Hcases as [-> | [-> | ->]];
    match goal with
    | |- context [classify_trend ?score ?factors] =>
        let verdict := eval vm_compute in (classify_trend score factors) in
        change (classify_trend score factors) with verdict
    end;
    cbv beta iota;
    eexists; (split; [reflexivity |]); cbn [TechnicalAnalyzer.indicators
      TechnicalAnalyzer.signals TechnicalAnalyzer.trend TechnicalAnalyzer.strength];
    (split; [reflexivity |]); (split; [reflexivity |]);
    (split; [| now apply technical_score_without_indicators]).
  - left. split; [reflexivity | lra].
  - left. split; [reflexivity | lra].
  - right. split; reflexivity.
Qed.

End IndicatorFailure.

Lemma indicator_failure_fallback_witness :
  exists result : TechnicalAnalyzer.TechnicalResult,
    TechnicalAnalyzer.analyze
      (H := TechnicalRules.ta_rules Examples.indicators_unavailable) "BTCUSDT" (Py.Ok Samples.step_series)
      = Py.Ok result /\
    TechnicalAnalyzer.trend result = "bearish" /\
    RecommendationEngine._calculate_technical_score result == -0.04.
Proof.
  destruct (indicator_failure_fallback Examples.indicators_unavailable "BTCUSDT"
              Samples.step_series (Py.Exception "ta") eq_refl)
    as (result & Hrun & _ & _ & Htrend & Hscore).
  - vm_compute. lia.
  - exists result. split; [exact Hrun |]. split; [| exact Hscore].
    vm_compute in Hrun. injection Hrun as <-. reflexivity.
Defined.

(** ** Which texts a sentiment analysis counts *)

Section SentimentSources.
Import Py.
Import SentimentAnalyzer.
Context `{NumPy}.

Lemma count_nonneg (p : Q -> bool) (scores : list Q) : (0 <= count p scores)%Z.
Proof.
  unfold count. lia.
Qed.

(** X21. The texts of a sentiment analysis: only the sources "news" and
    "social" are read, each only when requested, any other source name is
    ignored; the record counts the texts of the two sources, their total,
    and sorts every one of them into exactly one of the three buckets. *)
Theorem sentiment_source_accounting :
  forall (score_text : string -> TextSentiment) (sources : option (list string))
         (news_texts social_texts : list string),
    let r := analyze_sentiment score_text sources news_texts social_texts in
    let requested := default ["news"; "social"] sources in
    let news := if str_in "news" requested then Z.of_nat (length news_texts) else 0%Z in
    let social := if str_in "social" requested then Z.of_nat (length social_texts) else 0%Z in
    source_breakdown r = Some (news, social) /\
    sources_analyzed r = Some (news + social)%Z /\
    (0 <= positive_count (analysis_details r))%Z /\
    (0 <= negative_count (analysis_details r))%Z /\
    (0 <= neutral_count (analysis_details r))%Z /\
    (positive_count (analysis_details r) + negative_count (analysis_details r)
     + neutral_count (analysis_details r) = news + social)%Z /\
    (str_in "news" requested = false -> str_in "social" requested = false ->
     sentiment_label r = "neutral" /\ sentiment_score r = 0.0 /\ confidence r = 0.0).
Proof.
  intros score_text sources news_texts social_texts. cbv zeta.
  unfold analyze_sentiment. cbv zeta.
  set (requested := default ["news"; "social"] sources).
  set (news := if str_in "news" requested then news_texts else []).
  set (social := if str_in "social" requested then social_texts else []).
  assert (Hn : (if str_in "news" requested then Z.of_nat (length news_texts) else 0%Z)
               = Z.of_nat (length news)).
  { subst news. now destruct (str_in "news" requested). }
  assert (Hs : (if str_in "social" requested then Z.of_nat (length social_texts) else 0%Z)
               = Z.of_nat (length social)).
  { subst social. now destruct (str_in "social" requested). }
  rewrite Hn, Hs.
  assert (Hnone : str_in "news" requested = false -> str_in "social" requested = false ->
                  news ++ social = []).
  { subst news social. intros -> ->. reflexivity. }
  destruct (news ++ social) as [| text texts] eqn:Hall.
  - cbn [source_breakdown sources_analyzed analysis_details no_details positive_count
         negative_count neutral_count sentiment_label sentiment_score confidence].
    apply app_eq_nil in Hall. destruct Hall as [-> ->]. cbn [length].
    repeat split; reflexivity || lia.
  - cbn [source_breakdown sources_analyzed analysis_details sentiment_label
         sentiment_score confidence].
    assert (Hlen : Z.of_nat (length (text :: texts))
                   = (Z.of_nat (length news) + Z.of_nat (length social))%Z).
    { rewrite <- Hall, length_app. lia. }
    rewrite <- Hlen.
    set (results := score_text <$> text :: texts).
    assert (Hres : length results = length (text :: texts))
      by (subst results; apply length_fmap).
    destruct results as [| first rest] eqn:Hresults; [discriminate |].
    unfold _aggregate_sentiment_results. cbv zeta.
    cbn [analysis_details positive_count negative_count neutral_count].
    set (compound_scores := compound <$> first :: rest).
    assert (Hc : length compound_scores = length (text :: texts)).
    { subst compound_scores. rewrite length_fmap. exact Hres. }
    pose proof (count_buckets compound_scores) as Hb.
    pose proof (count_nonneg (fun score => leb 0.05 score) compound_scores).
    pose proof (count_nonneg (fun score => leb score (-0.05)) compound_scores).
    pose proof (count_nonneg Stated.in_neutral_band compound_scores).
    rewrite Hc in Hb.
    split; [reflexivity |]. split; [reflexivity |].
    split; [assumption |]. split; [assumption |].
    split; [lia |]. split; [lia |].
    intros Hno1 Hno2. specialize (Hnone Hno1 Hno2). discriminate.
Qed.

End SentimentSources.

(** ** How many bars an analysis requests *)

Section HistoryLimit.
Import Py.
Import DataFetcher.
Import TechnicalRules.
Import TechnicalHistory.
Context `{PyInt} `{TaLib}.

Lemma endswith_app (s suffix : string) : Text.endswith (s +:+ suffix) suffix = true.
Proof.
  induction s as [| c s IH].
  - change ("" +:+ suffix) with suffix.
    destruct suffix; cbn [Text.endswith]; rewrite String.eqb_refl; reflexivity.
  - change (String c s +:+ suffix) with (String c (s +:+ suffix)).
    cbn [Text.endswith]. rewrite IH. apply orb_true_r.
Qed.

Lemma drop_last_app (s : string) (c : Ascii.ascii) :
  Text.drop_last (s +:+ String c "") = s.
Proof.
  induction s as [| d s IH]; [reflexivity |].
  change (String d s +:+ String c "") with (String d (s +:+ String c "")).
  cbn [Text.drop_last]. rewrite IH.
  destruct s; reflexivity.
Qed.

Lemma bind_ok {A B : Type} (r : result A) (k : A -> result B) (b : B) :
  bind r k = Ok b -> exists a, r = Ok a /\ k a = Ok b.
Proof.
  destruct r as [a | e]; cbn; [eauto | discriminate].
Qed.

Lemma capped_count_ok (total : Z) (step : result Z) (limit : Z) :
  (let* step := step in
   let* count := floordiv total step in
   Ok (Z.min 1000 count)) = Ok limit ->
  (limit <= 1000)%Z.
Proof.
  intros Hrun. apply bind_ok in Hrun. destruct Hrun as (s & _ & Hrun).
  apply bind_ok in Hrun. destruct Hrun as (count & _ & [= <-]). lia.
Qed.

Lemma period_days_suffix_d (digits : string) (days : Z) :
  (String.length digits <= 4300)%nat ->
  Text.decimal digits = Some days ->
  period_days (digits +:+ "d") = Ok days.
Proof.
  intros Hshort Hdigits. unfold period_days.
  rewrite endswith_app, drop_last_app. now apply py_int_decimal.
Qed.

(** X22. The number of bars requested never exceeds 1000; an interval
    outside the listed ones requests 200 bars; daily bars over a period of
    [n] days request [min(1000, n)] bars, hourly ones [min(1000, 24 n)]. *)
Theorem history_limit_bounds :
  (forall (interval period : string) (limit : Z),
      history_limit interval period = Ok limit -> (limit <= 1000)%Z) /\
  (forall (interval period : string) (days : Z),
      period_days period = Ok days ->
      str_in interval ["1m"; "3m"; "5m"; "15m"; "30m";
                       "1h"; "2h"; "4h"; "6h"; "8h"; "12h"; "1d"] = false ->
      history_limit interval period = Ok 200%Z) /\
  (forall (period : string),
      Text.endswith period "d" = false -> Text.endswith period "w" = false ->
      Text.endswith period "m" = false ->
      period_days period = Ok 30%Z) /\
  (forall (digits : string) (days : Z),
      (String.length digits <= 4300)%nat ->
      Text.decimal digits = Some days ->
      history_limit "1d" (digits +:+ "d") = Ok (Z.min 1000 days) /\
      history_limit "1h" (digits +:+ "d") = Ok (Z.min 1000 (days * 24))).
Proof.
  split; [| split; [| split]].
  - intros interval period limit. unfold history_limit.
    intros Hrun. apply bind_ok in Hrun. destruct Hrun as (days & _ & Hrun).
    destruct (str_in interval ["1m"; "3m"; "5m"]);
      [now apply capped_count_ok in Hrun |].
    destruct (str_in interval ["15m"; "30m"]);
      [now apply capped_count_ok in Hrun |].
    destruct (str_in interval ["1h"; "2h"; "4h"; "6h"; "8h"; "12h"]);
      [now apply capped_count_ok in Hrun |].
    destruct (String.eqb interval "1d"); injection Hrun as <-; lia.
  - intros interval period days Hdays Hother. unfold history_limit.
    rewrite Hdays. cbn [bind].
    unfold str_in in *. cbn [existsb] in *.
    repeat match type of Hother with
           | (_ || _)%bool = false => apply orb_false_elim in Hother;
                                      destruct Hother as [?Hne Hother]
           end.
    repeat match goal with
           | Hne : String.eqb interval _ = false |- _ => rewrite Hne; clear Hne
           end.
    reflexivity.
  - intros period Hd Hw Hm. unfold period_days. rewrite Hd, Hw, Hm. reflexivity.
  - intros digits days Hshort Hdigits. unfold history_limit.
    rewrite (period_days_suffix_d digits days Hshort Hdigits). cbn [bind].
    split; [reflexivity |].
    change (str_in "1h" ["1m"; "3m"; "5m"]) with false.
    change (str_in "1h" ["15m"; "30m"]) with false.
    change (str_in "1h" ["1h"; "2h"; "4h"; "6h"; "8h"; "12h"]) with true.
    cbv iota. change (Text.drop_last "1h") with "1".
    assert (Hone : py_int "1" = Ok 1%Z)
      by (apply py_int_decimal; [cbn; lia | reflexivity]).
    rewrite Hone. cbn [bind floordiv Z.eqb].
    rewrite Z.div_1_r. reflexivity.
Qed.

(** X23. Daily bars over fewer than 50 days cannot be analysed: the
    request asks for as many bars as days, and a frame of no more rows
    than requested is rejected as insufficient data. *)
Theorem daily_analysis_needs_fifty_days (symbol digits : string) (days : Z)
    (data : list Bar) :
  (String.length digits <= 4300)%nat ->
  Text.decimal digits = Some days ->
  (days < 50)%Z ->
  history_limit "1d" (digits +:+ "d") = Ok days /\
  ((Z.of_nat (length data) <= days)%Z ->
   TechnicalAnalyzer.analyze symbol (Ok data)
   = Raise (ValueError ("Insufficient data for technical analysis of " +:+ symbol))).
Proof.
  intros Hshort Hdigits Hdays. split.
  - unfold history_limit. rewrite (period_days_suffix_d digits days Hshort Hdigits).
    cbn [bind]. change (str_in "1d" ["1m"; "3m"; "5m"]) with false.
    change (str_in "1d" ["15m"; "30m"]) with false.
    change (str_in "1d" ["1h"; "2h"; "4h"; "6h"; "8h"; "12h"]) with false.
    cbv iota. change (String.eqb "1d" "1d") with true. cbv iota.
    rewrite Z.min_r by lia. reflexivity.
  - intros Hrows. unfold TechnicalAnalyzer.analyze.
    destruct (length data <? 50)%nat eqn:Hlen; [reflexivity |].
    apply Nat.ltb_ge in Hlen. lia.
Qed.

End HistoryLimit.

Lemma daily_analysis_needs_fifty_days_witness :
  TechnicalHistory.history_limit (H := Examples.int_digits) "1d" "30d" = Py.Ok 30%Z /\
  TechnicalAnalyzer.analyze (H := Samples.ta_failing) "BTCUSDT" (Py.Ok Samples.short_series)
  = Py.Raise (Py.ValueError "Insufficient data for technical analysis of BTCUSDT").
Proof.
  destruct (@daily_analysis_needs_fifty_days Examples.int_digits Samples.ta_failing
              "BTCUSDT" "30" 30%Z Samples.short_series) as [Hlimit Hfails].
  - vm_compute. lia.
  - reflexivity.
  - lia.
  - split; [exact Hlimit |]. apply Hfails. vm_compute. discriminate.
Defined.

(** ** Rankings and the market summary *)

Section Rankings.
Import Py.
Import DataFetcher.
Import MarketData.

Context {A : Type} (key : A -> Q).

Lemma insert_by_perm (x : A) (l : list A) : insert_by key true x l ≡ₚ x :: l.
Proof.
  induction l as [| y l IH]; [reflexivity |]. cbn [insert_by].
  destruct (before true (key x) (key y)); [reflexivity |].
  rewrite IH. apply Permutation_swap.
Qed.

Lemma sorted_by_perm (xs : list A) : sorted_by key true xs ≡ₚ xs.
Proof.
  induction xs as [| x xs IH]; [reflexivity |].
  cbn [sorted_by foldr]. fold (sorted_by key true xs).
  rewrite insert_by_perm, IH. reflexivity.
Qed.

Lemma insert_by_sorted (x : A) (l : list A) :
  StronglySorted (descending key) l -> StronglySorted (descending key) (insert_by key true x l).
Proof.
  induction 1 as [| y l Hl IH Hy]; cbn [insert_by].
  - repeat constructor.
  - unfold before. case_leb (key y) (key x).
    + constructor; [constructor; assumption |].
      constructor; [assumption |].
      eapply Forall_impl; [exact Hy |]. unfold descending. intros z Hz. lra.
    + constructor; [assumption |].
      rewrite insert_by_perm. constructor; [unfold descending; lra | assumption].
Qed.

Lemma sorted_by_sorted (xs : list A) : StronglySorted (descending key) (sorted_by key true xs).
Proof.
  induction xs as [| x xs IH]; [constructor |].
  cbn [sorted_by foldr]. now apply insert_by_sorted.
Qed.

Lemma slice_to_split (limit : Z) (xs : list A) :
  exists rest, slice_to limit xs ++ rest = xs.
Proof.
  unfold slice_to. destruct (0 <=? limit)%Z; eexists; apply take_drop.
Qed.

Lemma slice_to_length (limit : Z) (xs : list A) :
  (0 <= limit)%Z -> (Z.of_nat (length (slice_to limit xs)) <= limit)%Z.
Proof.
  intros Hlimit. unfold slice_to.
  destruct (0 <=? limit)%Z eqn:Hsign; [| apply Z.leb_gt in Hsign; lia].
  rewrite length_take. lia.
Qed.

Lemma max_by_spec (first : A) (rest : list A) :
  max_by key first rest ∈ first :: rest /\
  forall x, x ∈ first :: rest -> key x <= key (max_by key first rest).
Proof.
  unfold max_by. revert first.
  induction rest as [| y rest IH]; intros first; cbn [foldl].
  - split; [apply list_elem_of_here |].
    intros x Hx. apply list_elem_of_singleton in Hx. subst x. lra.
  - destruct (IH (if ltb (key first) (key y) then y else first)) as [Hin Hmax].
    split.
    + apply elem_of_cons in Hin. destruct Hin as [-> | Hin].
      * destruct (ltb (key first) (key y));
          [apply list_elem_of_further, list_elem_of_here | apply list_elem_of_here].
      * now do 2 apply list_elem_of_further.
    + intros x Hx.
      assert (Hbest : key first <= key (if ltb (key first) (key y) then y else first)
                      /\ key y <= key (if ltb (key first) (key y) then y else first)).
      { case_ltb (key first) (key y); lra. }
      pose proof (Hmax _ (list_elem_of_here _ _)) as Hhead.
      apply elem_of_cons in Hx. destruct Hx as [-> | Hx]; [lra |].
      apply elem_of_cons in Hx. destruct Hx as [-> | Hx]; [lra |].
      apply Hmax. now apply list_elem_of_further.
Qed.

Lemma min_by_spec (first : A) (rest : list A) :
  min_by key first rest ∈ first :: rest /\
  forall x, x ∈ first :: rest -> key (min_by key first rest) <= key x.
Proof.
  unfold min_by. revert first.
  induction rest as [| y rest IH]; intros first; cbn [foldl].
  - split; [apply list_elem_of_here |].
    intros x Hx. apply list_elem_of_singleton in Hx. subst x. lra.
  - destruct (IH (if ltb (key y) (key first) then y else first)) as [Hin Hmin].
    split.
    + apply elem_of_cons in Hin. destruct Hin as [-> | Hin].
      * destruct (ltb (key y) (key first));
          [apply list_elem_of_further, list_elem_of_here | apply list_elem_of_here].
      * now do 2 apply list_elem_of_further.
    + intros x Hx.
      assert (Hbest : key (if ltb (key y) (key first) then y else first) <= key first
                      /\ key (if ltb (key y) (key first) then y else first) <= key y).
      { case_ltb (key y) (key first); lra. }
      pose proof (Hmin _ (list_elem_of_here _ _)) as Hhead.
      apply elem_of_cons in Hx. destruct Hx as [-> | Hx]; [lra |].
      apply elem_of_cons in Hx. destruct Hx as [-> | Hx]; [lra |].
      apply Hmin. now apply list_elem_of_further.
Qed.

End Rankings.

Section Market.
Import Py.
Import DataFetcher.
Import MarketData.

Implicit Types (tickers : list Ticker).

Lemma elem_of_bool_filter {A : Type} (f : A -> bool) (x : A) (l : list A) :
  x ∈ List.filter f l <-> x ∈ l /\ f x = true.
Proof.
  rewrite !list_elem_of_In. apply filter_In.
Qed.

(** X24. The top symbols are tickers of the requested quote asset, in
    descending order of quote volume; no ticker left out trades more than
    one that is listed, and a limit of at least the number of matching
    tickers lists them all. *)
Theorem top_symbols_ranked tickers (quote_asset : string) (limit : Z) :
  let matching :=
    List.filter (fun ticker => Text.endswith (t_symbol ticker) quote_asset) tickers in
  let top := get_top_symbols tickers quote_asset limit in
  (forall t, t ∈ top -> t ∈ tickers /\ Text.endswith (t_symbol t) quote_asset = true) /\
  StronglySorted (descending t_quoteVolume) top /\
  ((0 <= limit)%Z -> (Z.of_nat (length top) <= limit)%Z) /\
  (exists rest,
      top ++ rest ≡ₚ matching /\
      forall t r, t ∈ top -> r ∈ rest -> t_quoteVolume r <= t_quoteVolume t) /\
  ((Z.of_nat (length matching) <= limit)%Z -> top ≡ₚ matching).
Proof.
  cbv zeta. unfold get_top_symbols. cbv zeta.
  set (matching := List.filter _ tickers).
  pose proof (sorted_by_perm t_quoteVolume matching) as Hperm.
  pose proof (sorted_by_sorted t_quoteVolume matching) as Hsorted.
  destruct (slice_to_split limit (sorted_by t_quoteVolume true matching)) as [rest Hsplit].
  set (top := slice_to limit (sorted_by t_quoteVolume true matching)) in *.
  rewrite <- Hsplit in Hperm, Hsorted.
  split; [| split; [| split; [| split]]].
  - intros t Ht.
    apply (elem_of_bool_filter
             (fun ticker => Text.endswith (t_symbol ticker) quote_asset) t tickers).
    fold matching. rewrite <- Hperm. apply elem_of_app. now left.
  - now apply StronglySorted_app_1_l in Hsorted.
  - apply slice_to_length.
  - exists rest. split; [exact Hperm |].
    intros t r Ht Hr.
    exact (StronglySorted_app_1_elem_of _ _ _ _ _ Hsorted Ht Hr).
  - intros Hall. subst top. unfold slice_to.
    destruct (0 <=? limit)%Z eqn:Hsign; [| apply Z.leb_gt in Hsign; lia].
    rewrite take_ge; [apply sorted_by_perm |].
    rewrite (Permutation_length (sorted_by_perm t_quoteVolume matching)). lia.
Qed.

Lemma change_buckets (pairs : list Ticker) :
  length pairs
  = (length (List.filter (fun ticker => ltb 0 (t_changePercent ticker)) pairs)
     + length (List.filter (fun ticker => ltb (t_changePercent ticker) 0) pairs)
     + length (List.filter (fun ticker => eqb (t_changePercent ticker) 0) pairs))%nat.
Proof.
  induction pairs as [| t pairs IH]; [reflexivity |].
  cbn [List.filter length]. rewrite IH.
  case_ltb 0 (t_changePercent t); case_ltb (t_changePercent t) 0;
    (destruct (eqb (t_changePercent t) 0) eqn:Heq;
     [apply eqb_eq in Heq | apply eqb_neq in Heq]);
    cbn [length]; try lia; try lra; exfalso; apply Heq; lra.
Qed.

(** X25. The market summary covers the USDT pairs, and only says nothing
    when there are none: its three counts add up to the number of pairs,
    the unchanged ones being those with a change of zero; the top gainer,
    the top loser and the most active pair are pairs of the list with the
    extreme change and volume; gainers exist iff the top gainer gained,
    losers iff the top loser lost. *)
Theorem market_summary_consistent tickers :
  let usdt_pairs :=
    List.filter (fun ticker => Text.endswith (t_symbol ticker) "USDT") tickers in
  match get_market_summary tickers with
  | None => usdt_pairs = []
  | Some summary =>
      total_pairs summary = Z.of_nat (length usdt_pairs) /\
      (0 < total_pairs summary)%Z /\
      (gainers_count summary + losers_count summary + unchanged_count summary
       = total_pairs summary)%Z /\
      unchanged_count summary
      = Z.of_nat (length (List.filter (fun ticker => eqb (t_changePercent ticker) 0)
                                      usdt_pairs)) /\
      (exists gainer loser active,
          gainer ∈ usdt_pairs /\ loser ∈ usdt_pairs /\ active ∈ usdt_pairs /\
          top_gainer summary
          = {| m_symbol := t_symbol gainer; m_price := t_price gainer;
               m_change_percent := t_changePercent gainer |} /\
          top_loser summary
          = {| m_symbol := t_symbol loser; m_price := t_price loser;
               m_change_percent := t_changePercent loser |} /\
          most_active summary
          = {| a_symbol := t_symbol active; a_price := t_price active;
               a_volume := t_quoteVolume active |}) /\
      (forall t, t ∈ usdt_pairs ->
         m_change_percent (top_loser summary) <= t_changePercent t
           <= m_change_percent (top_gainer summary) /\
         t_quoteVolume t <= a_volume (most_active summary)) /\
      ((0 < gainers_count summary)%Z <-> 0 < m_change_percent (top_gainer summary)) /\
      ((0 < losers_count summary)%Z <-> m_change_percent (top_loser summary) < 0)
  end.
Proof.
  cbv zeta. unfold get_market_summary. cbv zeta.
  set (usdt_pairs := List.filter _ tickers).
  destruct usdt_pairs as [| first rest] eqn:Hpairs; [reflexivity |].
  cbn [total_pairs gainers_count losers_count unchanged_count top_gainer top_loser
       most_active m_change_percent a_volume].
  destruct (max_by_spec t_changePercent first rest) as [Hgin Hgmax].
  destruct (min_by_spec t_changePercent first rest) as [Hlin Hlmin].
  destruct (max_by_spec t_quoteVolume first rest) as [Hain Hamax].
  pose proof (change_buckets (first :: rest)) as Hbuckets.
  split; [reflexivity |]. split; [cbn [length]; lia |].
  split; [lia |]. split; [lia |].
  split; [| split; [| split]].
  - exists (max_by t_changePercent first rest), (min_by t_changePercent first rest),
      (max_by t_quoteVolume first rest).
    repeat split; assumption.
  - intros t Ht. repeat split; auto.
  - split.
    + intros Hsome.
      destruct (List.filter (fun ticker => ltb 0 (t_changePercent ticker)) (first :: rest))
        as [| g gs] eqn:Hg; [cbn [length] in Hsome; lia |].
      assert (Hgin' : g ∈ List.filter (fun ticker => ltb 0 (t_changePercent ticker))
                                      (first :: rest))
        by (rewrite Hg; apply list_elem_of_here).
      apply elem_of_bool_filter in Hgin'. destruct Hgin' as [Hmem Hpos].
      apply ltb_lt in Hpos. pose proof (Hgmax g Hmem). lra.
    + intros Hpos.
      assert (Hmem : max_by t_changePercent first rest
                     ∈ List.filter (fun ticker => ltb 0 (t_changePercent ticker))
                                   (first :: rest)).
      { apply elem_of_bool_filter. split; [assumption | now apply ltb_lt]. }
      destruct (List.filter (fun ticker => ltb 0 (t_changePercent ticker)) (first :: rest));
        [now apply elem_of_nil in Hmem | cbn [length]; lia].
  - split.
    + intros Hsome.
      destruct (List.filter (fun ticker => ltb (t_changePercent ticker) 0) (first :: rest))
        as [| g gs] eqn:Hg; [cbn [length] in Hsome; lia |].
      assert (Hgin' : g ∈ List.filter (fun ticker => ltb (t_changePercent ticker) 0)
                                      (first :: rest))
        by (rewrite Hg; apply list_elem_of_here).
      apply elem_of_bool_filter in Hgin'. destruct Hgin' as [Hmem Hneg].
      apply ltb_lt in Hneg. pose proof (Hlmin g Hmem). lra.
    + intros Hneg.
      assert (Hmem : min_by t_changePercent first rest
                     ∈ List.filter (fun ticker => ltb (t_changePercent ticker) 0)
                                   (first :: rest)).
      { apply elem_of_bool_filter. split; [assumption | now apply ltb_lt]. }
      destruct (List.filter (fun ticker => ltb (t_changePercent ticker) 0) (first :: rest));
        [now apply elem_of_nil in Hmem | cbn [length]; lia].
Qed.

End Market.

(** ** Histories of several symbols *)

Section Bulk.
Import Py.
Import DataFetcher.
Import BulkHistory.

Variable get_klines : string -> result (list Bar).

Lemma store_batch (batch : list string) (results : gmap string (list Bar)) :
  foldl (fun results '(symbol, outcome) => <[symbol := stored outcome]> results)
        results (zip batch (get_klines <$> batch))
  = foldl (fun results symbol => <[symbol := stored (get_klines symbol)]> results)
          results batch.
Proof.
  revert results. induction batch as [| s batch IH]; intros results; [reflexivity |].
  cbn [fmap list_fmap zip zip_with foldl]. apply IH.
Qed.

Lemma store_batches (symbols : list string) (first count : nat)
      (results : gmap string (list Bar)) :
  foldl (fun results i =>
           let batch := take 5 (drop i symbols) in
           let batch_results := get_klines <$> batch in
           foldl (fun results '(symbol, outcome) => <[symbol := stored outcome]> results)
                 results (zip batch batch_results))
        results ((fun k => k * 5)%nat <$> seq first count)
  = foldl (fun results symbol => <[symbol := stored (get_klines symbol)]> results)
          results (take (count * 5) (drop (first * 5) symbols)).
Proof.
  revert first results. induction count as [| count IH]; intros first results.
  - reflexivity.
  - cbn [seq fmap list_fmap foldl]. cbv zeta. rewrite store_batch.
    change (list_fmap nat nat (fun k => (k * 5)%nat) (seq (S first) count))
      with ((fun k => (k * 5)%nat) <$> seq (S first) count).
    rewrite IH, <- foldl_app. f_equal.
    replace (S first * 5)%nat with (first * 5 + 5)%nat by lia.
    rewrite <- drop_drop, take_take_drop. reflexivity.
Qed.

Lemma stored_lookup (symbols : list string) (results : gmap string (list Bar))
      (symbol : string) :
  foldl (fun results symbol => <[symbol := stored (get_klines symbol)]> results)
        results symbols !! symbol
  = if decide (symbol ∈ symbols) then Some (stored (get_klines symbol))
    else results !! symbol.
Proof.
  revert results. induction symbols as [| s symbols IH]; intros results.
  - cbn [foldl]. case_decide as Hin; [now apply elem_of_nil in Hin | reflexivity].
  - cbn [foldl]. rewrite IH.
    destruct (decide (symbol ∈ symbols)) as [Hin | Hout].
    + rewrite decide_True; [reflexivity | now apply list_elem_of_further].
    + destruct (decide (symbol = s)) as [-> | Hne].
      * rewrite lookup_insert_eq, decide_True; [reflexivity | apply list_elem_of_here].
      * rewrite lookup_insert_ne by congruence.
        rewrite decide_False; [reflexivity |].
        intros Hin. apply elem_of_cons in Hin. tauto.
Qed.

(** X26. Histories in bulk: the batches of five store exactly what a
    single pass over the symbols would; every requested symbol gets an
    entry, its klines or the empty list when its request failed, and no
    other symbol does, so one failing symbol never fails the whole call. *)
Theorem bulk_history_total (symbols : list string) :
  get_historical_data_bulk get_klines symbols
  = foldl (fun results symbol => <[symbol := stored (get_klines symbol)]> results)
          ∅ symbols /\
  forall symbol : string,
    get_historical_data_bulk get_klines symbols !! symbol
    = if decide (symbol ∈ symbols) then
        Some (match get_klines symbol with Ok klines => klines | Raise _ => [] end)
      else None.
Proof.
  assert (Hflat : get_historical_data_bulk get_klines symbols
                  = foldl (fun results symbol =>
                             <[symbol := stored (get_klines symbol)]> results)
                          ∅ symbols).
  { unfold get_historical_data_bulk, range_step. cbv zeta.
    rewrite store_batches. rewrite drop_0, take_ge; [reflexivity |].
    pose proof (Nat.div_mod_eq (length symbols + 5 - 1) 5) as Hdiv.
    pose proof (Nat.mod_upper_bound (length symbols + 5 - 1) 5). lia. }
  split; [exact Hflat |].
  intros symbol. rewrite Hflat, stored_lookup. reflexivity.
Qed.

End Bulk.

(** ** The training sequences of the price model *)

Section TrainingSequences.
Import Py.
Import TechnicalRules.
Import Training.

Implicit Types (scaled_data : list (list Q)) (X : list (list (list Q))) (y : list Q).

(** One turn of the loop of [create_sequences]. *)
Lemma sequences_fold scaled_data (indices : list nat) X0 y0 :
  let step := fun (acc : result (list (list (list Q)) * list Q)) (i : nat) =>
    let* Xy := acc in
    let X := Xy.1 ++ [take 60 (drop (i - 60) scaled_data)] in
    let* target := cell scaled_data i 3 in
    Ok (X, Xy.2 ++ [target]) in
  (forall e, foldl step (Raise e) indices = Raise e) /\
  (forall X y,
      foldl step (Ok (X0, y0)) indices = Ok (X, y) ->
      X = X0 ++ ((fun i => take 60 (drop (i - 60) scaled_data)) <$> indices) /\
      exists targets,
        y = y0 ++ targets /\
        Forall2 (fun i target => cell scaled_data i 3 = Ok target) indices targets) /\
  (Forall (fun i => is_ok (cell scaled_data i 3) = true) indices ->
   exists X y, foldl step (Ok (X0, y0)) indices = Ok (X, y)).
Proof.
  intros step.
  assert (Hraise : forall e, foldl step (Raise e) indices = Raise e).
  { intros e. induction indices as [| i indices IH]; [reflexivity | exact IH]. }
  split; [exact Hraise |]. clear Hraise.
  revert X0 y0. induction indices as [| i indices IH]; intros X0 y0.
  - split.
    + intros X y [= <- <-]. rewrite !app_nil_r. split; [reflexivity |].
      exists []. rewrite app_nil_r. split; [reflexivity | constructor].
    + intros _. now exists X0, y0.
  - cbn [foldl]. unfold step at 2 4. cbn [bind fst snd].
    destruct (cell scaled_data i 3) as [target | e] eqn:Hcell; cbn [bind].
    + destruct (IH (X0 ++ [take 60 (drop (i - 60) scaled_data)]) (y0 ++ [target]))
        as [Hok Hrun].
      split.
      * intros X y Hfold. destruct (Hok X y Hfold) as (-> & targets & -> & Hall).
        rewrite <- !app_assoc. split; [reflexivity |].
        exists (target :: targets). split; [reflexivity |].
        constructor; assumption.
      * intros Hall. apply Hrun. now inversion Hall.
    + split.
      * intros X y Hfold. exfalso.
        assert (Hr : foldl step (Raise e) indices = Raise e).
        { clear. induction indices as [| j indices IH]; [reflexivity | exact IH]. }
        rewrite Hr in Hfold. discriminate.
      * intros Hall. inversion Hall as [| ? ? Hi _]. rewrite Hcell in Hi. discriminate.
Qed.

Lemma training_sequences_lengths scaled_data X y :
  create_sequences scaled_data = Ok (X, y) ->
  length X = (length scaled_data - 60)%nat /\ length y = (length scaled_data - 60)%nat.
Proof.
  intros Hrun. unfold create_sequences in Hrun. cbv zeta in Hrun.
  change PricePredictor.sequence_length with 60%nat in Hrun.
  destruct (sequences_fold scaled_data (seq 60 (length scaled_data - 60)) [] [])
    as (_ & Hok & _).
  cbv zeta in Hok. destruct (Hok X y Hrun) as (-> & targets & -> & Hall).
  cbn [app]. pose proof (Forall2_length _ _ _ Hall) as Hlen.
  rewrite length_seq in Hlen. rewrite length_fmap, length_seq. split; congruence.
Qed.

(** The sequences cut from a scaled matrix. *)
Lemma create_sequences_windows scaled_data X y :
  create_sequences scaled_data = Ok (X, y) ->
  length X = (length scaled_data - 60)%nat /\
  length y = length X /\
  forall k : nat,
    (k < length X)%nat ->
    exists (window : list (list Q)) (target : Q),
      X !! k = Some window /\ y !! k = Some target /\
      window = take 60 (drop k scaled_data) /\
      length window = 60%nat /\
      cell scaled_data (k + 60) 3 = Ok target.
Proof.
  intros Hrun. unfold create_sequences in Hrun. cbv zeta in Hrun.
  change PricePredictor.sequence_length with 60%nat in Hrun.
  destruct (sequences_fold scaled_data (seq 60 (length scaled_data - 60)) [] [])
    as (_ & Hok & _).
  cbv zeta in Hok. destruct (Hok X y Hrun) as (-> & targets & -> & Hall).
  cbn [app] in *.
  pose proof (Forall2_length _ _ _ Hall) as Hlen. rewrite length_seq in Hlen.
  rewrite length_fmap, length_seq.
  split; [reflexivity |]. split; [congruence |].
  intros k Hk.
  destruct (lookup_lt_is_Some_2 targets k) as [target Htarget]; [lia |].
  exists (take 60 (drop k scaled_data)), target.
  assert (Hseq : seq 60 (length scaled_data - 60) !! k = Some (60 + k)%nat)
    by now apply lookup_seq_lt.
  split; [| split; [assumption | split; [reflexivity | split]]].
  - rewrite list_lookup_fmap, Hseq. cbn [fmap option_fmap option_map]. do 3 f_equal. lia.
  - rewrite length_take, length_drop. lia.
  - rewrite Nat.add_comm.
    exact (Forall2_lookup_lr _ _ _ _ _ _ Hall Hseq Htarget).
Qed.

(** A scaled matrix whose rows from the 61st on have a fourth column is
    cut into sequences without an error. *)
Lemma create_sequences_runs scaled_data :
  Forall (fun row => (3 < length row)%nat) (drop 60 scaled_data) ->
  exists X y, create_sequences scaled_data = Ok (X, y).
Proof.
  intros Hwide.
  destruct (sequences_fold scaled_data (seq 60 (length scaled_data - 60)) [] [])
    as (_ & _ & Hrun).
  cbv zeta in Hrun. apply Hrun.
  apply Forall_forall. intros i Hi. apply elem_of_seq in Hi.
  unfold cell.
  destruct (lookup_lt_is_Some_2 scaled_data i) as [row Hrow]; [lia |].
  rewrite Hrow.
  destruct (lookup_lt_is_Some_2 row 3) as [value Hvalue].
  - eapply Forall_lookup_1 with (i := (i - 60)%nat) in Hwide; [exact Hwide |].
    rewrite lookup_drop. replace (60 + (i - 60))%nat with i by lia. exact Hrow.
  - rewrite Hvalue. reflexivity.
Qed.

(** X27.  [_prepare_training_data] on a feature matrix.  Without rows the
    scaler rejects the matrix and the error is raised again, as is any
    other error of the scaler.  When the scaler returns, the scaled matrix
    has the rows of the input; with a fourth column in every row the
    sequences are returned, and they are: one per row from the 61st on,
    each the 60 scaled rows before that row, with the fourth column of
    that row as its target, so that a target is never part of its own
    sequence.  Up to 60 rows give no sequence at all. *)
Theorem training_sequences `{Scaler} :
  (exists msg : string, _prepare_training_data [] = Raise (ValueError msg)) /\
  (forall (data : list (list Q)) (e : exn),
      fit_transform data = Raise e -> _prepare_training_data data = Raise e) /\
  (forall data scaled_data : list (list Q),
      fit_transform data = Ok scaled_data ->
      length scaled_data = length data /\
      (Forall (fun row => (3 < length row)%nat) data ->
       exists X y, _prepare_training_data data = Ok (X, y)) /\
      ((length data <= 60)%nat -> _prepare_training_data data = Ok ([], [])) /\
      (forall X y,
          _prepare_training_data data = Ok (X, y) ->
          length X = (length data - 60)%nat /\
          length y = length X /\
          forall k : nat,
            (k < length X)%nat ->
            exists (window : list (list Q)) (target : Q),
              X !! k = Some window /\ y !! k = Some target /\
              window = take 60 (drop k scaled_data) /\
              length window = 60%nat /\
              cell scaled_data (k + 60) 3 = Ok target)).
Proof.
  split; [| split].
  - destruct fit_transform_empty as [msg Hempty]. exists msg.
    unfold _prepare_training_data. now rewrite Hempty.
  - intros data e Hfail. unfold _prepare_training_data. now rewrite Hfail.
  - intros data scaled_data Hscaled.
    pose proof (fit_transform_shape data scaled_data Hscaled) as Hshape.
    pose proof (Forall2_length _ _ _ Hshape) as Hrows.
    assert (Hprepare : _prepare_training_data data = create_sequences scaled_data).
    { unfold _prepare_training_data. now rewrite Hscaled. }
    rewrite Hprepare.
    split; [now symmetry |]. split; [| split].
    + intros Hwide. apply create_sequences_runs.
      apply Forall_drop. apply Forall_forall. intros scaled_row Hin.
      apply list_elem_of_lookup in Hin as [i Hi].
      destruct (Forall2_lookup_r _ _ _ _ _ Hshape Hi) as (row & Hrow & Hlen).
      rewrite Hlen. eapply Forall_lookup_1 in Hwide; [exact Hwide | exact Hrow].
    + intros Hshort. unfold create_sequences. cbv zeta.
      change PricePredictor.sequence_length with 60%nat.
      replace (length scaled_data - 60)%nat with 0%nat by lia. reflexivity.
    + intros X y Hrun. rewrite Hrows.
      now apply create_sequences_windows.
Qed.

Lemma int_of_float_fraction (n : nat) :
  int_of_float (inject_Z (Z.of_nat n) * 0.8) = (Z.of_nat n * 8 / 10)%Z.
Proof.
  unfold int_of_float. cbn [Qnum Qden Qmult inject_Z Pos.mul].
  apply Z.quot_div_nonneg; lia.
Qed.

(** X28. A model is only trained on 110 scaled rows or more: fewer rows
    give fewer than 50 sequences, which is rejected as insufficient
    training data.  From 110 rows on the sequences are split four to one
    in their order, at least 40 for training and 10 for testing, sequences
    and targets alike. *)
Theorem model_needs_110_rows (symbol : string) scaled_data :
  Forall (fun row => (3 < length row)%nat) scaled_data ->
  ((length scaled_data < 110)%nat ->
   training_split symbol scaled_data
   = Raise (ValueError ("Insufficient training data for " +:+ symbol))) /\
  ((110 <= length scaled_data)%nat ->
   exists (X : list (list (list Q))) (y : list Q) (split : Split),
     create_sequences scaled_data = Ok (X, y) /\
     training_split symbol scaled_data = Ok split /\
     X_train split ++ X_test split = X /\
     y_train split ++ y_test split = y /\
     Z.of_nat (length (X_train split))
     = (Z.of_nat (length scaled_data - 60) * 8 / 10)%Z /\
     length (y_train split) = length (X_train split) /\
     length (y_test split) = length (X_test split) /\
     (40 <= length (X_train split))%nat /\
     (10 <= length (X_test split))%nat).
Proof.
  intros Hwide.
  destruct (sequences_fold scaled_data (seq 60 (length scaled_data - 60)) [] [])
    as (_ & _ & Hrun).
  cbv zeta in Hrun. destruct Hrun as (X & y & Hrun).
  { apply Forall_forall. intros i Hi. apply elem_of_seq in Hi.
    unfold cell.
    destruct (lookup_lt_is_Some_2 scaled_data i) as [row Hrow]; [lia |].
    rewrite Hrow.
    destruct (lookup_lt_is_Some_2 row 3) as [value Hvalue].
    - eapply Forall_lookup_1 in Hwide; [exact Hwide | exact Hrow].
    - rewrite Hvalue. reflexivity. }
  assert (Hseq : create_sequences scaled_data = Ok (X, y)) by exact Hrun.
  destruct (training_sequences_lengths scaled_data X y Hseq) as [HX Hy].
  unfold training_split. rewrite Hseq. cbn [bind fst snd].
  split.
  - intros Hshort. destruct (length X <? 50)%nat eqn:Hgate; [reflexivity |].
    apply Nat.ltb_ge in Hgate. lia.
  - intros Hlong. destruct (length X <? 50)%nat eqn:Hgate;
      [apply Nat.ltb_lt in Hgate; lia |].
    eexists X, y, _. split; [reflexivity |]. split; [reflexivity |].
    cbn [X_train X_test y_train y_test].
    rewrite int_of_float_fraction, !take_drop, !length_take, !length_drop.
    rewrite Hy, HX.
    assert (Hidx : (Z.of_nat (length scaled_data - 60) * 8 / 10
                    <= Z.of_nat (length scaled_data - 60))%Z).
    { apply Z.div_le_upper_bound; lia. }
    assert (Hlow : (40 <= Z.of_nat (length scaled_data - 60) * 8 / 10)%Z).
    { apply Z.div_le_lower_bound; lia. }
    assert (Hrest : (Z.of_nat (length scaled_data - 60) * 8 / 10
                     <= Z.of_nat (length scaled_data - 60) - 10)%Z).
    { apply Z.div_le_upper_bound; lia. }
    repeat split; lia.
Qed.

End TrainingSequences.

Lemma training_sequences_witness :
  exists (X : list (list (list Q))) (y : list Q),
    Training._prepare_training_data (H := Examples.min_max_scaler)
      (Examples.feature_rows 63) = Py.Ok (X, y) /\
    length X = 3%nat /\ length y = 3%nat.
Proof.
  destruct (@training_sequences Examples.min_max_scaler) as (_ & _ & Hscaled).
  destruct (fit_transform (Scaler := Examples.min_max_scaler)
              (Examples.feature_rows 63)) as [scaled_data | e] eqn:Hfit;
    [| vm_compute in Hfit; discriminate Hfit].
  destruct (Hscaled (Examples.feature_rows 63) scaled_data Hfit)
    as (_ & Hruns & _ & Hshape).
  destruct Hruns as (X & y & Hrun).
  { unfold Examples.feature_rows. apply Forall_fmap, Forall_forall.
    intros k _. cbn. lia. }
  exists X, y. split; [exact Hrun |].
  destruct (Hshape X y Hrun) as (HX & Hy & _).
  rewrite Hy, HX. split; reflexivity.
Defined.

Lemma model_needs_110_rows_witness :
  Training.training_split "BTCUSDT" (Examples.scaled_rows 100)
  = Py.Raise (Py.ValueError "Insufficient training data for BTCUSDT").
Proof.
  destruct (model_needs_110_rows "BTCUSDT" (Examples.scaled_rows 100)) as [Hshort _].
  - unfold Examples.scaled_rows. apply Forall_fmap, Forall_forall.
    intros k _. cbn. lia.
  - apply Hshort. vm_compute. lia.
Defined.
